(** * occi_os_api.nova_glue.vm: the VM glue between OCCI and the nova compute API

    A shallow embedding of [occi_os_api/nova_glue/vm.py].  The adapter is a
    sequence of calls to an external compute API with exception remapping,
    so the embedding is an error monad over a trace of the calls made so
    far; the compute API itself is a parameter (a record of functions of the
    call history). *)

From stdpp Require Import base strings list gmap.

Open Scope string_scope.
Open Scope list_scope.

(** ** Constants of the libraries the module imports *)

(** Modelled from the spec: [nova.compute.vm_states] is not among the
    sources; the names are those of the state table of the spec (section
    4.1, derive_state). *)
Module vm_states.
Definition ACTIVE : string := "active".
Definition BUILDING : string := "building".
Definition PAUSED : string := "paused".
Definition SUSPENDED : string := "suspended".
Definition STOPPED : string := "stopped".
Definition RESCUED : string := "rescued".
Definition ERROR : string := "error".
Definition DELETED : string := "deleted".
End vm_states.

(** Modelled from the spec: [nova.compute.task_states] is not among the
    sources; the spec names the task-state of a running snapshot
    "image snapshotting".  Nothing below depends on the literal beyond its
    being none of the [vm_states] above. *)
Module task_states.
Definition IMAGE_SNAPSHOT : string := "image snapshotting".
End task_states.

(** The actions of [occi.extensions.infrastructure] the module refers to. *)
Module infrastructure.
Inductive action := START | STOP | SUSPEND | RESTART.
End infrastructure.

(** The exception classes of [nova.exception] named in the module, with the
    two base classes they derive from; [OtherException] stands for every
    other class a call may raise. *)
Inductive nova_class :=
  | NovaException | NotFound | Invalid
  | InstanceNotFound | FlavorNotFound
  | InstanceInvalidState | InstancePasswordSetFailed
  | OtherException.

#[global] Instance nova_class_eq_dec : EqDecision nova_class.
Proof. solve_decision. Defined.

(** [parent c] is the direct base class of [c] inside [nova.exception]. *)
Definition parent (c : nova_class) : option nova_class :=
  match c with
  | NovaException | OtherException => None
  | NotFound | Invalid | InstancePasswordSetFailed => Some NovaException
  | InstanceNotFound | FlavorNotFound => Some NotFound
  | InstanceInvalidState => Some Invalid
  end.

(** [issubclass c d]: the hierarchy is two levels deep. *)
Definition issubclass (c d : nova_class) : bool :=
  bool_decide (c = d)
  || match parent c with
     | Some p => bool_decide (p = d)
                 || match parent p with
                    | Some q => bool_decide (q = d)
                    | None => false
                    end
     | None => false
     end.

(** ** Data *)

Definition context := string.

(** A provider instance: the fields of the record the module reads. *)
Record instance := {
  uuid : string;
  vm_state : string;
  task_state : option string
}.

(** An instance type (flavor): [flavor['name']], [flavor['flavorid']]. *)
Record flavor := {
  flavor_name : string;
  flavorid : string
}.

(** An exception object raised by the provider: its class and [str()]. *)
Record raised := {
  exc_class : nova_class;
  exc_msg : string
}.

(** What a provider call does: return a value or raise. *)
Inductive result (A : Type) :=
  | Returns (a : A)
  | Raises (e : raised).
Arguments Returns {A} a.
Arguments Raises {A} e.

(** The keyword arguments of [COMPUTE_API.create]. *)
Record create_args := {
  arg_context : context;
  instance_type : flavor;
  image_href : string;
  kernel_id : option string;
  ramdisk_id : option string;
  min_count : nat;
  max_count : nat;
  display_name : option string;
  display_description : option string;
  key_name : option string;
  key_data : option string;
  security_group : list string;
  availability_zone : option string;
  user_data : option string;
  metadata : list (string * string);
  injected_files : list string;
  admin_password : string;
  block_device_mapping : option string;
  access_ip_v4 : option string;
  access_ip_v6 : option string;
  requested_networks : option string;
  config_drive : option string;
  auto_disk_config : option string;
  scheduler_hints : option string
}.

(** The calls the module makes to nova. *)
Inductive call :=
  | CGet (ctx : context) (uid : string)
  | CCreate (args : create_args)
  | CResize (ctx : context) (inst : instance) (flavor_id : string)
  | CConfirmResize (ctx : context) (inst : instance)
  | CReboot (ctx : context) (inst : instance) (reboot_type : string)
  | CSetAdminPassword (ctx : context) (inst : instance) (password : string)
  | CGetVncConsole (ctx : context) (inst : instance) (console_type : string)
  | CInstanceTypeByName (name : string)
  | CDefaultInstanceType.

Inductive reply :=
  | RInstance (i : instance)
  | RCreated (instances : list instance) (reservation_id : string)
  | RFlavor (f : flavor)
  | RConsole (c : string)
  | RNone
  | RRaised (e : raised).

(** What an execution leaves behind, oldest first. *)
Inductive event :=
  | Call (c : call) (r : reply)
  | Password (length : nat) (pw : string)
  | Warn (msg : string)
  | Sleep (secs : nat).

Definition trace := list event.

(** The compute API and the nova helpers, each a function of the history. *)
Record provider := {
  compute_get : trace -> context -> string -> result instance;
  compute_create : trace -> create_args -> result (list instance * string);
  compute_resize : trace -> context -> instance -> string -> result unit;
  compute_confirm_resize : trace -> context -> instance -> result unit;
  compute_reboot : trace -> context -> instance -> string -> result unit;
  compute_set_admin_password :
    trace -> context -> instance -> string -> result unit;
  compute_get_vnc_console :
    trace -> context -> instance -> string -> result string;
  get_instance_type_by_name : trace -> string -> result flavor;
  get_default_instance_type : trace -> result flavor;
  generate_password : trace -> nat -> string
}.

(** [nova.flags.FLAGS], the two flags read here. *)
Record flags := {
  password_length : nat;
  vnc_enabled : bool
}.

(** An OCCI category is identified by scheme and term ([Category.__eq__]). *)
Record category := {
  scheme : string;
  term : string
}.

#[global] Instance category_eq_dec : EqDecision category.
Proof. solve_decision. Defined.

(** Modelled from the spec: [occi_os_api.extensions.os_addon] is not among
    the sources; its two mixins (key-pair extension, security-group family)
    are taken as parameters. *)
Record os_addon := {
  OS_KEY_PAIR_EXT : category;
  SEC_GROUP : category
}.

Record env := {
  FLAGS : flags;
  addon : os_addon;
  nova : provider
}.

(** The exceptions that leave the module.  The spec calls [AttributeError]
    a ValidationError and [HTTPError 404] a NotFoundError. *)
Inductive exn :=
  | AttributeError (msg : string)
  | HTTPError (code : nat) (msg : string)
  | KeyError (key : string)
  | IndexError
  | ProviderError (e : raised).

(** ** The monad: environment, trace, exceptions, and fuel for the one loop *)

Inductive outcome (A : Type) :=
  | Done (a : A)
  | Raise (e : exn)
  | Diverge.
Arguments Done {A} a.
Arguments Raise {A} e.
Arguments Diverge {A}.

Definition M (A : Type) : Type := env -> trace -> outcome A * trace.

Definition ret {A} (a : A) : M A := fun _ tr => (Done a, tr).

Definition bind {A B} (m : M A) (k : A -> M B) : M B :=
  fun E tr =>
    match m E tr with
    | (Done a, tr') => k a E tr'
    | (Raise e, tr') => (Raise e, tr')
    | (Diverge, tr') => (Diverge, tr')
    end.

Definition raise {A} (e : exn) : M A := fun _ tr => (Raise e, tr).

Definition diverge {A} : M A := fun _ tr => (Diverge, tr).

Definition ask : M env := fun E tr => (Done E, tr).

Definition emit (ev : event) : M unit := fun _ tr => (Done tt, tr ++ [ev]).

Declare Scope py_scope.
Delimit Scope py_scope with py.
Notation "x <- m ;; k" := (bind m (fun x => k))
  (at level 100, m at next level, right associativity) : py_scope.
Notation "m ;;; k" := (bind m (fun _ => k))
  (at level 100, right associativity) : py_scope.
Open Scope py_scope.

(** [try: body except ...:]; a handler answers [None] for an exception its
    clause does not name. *)
Definition handler (A : Type) : Type := exn -> option (M A).

Definition try_except {A} (body : M A) (h : handler A) : M A :=
  fun E tr =>
    match body E tr with
    | (Raise e, tr') =>
        match h e with
        | Some recover => recover E tr'
        | None => (Raise e, tr')
        end
    | r => r
    end.

(** [except exception.<cls> as error: k error] *)
Definition except (A : Type) (cls : nova_class) (k : raised -> M A) : handler A :=
  fun e =>
    match e with
    | ProviderError x => if issubclass (exc_class x) cls then Some (k x) else None
    | _ => None
    end.
Arguments except {A} cls k.

(** Two [except] clauses in a row: the first that matches runs. *)
Definition orelse {A} (h1 h2 : handler A) : handler A :=
  fun e => match h1 e with Some m => Some m | None => h2 e end.

(** [str(error)]; in this module it is applied to what a provider call
    raised. *)
Definition str (e : exn) : string :=
  match e with
  | ProviderError x => exc_msg x
  | AttributeError msg => msg
  | HTTPError _ msg => msg
  | KeyError key => "'" +:+ key +:+ "'"
  | IndexError => "list index out of range"
  end.

(** [except Exception as error: k error] *)
Definition except_Exception {A} (k : exn -> M A) : handler A :=
  fun e => Some (k e).

(** A call to nova: ask the provider at the current history, record the
    call with its reply, return or raise. *)
Definition api {A} (c : call) (f : provider -> trace -> result A)
    (inj : A -> reply) : M A :=
  fun E tr =>
    match f (nova E) tr with
    | Returns a => (Done a, tr ++ [Call c (inj a)])
    | Raises e => (Raise (ProviderError e), tr ++ [Call c (RRaised e)])
    end.

Definition COMPUTE_API_get (ctx : context) (uid : string) : M instance :=
  api (CGet ctx uid) (fun p tr => compute_get p tr ctx uid) RInstance.

Definition COMPUTE_API_create (args : create_args)
    : M (list instance * string) :=
  api (CCreate args) (fun p tr => compute_create p tr args)
      (fun r => RCreated r.1 r.2).

Definition COMPUTE_API_resize (ctx : context) (i : instance) (flavor_id : string)
    : M unit :=
  api (CResize ctx i flavor_id) (fun p tr => compute_resize p tr ctx i flavor_id)
      (fun _ => RNone).

Definition COMPUTE_API_confirm_resize (ctx : context) (i : instance) : M unit :=
  api (CConfirmResize ctx i) (fun p tr => compute_confirm_resize p tr ctx i)
      (fun _ => RNone).

Definition COMPUTE_API_reboot (ctx : context) (i : instance) (reboot_type : string)
    : M unit :=
  api (CReboot ctx i reboot_type) (fun p tr => compute_reboot p tr ctx i reboot_type)
      (fun _ => RNone).

Definition COMPUTE_API_set_admin_password (ctx : context) (i : instance)
    (password : string) : M unit :=
  api (CSetAdminPassword ctx i password)
      (fun p tr => compute_set_admin_password p tr ctx i password)
      (fun _ => RNone).

Definition COMPUTE_API_get_vnc_console (ctx : context) (i : instance)
    (console_type : string) : M string :=
  api (CGetVncConsole ctx i console_type)
      (fun p tr => compute_get_vnc_console p tr ctx i console_type) RConsole.

Definition instance_types_get_instance_type_by_name (name : string) : M flavor :=
  api (CInstanceTypeByName name) (fun p tr => get_instance_type_by_name p tr name)
      RFlavor.

Definition instance_types_get_default_instance_type : M flavor :=
  api CDefaultInstanceType (fun p tr => get_default_instance_type p tr) RFlavor.

Definition utils_generate_password (length : nat) : M string :=
  fun E tr =>
    let pw := generate_password (nova E) tr length in
    (Done pw, tr ++ [Password length pw]).

Definition LOG_warn (msg : string) : M unit := emit (Warn msg).

Definition time_sleep (secs : nat) : M unit := emit (Sleep secs).

(** The calls to the compute API among the events of a trace. *)
Definition provider_calls (tr : trace) : list call :=
  omap (fun ev => match ev with Call c _ => Some c | _ => None end) tr.

(** ** The module's functions *)

(** [get_vm(uid, context)] *)
Definition get_vm (uid : string) (ctx : context) : M instance :=
  try_except (COMPUTE_API_get ctx uid)
    (except NotFound (fun _ => raise (HTTPError 404 "VM not found!"))).

(** [x in [a, b, ...]] on strings *)
Definition py_in (x : string) (l : list string) : bool := bool_decide (x ∈ l).

(** [get_occi_state(uid, context)]; the last test reads [vm_state], as the
    source does. *)
Definition get_occi_state (uid : string) (ctx : context)
    : M (string * list infrastructure.action) :=
  instance <- get_vm uid ctx ;;
  let state := "inactive" in
  let actions := [] in
  let '(state, actions) :=
    if py_in (vm_state instance) [vm_states.ACTIVE] then
      ("active",
       actions ++ [infrastructure.STOP] ++ [infrastructure.SUSPEND]
               ++ [infrastructure.RESTART])
    else if py_in (vm_state instance) [vm_states.BUILDING] then
      ("inactive", actions)
    else if py_in (vm_state instance)
              [vm_states.PAUSED; vm_states.SUSPENDED; vm_states.STOPPED] then
      ("inactive", actions ++ [infrastructure.START])
    else if py_in (vm_state instance)
              [vm_states.RESCUED; vm_states.ERROR; vm_states.DELETED] then
      ("inactive", actions)
    else (state, actions) in
  let '(state, actions) :=
    if py_in (vm_state instance) [task_states.IMAGE_SNAPSHOT] then
      ("inactive", [])
    else (state, actions) in
  ret (state, actions).

(** ** Resource descriptions *)

(** Modelled from the spec: [occi_os_api.extensions.os_mixins] is not among
    the sources.  A mixin is an [occi.core_model.Mixin] (a category with its
    related categories) or one of its two subclasses: a ResourceTemplate,
    whose term names a flavor, or an OsTemplate, which carries the id of a
    boot image in [os_id]. *)
Inductive mixin :=
  | Mixin (c : category) (related : list category)
  | ResourceTemplate (c : category) (related : list category)
  | OsTemplate (c : category) (os_id : string) (related : list category).

Definition mixin_category (m : mixin) : category :=
  match m with
  | Mixin c _ | ResourceTemplate c _ | OsTemplate c _ _ => c
  end.

Definition mixin_term (m : mixin) : string := term (mixin_category m).

Definition mixin_related (m : mixin) : list category :=
  match m with
  | Mixin _ r | ResourceTemplate _ r | OsTemplate _ _ r => r
  end.

(** [isinstance(mixin, os_mixins.ResourceTemplate)] and
    [isinstance(mixin, os_mixins.OsTemplate)] *)
Definition is_ResourceTemplate (m : mixin) : bool :=
  match m with ResourceTemplate _ _ => true | _ => false end.

Definition is_OsTemplate (m : mixin) : bool :=
  match m with OsTemplate _ _ _ => true | _ => false end.

(** The OCCI resource entity: [entity.attributes], [entity.mixins]. *)
Record entity := {
  attributes : gmap string string;
  mixins : list mixin
}.

(** [d[key]] on a dict *)
Definition getitem (d : gmap string string) (key : string) : M string :=
  match d !! key with
  | Some v => ret v
  | None => raise (KeyError key)
  end.

(** [mixin.os_id]: only an OsTemplate has the attribute. *)
Definition getattr_os_id (m : mixin) : M string :=
  match m with
  | OsTemplate _ os_id _ => ret os_id
  | _ => raise (AttributeError "object has no attribute 'os_id'")
  end.

(** The locals of [create_vm] that the loop over the mixins assigns. *)
Record locals := {
  resource_template : option mixin;
  os_template : option mixin;
  l_key_name : option string;
  l_key_data : option string;
  sg_names : list string
}.

Definition locals0 : locals :=
  {| resource_template := None; os_template := None;
     l_key_name := None; l_key_data := None; sg_names := [] |}.

Definition set_resource_template (m : mixin) (st : locals) : locals :=
  {| resource_template := Some m; os_template := os_template st;
     l_key_name := l_key_name st; l_key_data := l_key_data st;
     sg_names := sg_names st |}.

Definition set_os_template (m : mixin) (st : locals) : locals :=
  {| resource_template := resource_template st; os_template := Some m;
     l_key_name := l_key_name st; l_key_data := l_key_data st;
     sg_names := sg_names st |}.

Definition set_key (name data : string) (st : locals) : locals :=
  {| resource_template := resource_template st; os_template := os_template st;
     l_key_name := Some name; l_key_data := Some data;
     sg_names := sg_names st |}.

Definition append_sg_name (name : string) (st : locals) : locals :=
  {| resource_template := resource_template st; os_template := os_template st;
     l_key_name := l_key_name st; l_key_data := l_key_data st;
     sg_names := sg_names st ++ [name] |}.

(** One turn of [for mixin in entity.mixins]. *)
Definition scan_mixin (ent : entity) (m : mixin) (st : locals) : M locals :=
  E <- ask ;;
  st <- (if is_ResourceTemplate m then ret (set_resource_template m st)
         else if is_OsTemplate m then ret (set_os_template m st)
         else if bool_decide (mixin_category m = OS_KEY_PAIR_EXT (addon E)) then
           name <- getitem (attributes ent)
                     "org.openstack.credentials.publickey.name" ;;
           data <- getitem (attributes ent)
                     "org.openstack.credentials.publickey.data" ;;
           ret (set_key name data st)
         else ret st) ;;
  if bool_decide (SEC_GROUP (addon E) ∈ mixin_related m)
  then ret (append_sg_name (mixin_term m) st)
  else ret st.

Fixpoint scan_mixins (ent : entity) (ms : list mixin) (st : locals) : M locals :=
  match ms with
  | [] => ret st
  | m :: rest => st <- scan_mixin ent m st ;; scan_mixins ent rest st
  end.

(** The keyword arguments [create_vm] hands to [COMPUTE_API.create]. *)
Definition create_kwargs (ctx : context) (inst_type : flavor) (os_id : string)
    (name : option string) (st : locals) (password : string) : create_args :=
  {| arg_context := ctx;
     instance_type := inst_type;
     image_href := os_id;
     kernel_id := None;
     ramdisk_id := None;
     min_count := 1;
     max_count := 1;
     display_name := name;
     display_description := name;
     key_name := l_key_name st;
     key_data := l_key_data st;
     security_group := sg_names st;
     availability_zone := None;
     user_data := None;
     metadata := [];
     injected_files := [];
     admin_password := password;
     block_device_mapping := None;
     access_ip_v4 := None;
     access_ip_v6 := None;
     requested_networks := None;
     config_drive := None;
     auto_disk_config := None;
     scheduler_hints := None |}.

(** [instances[0]] *)
Definition first_instance (instances : list instance) : M instance :=
  match instances with
  | first :: _ => ret first
  | [] => raise IndexError
  end.

(** The [try] around [COMPUTE_API.create] and the [return instances[0]]
    after it. *)
Definition make_the_call (ctx : context) (inst_type : flavor) (os_tpl : mixin)
    (name : option string) (st : locals) (password : string) : M instance :=
  created <-
    try_except
      (os_id <- getattr_os_id os_tpl ;;
       COMPUTE_API_create (create_kwargs ctx inst_type os_id name st password))
      (except_Exception (fun error => raise (AttributeError (str error)))) ;;
  first_instance created.1.

(** [create_vm(entity, context)] *)
Definition create_vm (ent : entity) (ctx : context) : M instance :=
  E <- ask ;;
  let name := attributes ent !! "occi.compute.hostname" in
  password <- utils_generate_password (password_length (FLAGS E)) ;;
  st <- scan_mixins ent (mixins ent) locals0 ;;
  match os_template st with
  | None => raise (AttributeError "Please provide a valid OS Template.")
  | Some os_tpl =>
      inst_type <-
        match resource_template st with
        | Some res_tpl =>
            instance_types_get_instance_type_by_name (mixin_term res_tpl)
        | None =>
            inst_type <- instance_types_get_default_instance_type ;;
            LOG_warn ("No resource template was found in the request. "
                      +:+ "Using the default: " +:+ flavor_name inst_type) ;;;
            ret inst_type
        end ;;
      make_the_call ctx inst_type os_tpl name st password
  end.

(** The loop of [resize_vm]: [while not ready or i < 15]; [fuel] bounds the
    number of turns the model follows. *)
Fixpoint resize_poll (fuel : nat) (uid : string) (ctx : context)
    (ready : bool) (i : nat) : M unit :=
  if negb ready || bool_decide (i < 15) then
    match fuel with
    | O => diverge
    | S fuel' =>
        let i := i + 1 in
        inst <- get_vm uid ctx ;;
        let state := vm_state inst in
        let ready := if bool_decide (state = "resized") then true else ready in
        time_sleep 1 ;;;
        resize_poll fuel' uid ctx ready i
    end
  else ret tt.

(** [resize_vm(uid, flavor_name, context)] *)
Definition resize_vm (fuel : nat) (uid flavor_name : string) (ctx : context)
    : M unit :=
  inst <- get_vm uid ctx ;;
  try_except
    (flv <- instance_types_get_instance_type_by_name flavor_name ;;
     COMPUTE_API_resize ctx inst (flavorid flv) ;;;
     resize_poll fuel uid ctx false 0 ;;;
     inst <- get_vm uid ctx ;;
     COMPUTE_API_confirm_resize ctx inst)
    (orelse
       (except FlavorNotFound
          (fun _ => raise (AttributeError "Unable to locate requested flavor.")))
       (except InstanceInvalidState
          (fun error =>
             raise (AttributeError
                      ("VM is in an invalid state: " +:+ exc_msg error))))).

(** A Python string object as [restart_vm] sees it: its characters, and
    whether it is the interned object CPython keeps per identifier-like
    constant.  The constant ['cold'] in the code is interned; a string built
    at run time (parsed from a request) with the same characters is another
    object. *)
Record str_obj := {
  chars : string;
  interned : bool
}.

(** [x is '<lit>'] for a constant of the code: object identity. *)
Definition py_is_const (x : str_obj) (lit : string) : bool :=
  interned x && bool_decide (chars x = lit).

(** [restart_vm(uid, method, context)] *)
Definition restart_vm (uid : string) (method : str_obj) (ctx : context)
    : M unit :=
  inst <- get_vm uid ctx ;;
  reboot_type <-
    (if py_in (chars method) ["graceful"; "warm"] then ret "SOFT"
     else if py_is_const method "cold" then ret "HARD"
     else raise (AttributeError "Unknown method.")) ;;
  try_except (COMPUTE_API_reboot ctx inst reboot_type)
    (except InstanceInvalidState
       (fun _ => raise (HTTPError 406 "VM is in an invalid state."))).

(** [set_password_for_vm(uid, password, context)] *)
Definition set_password_for_vm (uid password : string) (ctx : context)
    : M unit :=
  inst <- get_vm uid ctx ;;
  try_except (COMPUTE_API_set_admin_password ctx inst password)
    (except InstancePasswordSetFailed
       (fun error =>
          LOG_warn ("Unable to set password - driver might not support it! "
                    +:+ exc_msg error))).

(** [get_vnc(uid, context)] *)
Definition get_vnc (uid : string) (ctx : context) : M (option string) :=
  E <- ask ;;
  let console := None in
  if vnc_enabled (FLAGS E) then
    inst <- get_vm uid ctx ;;
    try_except
      (console <- COMPUTE_API_get_vnc_console ctx inst "novnc" ;;
       ret (Some console))
      (except InstanceNotFound
         (fun _ => LOG_warn "Console info is not available atm!" ;;;
                   ret console))
  else ret console.

(** ** Concrete environments, for evaluating the functions *)

Definition demo_addon : os_addon :=
  {| OS_KEY_PAIR_EXT :=
       {| scheme := "http://schemas.openstack.org/instance/credentials#";
          term := "public_key" |};
     SEC_GROUP :=
       {| scheme := "http://schemas.ogf.org/occi/infrastructure/security#";
          term := "group" |} |}.

Definition demo_flags : flags := {| password_length := 12; vnc_enabled := true |}.

Definition not_found (uid : string) : raised :=
  {| exc_class := InstanceNotFound;
     exc_msg := "Instance " +:+ uid +:+ " could not be found." |}.

(** Answer [a] unless the fault plan has an exception for the call. *)
Definition answer {A} (fault : call -> option raised) (c : call) (a : A)
    : result A :=
  match fault c with
  | Some e => Raises e
  | None => Returns a
  end.

(** A provider that knows the instances of [known] by uuid, answers every
    flavor lookup and accepts every request, except for the calls that
    [fault] makes raise. *)
Definition faulty_provider (known : list instance)
    (fault : call -> option raised) : provider :=
  {| compute_get := fun _ ctx uid =>
       match fault (CGet ctx uid) with
       | Some e => Raises e
       | None =>
           match find (fun i => bool_decide (uuid i = uid)) known with
           | Some i => Returns i
           | None => Raises (not_found uid)
           end
       end;
     compute_create := fun _ args =>
       answer fault (CCreate args)
         ([ {| uuid := "vm-new"; vm_state := "building";
               task_state := Some "scheduling" |} ], "r-1");
     compute_resize := fun _ ctx i fid => answer fault (CResize ctx i fid) tt;
     compute_confirm_resize := fun _ ctx i =>
       answer fault (CConfirmResize ctx i) tt;
     compute_reboot := fun _ ctx i kind => answer fault (CReboot ctx i kind) tt;
     compute_set_admin_password := fun _ ctx i pw =>
       answer fault (CSetAdminPassword ctx i pw) tt;
     compute_get_vnc_console := fun _ ctx i kind =>
       answer fault (CGetVncConsole ctx i kind) "http://console/vm";
     get_instance_type_by_name := fun _ name =>
       answer fault (CInstanceTypeByName name)
         {| flavor_name := name; flavorid := "2" |};
     get_default_instance_type := fun _ =>
       answer fault CDefaultInstanceType
         {| flavor_name := "m1.tiny"; flavorid := "1" |};
     generate_password := fun _ _ => "aB3dE6gH9jK2" |}.

Definition faulty_env (known : list instance) (fault : call -> option raised)
    : env :=
  {| FLAGS := demo_flags; addon := demo_addon;
     nova := faulty_provider known fault |}.

Definition demo_env (known : list instance) : env :=
  faulty_env known (fun _ => None).

(** Fault plans: one kind of call raises, whatever its arguments. *)
Definition set_admin_password_raises (e : raised) (c : call) : option raised :=
  match c with CSetAdminPassword _ _ _ => Some e | _ => None end.

Definition get_vnc_console_raises (e : raised) (c : call) : option raised :=
  match c with CGetVncConsole _ _ _ => Some e | _ => None end.

Definition create_raises (e : raised) (c : call) : option raised :=
  match c with CCreate _ => Some e | _ => None end.

Definition invalid_state : raised :=
  {| exc_class := InstanceInvalidState;
     exc_msg := "Instance vm-1 in vm_state stopped. Cannot set_admin_password." |}.

Definition password_set_failed : raised :=
  {| exc_class := InstancePasswordSetFailed;
     exc_msg := "Failed to set admin password on vm-1" |}.

(** A string with the given characters made at run time, and the interned
    constant with the same characters. *)
Definition runtime_str (s : string) : str_obj := {| chars := s; interned := false |}.
Definition const_str (s : string) : str_obj := {| chars := s; interned := true |}.

Definition vm1 (state : string) (task : option string) : instance :=
  {| uuid := "vm-1"; vm_state := state; task_state := task |}.

Definition vnc_off_env (known : list instance) : env :=
  {| FLAGS := {| password_length := 12; vnc_enabled := false |};
     addon := demo_addon;
     nova := faulty_provider known (fun _ => None) |}.

(** ** Reading a resource description *)

(** The last mixin of a kind, in list order. *)
Definition last_where (p : mixin -> bool) (ms : list mixin) : option mixin :=
  last (List.filter p ms).

(** The mixins for which the loop reads the two public-key attributes. *)
Definition reads_key (E : env) (m : mixin) : bool :=
  negb (is_ResourceTemplate m) && negb (is_OsTemplate m)
  && bool_decide (mixin_category m = OS_KEY_PAIR_EXT (addon E)).

(** Every key-pair mixin of the description finds its two attributes. *)
Definition key_attributes_supplied (E : env) (ent : entity) : Prop :=
  (exists m, m ∈ mixins ent /\ reads_key E m = true) ->
  is_Some (attributes ent !! "org.openstack.credentials.publickey.name")
  /\ is_Some (attributes ent !! "org.openstack.credentials.publickey.data").

Definition tpl (t : string) : category :=
  {| scheme := "http://schemas.openstack.org/template/"; term := t |}.

Definition key_pair_mixin : mixin := Mixin (OS_KEY_PAIR_EXT demo_addon) [].

Definition web1 (ms : list mixin) : entity :=
  {| attributes := {[ "occi.compute.hostname" := "web1" ]}; mixins := ms |}.

Definition quota_exceeded : raised :=
  {| exc_class := OtherException;
     exc_msg := "Quota exceeded for instances: Requested 1, but already used 10 of 10 instances" |}.

Definition ubuntu : mixin := OsTemplate (tpl "ubuntu-12.04") "image-1" [].
Definition m1_small : mixin := ResourceTemplate (tpl "m1.small") [].
Definition m1_large : mixin := ResourceTemplate (tpl "m1.large") [].

(** What the trace records for the reply to [COMPUTE_API.create]. *)
Definition created_reply (res : result (list instance * string)) : reply :=
  match res with
  | Returns (instances, rid) => RCreated instances rid
  | Raises e => RRaised e
  end.

(** ** Reading the trace of a resize *)

(** A fetch of [uid] among the events answered with an instance whose
    [vm_state] is 'resized'. *)
Definition observed_resized (uid : string) (evs : list event) : Prop :=
  exists ctx i, Call (CGet ctx uid) (RInstance i) ∈ evs /\ vm_state i = "resized".

(** The events that are a confirm-resize request. *)
Definition is_confirm (ev : event) : bool :=
  match ev with Call (CConfirmResize _ _) _ => true | _ => false end.



(** ** Reading the traces of the other operations *)

(** The events that are a creation request, a reboot request, a sleep. *)
Definition is_create (ev : event) : bool :=
  match ev with Call (CCreate _) _ => true | _ => false end.

Definition is_reboot (ev : event) : bool :=
  match ev with Call (CReboot _ _ _) _ => true | _ => false end.

Definition is_sleep (ev : event) : bool :=
  match ev with Sleep _ => true | _ => false end.

(** The seconds slept in a stretch of events. *)
Definition slept (evs : list event) : nat :=
  sum_list (omap (fun ev => match ev with Sleep n => Some n | _ => None end) evs).

(** The mixins the loop of [create_vm] takes for security groups. *)
Definition in_sec_group (E : env) (m : mixin) : bool :=
  bool_decide (SEC_GROUP (addon E) ∈ mixin_related m).

(** ** The rest of the module

    [rebuild_vm], [delete_vm], [suspend_vm], [snapshot_vm], [start_vm],
    [stop_vm], [attach_volume], [detach_volume] and [get_vms] use more of
    nova: further calls of the compute API, the volume API, further
    exception classes and one more flag.  They run in a second monad of the
    same shape, over a trace that holds the events above next to the new
    calls; [get_vm] and [utils.generate_password] are run in it through
    [lift]. *)

(** The classes of [nova.exception] named by these functions, next to the
    ones above: ImageNotFound and VolumeNotFound derive from NotFound, the
    other three from Invalid. *)
Inductive xclass :=
  | Nova (c : nova_class)
  | ImageNotFound | VolumeNotFound
  | InvalidDevicePath | InvalidVolume | VolumeUnattached.

#[global] Instance xclass_eq_dec : EqDecision xclass.
Proof. solve_decision. Defined.

Definition xissubclass (c d : xclass) : bool :=
  match d with
  | Nova d' =>
      match c with
      | Nova c' => issubclass c' d'
      | ImageNotFound | VolumeNotFound => issubclass NotFound d'
      | InvalidDevicePath | InvalidVolume | VolumeUnattached =>
          issubclass Invalid d'
      end
  | _ => bool_decide (c = d)
  end.

Record xraised := {
  xexc_class : xclass;
  xexc_msg : string
}.

Inductive xresult (A : Type) :=
  | XReturns (a : A)
  | XRaises (e : xraised).
Arguments XReturns {A} a.
Arguments XRaises {A} e.

(** A volume as the volume API returns it: [vol_instance['id']]. *)
Record volume := {
  vol_id : string
}.

Inductive xcall :=
  | XRebuild (ctx : context) (inst : instance) (image_href : string)
      (admin_password : string)
  | XSoftDelete (ctx : context) (inst : instance)
  | XDelete (ctx : context) (inst : instance)
  | XPause (ctx : context) (inst : instance)
  | XResume (ctx : context) (inst : instance)
  | XSuspend (ctx : context) (inst : instance)
  | XSnapshot (ctx : context) (inst : instance) (image_name : string)
  | XVolumeGet (ctx : context) (volume_id : string)
  | XAttachVolume (ctx : context) (inst : instance) (volume_id : string)
      (mount_point : string)
  | XDetachVolume (ctx : context) (volume_id : string)
  | XGetAll (ctx : context) (search_opts : list (string * bool)).

Inductive xreply :=
  | XNone
  | XVolume (v : volume)
  | XInstances (l : list instance)
  | XRaised (e : xraised).

Inductive xevent :=
  | Old (ev : event)
  | XCall (c : xcall) (r : xreply).

Definition xtrace := list xevent.

(** The events of the first kind in a trace. *)
Definition old_events (tr : xtrace) : trace :=
  omap (fun ev => match ev with Old ev => Some ev | _ => None end) tr.

(** The calls of the second kind in a trace. *)
Definition xcalls (tr : xtrace) : list xcall :=
  omap (fun ev => match ev with XCall c _ => Some c | _ => None end) tr.

(** The provider for the whole module: the compute API as above, which may
    now depend on the whole history, and the further calls. *)
Record xprovider := {
  base_nova : xtrace -> provider;
  compute_rebuild :
    xtrace -> context -> instance -> string -> string -> xresult unit;
  compute_soft_delete : xtrace -> context -> instance -> xresult unit;
  compute_delete : xtrace -> context -> instance -> xresult unit;
  compute_pause : xtrace -> context -> instance -> xresult unit;
  compute_resume : xtrace -> context -> instance -> xresult unit;
  compute_suspend : xtrace -> context -> instance -> xresult unit;
  compute_snapshot : xtrace -> context -> instance -> string -> xresult unit;
  volume_get : xtrace -> context -> string -> xresult volume;
  compute_attach_volume :
    xtrace -> context -> instance -> string -> string -> xresult unit;
  compute_detach_volume : xtrace -> context -> string -> xresult unit;
  compute_get_all :
    xtrace -> context -> list (string * bool) -> xresult (list instance)
}.

(** [FLAGS.reclaim_instance_interval] is an integer; Python takes any
    value but 0 for true. *)
Record xenv := {
  xFLAGS : flags;
  reclaim_instance_interval : Z;
  xaddon : os_addon;
  xnova : xprovider
}.

(** The environment of the functions above, at a history. *)
Definition base_env (E : xenv) (tr : xtrace) : env :=
  {| FLAGS := xFLAGS E; addon := xaddon E; nova := base_nova (xnova E) tr |}.

(** What leaves these functions: an exception of the first kind, raised by
    the module or by [get_vm], or an exception of a provider call. *)
Inductive xexn :=
  | Escaped (e : exn)
  | XProviderError (e : xraised).

Inductive xoutcome (A : Type) :=
  | XDone (a : A)
  | XRaise (e : xexn)
  | XDiverge.
Arguments XDone {A} a.
Arguments XRaise {A} e.
Arguments XDiverge {A}.

Definition MX (A : Type) : Type := xenv -> xtrace -> xoutcome A * xtrace.

Definition xret {A} (a : A) : MX A := fun _ tr => (XDone a, tr).

Definition xbind {A B} (m : MX A) (k : A -> MX B) : MX B :=
  fun E tr =>
    match m E tr with
    | (XDone a, tr') => k a E tr'
    | (XRaise e, tr') => (XRaise e, tr')
    | (XDiverge, tr') => (XDiverge, tr')
    end.

Definition xraise {A} (e : exn) : MX A := fun _ tr => (XRaise (Escaped e), tr).

Definition xask : MX xenv := fun E tr => (XDone E, tr).

Declare Scope pyx_scope.
Delimit Scope pyx_scope with pyx.
Notation "x <- m ;; k" := (xbind m (fun x => k))
  (at level 100, m at next level, right associativity) : pyx_scope.
Notation "m ;;; k" := (xbind m (fun _ => k))
  (at level 100, right associativity) : pyx_scope.

(** Run a function of the first kind: it sees the provider at the current
    history and the events of its kind; what it appends is appended. *)
Definition lift {A} (m : M A) : MX A :=
  fun E tr =>
    let old := old_events tr in
    let run := m (base_env E tr) old in
    (match run.1 with
     | Done a => XDone a
     | Raise e => XRaise (Escaped e)
     | Diverge => XDiverge
     end,
     tr ++ (Old <$> drop (length old) run.2)).

Definition xhandler (A : Type) : Type := xexn -> option (MX A).

Definition xtry_except {A} (body : MX A) (h : xhandler A) : MX A :=
  fun E tr =>
    match body E tr with
    | (XRaise e, tr') =>
        match h e with
        | Some recover => recover E tr'
        | None => (XRaise e, tr')
        end
    | r => r
    end.

(** The class and [str()] of an exception a provider raised, of either
    kind. *)
Definition provider_class (e : xexn) : option xclass :=
  match e with
  | XProviderError x => Some (xexc_class x)
  | Escaped (ProviderError x) => Some (Nova (exc_class x))
  | Escaped _ => None
  end.

Definition xstr (e : xexn) : string :=
  match e with
  | XProviderError x => xexc_msg x
  | Escaped e => str e
  end.

(** [except exception.<cls>: k] *)
Definition xexcept {A} (cls : xclass) (k : MX A) : xhandler A :=
  fun e =>
    match provider_class e with
    | Some c => if xissubclass c cls then Some k else None
    | None => None
    end.

Definition xorelse {A} (h1 h2 : xhandler A) : xhandler A :=
  fun e => match h1 e with Some m => Some m | None => h2 e end.

(** [except Exception as error: k error] *)
Definition xexcept_Exception {A} (k : xexn -> MX A) : xhandler A :=
  fun e => Some (k e).

Definition xapi {A} (c : xcall) (f : xprovider -> xtrace -> xresult A)
    (inj : A -> xreply) : MX A :=
  fun E tr =>
    match f (xnova E) tr with
    | XReturns a => (XDone a, tr ++ [XCall c (inj a)])
    | XRaises e => (XRaise (XProviderError e), tr ++ [XCall c (XRaised e)])
    end.

Definition COMPUTE_API_rebuild (ctx : context) (i : instance)
    (image_href admin_password : string) : MX unit :=
  xapi (XRebuild ctx i image_href admin_password)
    (fun p tr => compute_rebuild p tr ctx i image_href admin_password)
    (fun _ => XNone).

Definition COMPUTE_API_soft_delete (ctx : context) (i : instance) : MX unit :=
  xapi (XSoftDelete ctx i) (fun p tr => compute_soft_delete p tr ctx i)
    (fun _ => XNone).

Definition COMPUTE_API_delete (ctx : context) (i : instance) : MX unit :=
  xapi (XDelete ctx i) (fun p tr => compute_delete p tr ctx i) (fun _ => XNone).

Definition COMPUTE_API_pause (ctx : context) (i : instance) : MX unit :=
  xapi (XPause ctx i) (fun p tr => compute_pause p tr ctx i) (fun _ => XNone).

Definition COMPUTE_API_resume (ctx : context) (i : instance) : MX unit :=
  xapi (XResume ctx i) (fun p tr => compute_resume p tr ctx i) (fun _ => XNone).

Definition COMPUTE_API_suspend (ctx : context) (i : instance) : MX unit :=
  xapi (XSuspend ctx i) (fun p tr => compute_suspend p tr ctx i)
    (fun _ => XNone).

Definition COMPUTE_API_snapshot (ctx : context) (i : instance)
    (image_name : string) : MX unit :=
  xapi (XSnapshot ctx i image_name)
    (fun p tr => compute_snapshot p tr ctx i image_name) (fun _ => XNone).

Definition VOLUME_API_get (ctx : context) (volume_id : string) : MX volume :=
  xapi (XVolumeGet ctx volume_id) (fun p tr => volume_get p tr ctx volume_id)
    XVolume.

Definition COMPUTE_API_attach_volume (ctx : context) (i : instance)
    (volume_id mount_point : string) : MX unit :=
  xapi (XAttachVolume ctx i volume_id mount_point)
    (fun p tr => compute_attach_volume p tr ctx i volume_id mount_point)
    (fun _ => XNone).

Definition COMPUTE_API_detach_volume (ctx : context) (volume_id : string)
    : MX unit :=
  xapi (XDetachVolume ctx volume_id)
    (fun p tr => compute_detach_volume p tr ctx volume_id) (fun _ => XNone).

Definition COMPUTE_API_get_all (ctx : context)
    (search_opts : list (string * bool)) : MX (list instance) :=
  xapi (XGetAll ctx search_opts)
    (fun p tr => compute_get_all p tr ctx search_opts) XInstances.

Open Scope pyx_scope.

(** [rebuild_vm(uid, image_href, context)] *)
Definition rebuild_vm (uid image_href : string) (ctx : context) : MX unit :=
  inst <- lift (get_vm uid ctx) ;;
  E <- xask ;;
  admin_password <-
    lift (utils_generate_password (password_length (xFLAGS E))) ;;
  xtry_except (COMPUTE_API_rebuild ctx inst image_href admin_password)
    (xorelse
       (xexcept (Nova InstanceInvalidState)
          (xraise (AttributeError "VM is in an invalid state.")))
       (xexcept ImageNotFound
          (xraise (AttributeError "Cannot find image for rebuild")))).

(** [delete_vm(uid, context)] *)
Definition delete_vm (uid : string) (ctx : context) : MX unit :=
  inst <- lift (get_vm uid ctx) ;;
  E <- xask ;;
  if bool_decide (reclaim_instance_interval E <> 0%Z)
  then COMPUTE_API_soft_delete ctx inst
  else COMPUTE_API_delete ctx inst.

(** [suspend_vm(uid, context)] *)
Definition suspend_vm (uid : string) (ctx : context) : MX unit :=
  inst <- lift (get_vm uid ctx) ;;
  xtry_except (COMPUTE_API_pause ctx inst)
    (xexcept_Exception (fun error => xraise (HTTPError 500 (xstr error)))).

(** [snapshot_vm(uid, image_name, context)] *)
Definition snapshot_vm (uid image_name : string) (ctx : context) : MX unit :=
  inst <- lift (get_vm uid ctx) ;;
  xtry_except (COMPUTE_API_snapshot ctx inst image_name)
    (xexcept (Nova InstanceInvalidState)
       (xraise (AttributeError "VM is not in an valid state."))).

(** [start_vm(uid, context)] *)
Definition start_vm (uid : string) (ctx : context) : MX unit :=
  inst <- lift (get_vm uid ctx) ;;
  xtry_except (COMPUTE_API_resume ctx inst)
    (xexcept_Exception
       (fun error =>
          xraise (HTTPError 500 ("Error while starting VM: " +:+ xstr error)))).

(** [stop_vm(uid, context)] *)
Definition stop_vm (uid : string) (ctx : context) : MX unit :=
  inst <- lift (get_vm uid ctx) ;;
  xtry_except (COMPUTE_API_suspend ctx inst)
    (xexcept_Exception
       (fun error =>
          xraise (HTTPError 500 ("Error while stopping VM: " +:+ xstr error)))).

(** [attach_volume(instance_id, volume_id, mount_point, context)] *)
Definition attach_volume (instance_id volume_id mount_point : string)
    (ctx : context) : MX unit :=
  inst <- lift (get_vm instance_id ctx) ;;
  xtry_except
    (vol_instance <- VOLUME_API_get ctx volume_id ;;
     let volume_id := vol_id vol_instance in
     COMPUTE_API_attach_volume ctx inst volume_id mount_point)
    (xorelse
       (xexcept (Nova NotFound) (xraise (HTTPError 404 "Volume not found!")))
       (xexcept InvalidDevicePath
          (xraise (AttributeError "Invalid device path!")))).

(** [detach_volume(volume_id, context)] *)
Definition detach_volume (volume_id : string) (ctx : context) : MX unit :=
  xtry_except (COMPUTE_API_detach_volume ctx volume_id)
    (xorelse
       (xexcept InvalidVolume (xraise (AttributeError "Invalid volume!")))
       (xexcept VolumeUnattached
          (xraise (AttributeError "Volume is not attached!")))).

(** [get_vms(context)] *)
Definition get_vms (ctx : context) : MX (list instance) :=
  let opts := [("deleted", false)] in
  tmp <- COMPUTE_API_get_all ctx opts ;;
  xret tmp.

Close Scope pyx_scope.

(** A provider for the whole module: the instances known may change with
    the history, every request is accepted except where a fault plan says
    otherwise. *)
Definition xanswer {A} (fault : xcall -> option xraised) (c : xcall) (a : A)
    : xresult A :=
  match fault c with
  | Some e => XRaises e
  | None => XReturns a
  end.

Definition demo_xprovider (known : xtrace -> list instance)
    (fault : call -> option raised) (xfault : xcall -> option xraised)
    : xprovider :=
  {| base_nova := fun tr => faulty_provider (known tr) fault;
     compute_rebuild := fun _ ctx i img pw =>
       xanswer xfault (XRebuild ctx i img pw) tt;
     compute_soft_delete := fun _ ctx i => xanswer xfault (XSoftDelete ctx i) tt;
     compute_delete := fun _ ctx i => xanswer xfault (XDelete ctx i) tt;
     compute_pause := fun _ ctx i => xanswer xfault (XPause ctx i) tt;
     compute_resume := fun _ ctx i => xanswer xfault (XResume ctx i) tt;
     compute_suspend := fun _ ctx i => xanswer xfault (XSuspend ctx i) tt;
     compute_snapshot := fun _ ctx i name =>
       xanswer xfault (XSnapshot ctx i name) tt;
     volume_get := fun _ ctx vid =>
       xanswer xfault (XVolumeGet ctx vid) {| vol_id := "uuid-of-" +:+ vid |};
     compute_attach_volume := fun _ ctx i vid mp =>
       xanswer xfault (XAttachVolume ctx i vid mp) tt;
     compute_detach_volume := fun _ ctx vid =>
       xanswer xfault (XDetachVolume ctx vid) tt;
     compute_get_all := fun tr ctx opts =>
       xanswer xfault (XGetAll ctx opts) (known tr) |}.

Definition demo_xenv (interval : Z) (known : xtrace -> list instance)
    (xfault : xcall -> option xraised) : xenv :=
  {| xFLAGS := demo_flags; reclaim_instance_interval := interval;
     xaddon := demo_addon;
     xnova := demo_xprovider known (fun _ => None) xfault |}.

Definition no_xfault (c : xcall) : option xraised := None.

(** ** Reading the trace of a creation *)

(** The events a run added to the trace it started from. *)
Definition added {A} (tr tr' : list A) : list A := drop (length tr) tr'.

(** The arguments of the creation requests, the replies to them, and the
    exceptions of failed flavor lookups, in a stretch of events. *)
Definition create_requests (evs : list event) : list create_args :=
  omap (fun ev => match ev with Call (CCreate a) _ => Some a | _ => None end) evs.

Definition create_replies (evs : list event) : list reply :=
  omap (fun ev => match ev with Call (CCreate _) r => Some r | _ => None end) evs.

Definition flavor_failures (evs : list event) : list raised :=
  omap (fun ev =>
          match ev with
          | Call CDefaultInstanceType (RRaised x)
          | Call (CInstanceTypeByName _) (RRaised x) => Some x
          | _ => None
          end) evs.

(** The events before the creation request: the flavor lookup, by name for
    the last ResourceTemplate or for the default with its warning. *)
Definition flavor_events (ent : entity) (f : flavor) (pre : list event) : Prop :=
  (exists res_tpl,
     last_where is_ResourceTemplate (mixins ent) = Some res_tpl
     /\ pre = [Call (CInstanceTypeByName (mixin_term res_tpl)) (RFlavor f)])
  \/ (last_where is_ResourceTemplate (mixins ent) = None
      /\ pre = [Call CDefaultInstanceType (RFlavor f);
                Warn ("No resource template was found in the request. "
                      +:+ "Using the default: " +:+ flavor_name f)]).

Definition sec_group_mixin (t : string) : mixin :=
  Mixin {| scheme := "http://www.mystuff.org/sec_rule#"; term := t |}
    [SEC_GROUP demo_addon].

(** A description with a hostname, a key pair and three security-group
    mixins, one of them twice. *)
Definition guarded_web : entity :=
  {| attributes :=
       list_to_map
         [("occi.compute.hostname", "web1");
          ("org.openstack.credentials.publickey.name", "ops");
          ("org.openstack.credentials.publickey.data", "ssh-rsa AAAAB3Nza")];
     mixins := [sec_group_mixin "web"; ubuntu; key_pair_mixin;
                sec_group_mixin "db"; sec_group_mixin "web"] |}.

Definition flavor_lookup_raises (e : raised) (c : call) : option raised :=
  match c with
  | CInstanceTypeByName _ | CDefaultInstanceType => Some e
  | _ => None
  end.

Definition flavor_not_found : raised :=
  {| exc_class := OtherException;
     exc_msg := "Instance type m1.huge could not be found." |}.

Definition m1_small_unknown : raised :=
  {| exc_class := FlavorNotFound;
     exc_msg := "Flavor m1.small could not be found." |}.

(** A provider whose creation call answers with no instance at all. *)
Definition empty_handed_provider : provider :=
  {| compute_get := compute_get (faulty_provider [] (fun _ => None));
     compute_create := fun _ _ => Returns ([], "r-0");
     compute_resize := compute_resize (faulty_provider [] (fun _ => None));
     compute_confirm_resize :=
       compute_confirm_resize (faulty_provider [] (fun _ => None));
     compute_reboot := compute_reboot (faulty_provider [] (fun _ => None));
     compute_set_admin_password :=
       compute_set_admin_password (faulty_provider [] (fun _ => None));
     compute_get_vnc_console :=
       compute_get_vnc_console (faulty_provider [] (fun _ => None));
     get_instance_type_by_name :=
       get_instance_type_by_name (faulty_provider [] (fun _ => None));
     get_default_instance_type :=
       get_default_instance_type (faulty_provider [] (fun _ => None));
     generate_password := generate_password (faulty_provider [] (fun _ => None)) |}.

Definition empty_handed_env : env :=
  {| FLAGS := demo_flags; addon := demo_addon; nova := empty_handed_provider |}.

(** ** Reading the failures of a resize *)

(** What [get_vm] raises for an exception of the provider's fetch. *)
Definition fetch_error (x : raised) : exn :=
  if issubclass (exc_class x) NotFound
  then HTTPError 404 "VM not found!"
  else ProviderError x.

(** What the two [except] clauses of [resize_vm] make of an exception of
    a call inside its [try]. *)
Definition resize_error (x : raised) : exn :=
  if issubclass (exc_class x) FlavorNotFound
  then AttributeError "Unable to locate requested flavor."
  else if issubclass (exc_class x) InstanceInvalidState
  then AttributeError ("VM is in an invalid state: " +:+ exc_msg x)
  else ProviderError x.

(** What leaves [resize_vm] for an exception of a fetch made inside its
    [try]: the 404 of [get_vm] passes the two clauses, any other exception
    is looked at by them. *)
Definition later_fetch_error (x : raised) : exn :=
  if issubclass (exc_class x) NotFound
  then HTTPError 404 "VM not found!"
  else resize_error x.

(** An event of a turn of the loop that went well: an answered fetch of
    [uid] or the sleep of one second. *)
Definition quiet_poll (uid : string) (ctx : context) (ev : event) : Prop :=
  ev = Sleep 1 \/ exists i, ev = Call (CGet ctx uid) (RInstance i).

(** The replies that are an exception. *)
Definition failed (ev : event) : option (call * raised) :=
  match ev with Call c (RRaised x) => Some (c, x) | _ => None end.

(** A provider that shows [vm_state] 'resized' once [k] seconds have been
    slept, and 'resize_finish' before. *)
Definition settling_provider (k : nat) : provider :=
  {| compute_get := fun tr _ uid =>
       Returns
         {| uuid := uid;
            vm_state := if bool_decide (k <= slept tr)
                        then "resized" else "resize_finish";
            task_state := None |};
     compute_create := compute_create (faulty_provider [] (fun _ => None));
     compute_resize := compute_resize (faulty_provider [] (fun _ => None));
     compute_confirm_resize :=
       compute_confirm_resize (faulty_provider [] (fun _ => None));
     compute_reboot := compute_reboot (faulty_provider [] (fun _ => None));
     compute_set_admin_password :=
       compute_set_admin_password (faulty_provider [] (fun _ => None));
     compute_get_vnc_console :=
       compute_get_vnc_console (faulty_provider [] (fun _ => None));
     get_instance_type_by_name :=
       get_instance_type_by_name (faulty_provider [] (fun _ => None));
     get_default_instance_type :=
       get_default_instance_type (faulty_provider [] (fun _ => None));
     generate_password := generate_password (faulty_provider [] (fun _ => None)) |}.

Definition settling_env (k : nat) : env :=
  {| FLAGS := demo_flags; addon := demo_addon; nova := settling_provider k |}.

Definition resize_raises (e : raised) (c : call) : option raised :=
  match c with CResize _ _ _ => Some e | _ => None end.

Definition flavor_missing : raised :=
  {| exc_class := FlavorNotFound;
     exc_msg := "Flavor m1.huge could not be found." |}.

(** The ways a run of [resize_vm uid flavor_name ctx] can end, with the
    events it added: the first fetch fails; the flavor lookup fails; the
    resize request fails; the fuel is spent in the loop; a later fetch
    fails, in the loop or after it; the confirmation is requested and
    accepted, or refused. *)
Inductive resize_ending (uid flavor_name : string) (ctx : context)
    : outcome unit -> list event -> Prop :=
  | first_fetch_fails x :
      resize_ending uid flavor_name ctx (Raise (fetch_error x))
        [Call (CGet ctx uid) (RRaised x)]
  | lookup_fails inst x :
      resize_ending uid flavor_name ctx (Raise (resize_error x))
        [Call (CGet ctx uid) (RInstance inst);
         Call (CInstanceTypeByName flavor_name) (RRaised x)]
  | resize_fails inst flv x :
      resize_ending uid flavor_name ctx (Raise (resize_error x))
        [Call (CGet ctx uid) (RInstance inst);
         Call (CInstanceTypeByName flavor_name) (RFlavor flv);
         Call (CResize ctx inst (flavorid flv)) (RRaised x)]
  | fuel_spent inst flv good :
      Forall (quiet_poll uid ctx) good ->
      resize_ending uid flavor_name ctx Diverge
        ([Call (CGet ctx uid) (RInstance inst);
          Call (CInstanceTypeByName flavor_name) (RFlavor flv);
          Call (CResize ctx inst (flavorid flv)) RNone] ++ good)
  | later_fetch_fails inst flv good x :
      Forall (quiet_poll uid ctx) good ->
      resize_ending uid flavor_name ctx (Raise (later_fetch_error x))
        ([Call (CGet ctx uid) (RInstance inst);
          Call (CInstanceTypeByName flavor_name) (RFlavor flv);
          Call (CResize ctx inst (flavorid flv)) RNone]
         ++ good ++ [Call (CGet ctx uid) (RRaised x)])
  | confirmed inst flv good inst' :
      Forall (quiet_poll uid ctx) good ->
      15 <= slept good ->
      observed_resized uid good ->
      resize_ending uid flavor_name ctx (Done tt)
        ([Call (CGet ctx uid) (RInstance inst);
          Call (CInstanceTypeByName flavor_name) (RFlavor flv);
          Call (CResize ctx inst (flavorid flv)) RNone]
         ++ good ++ [Call (CGet ctx uid) (RInstance inst');
                     Call (CConfirmResize ctx inst') RNone])
  | confirm_fails inst flv good inst' x :
      Forall (quiet_poll uid ctx) good ->
      15 <= slept good ->
      observed_resized uid good ->
      resize_ending uid flavor_name ctx (Raise (resize_error x))
        ([Call (CGet ctx uid) (RInstance inst);
          Call (CInstanceTypeByName flavor_name) (RFlavor flv);
          Call (CResize ctx inst (flavorid flv)) RNone]
         ++ good ++ [Call (CGet ctx uid) (RInstance inst');
                     Call (CConfirmResize ctx inst') (RRaised x)]).

(** The calls that are a fetch, and the events that are a resize request. *)
Definition is_fetch (c : call) : bool :=
  match c with CGet _ _ => true | _ => false end.

Definition is_resize (ev : event) : bool :=
  match ev with Call (CResize _ _ _) _ => true | _ => false end.

Definition reboot_raises (e : raised) (c : call) : option raised :=
  match c with CReboot _ _ _ => Some e | _ => None end.

(** What [restart_vm] answers to the reply to its reboot request, and
    [get_vnc] to the reply to its console request. *)
Definition reboot_answer (r : reply) : outcome unit :=
  match r with
  | RRaised x =>
      if issubclass (exc_class x) InstanceInvalidState
      then Raise (HTTPError 406 "VM is in an invalid state.")
      else Raise (ProviderError x)
  | _ => Done tt
  end.

Definition console_answer (r : reply) : outcome (option string) :=
  match r with
  | RConsole c => Done (Some c)
  | RRaised x =>
      if issubclass (exc_class x) InstanceNotFound
      then Done None
      else Raise (ProviderError x)
  | _ => Done None
  end.

(** What the trace records for the reply to a call that returns nothing. *)
Definition unit_reply (res : xresult unit) : xreply :=
  match res with
  | XReturns _ => XNone
  | XRaises x => XRaised x
  end.

(** The answer of [suspend_vm], [start_vm] and [stop_vm] to a reply: any
    exception becomes the 500 with the provider's message after [prefix]. *)
Definition answer_500 (prefix : string) (r : xreply) : xoutcome unit :=
  match r with
  | XRaised x => XRaise (Escaped (HTTPError 500 (prefix +:+ xexc_msg x)))
  | _ => XDone tt
  end.

(** The answer of an operation whose [except] clauses turn the classes of
    [clauses], tried in order, into an AttributeError with the message
    given, and leave any other exception alone. *)
Fixpoint remapped (clauses : list (xclass * string)) (x : xraised) : xexn :=
  match clauses with
  | [] => XProviderError x
  | (cls, msg) :: rest =>
      if xissubclass (xexc_class x) cls
      then Escaped (AttributeError msg)
      else remapped rest x
  end.

Definition answer_remapped (clauses : list (xclass * string)) (r : xreply)
    : xoutcome unit :=
  match r with
  | XRaised x => XRaise (remapped clauses x)
  | _ => XDone tt
  end.

Definition xfault_on (p : xcall -> bool) (e : xraised) (c : xcall)
    : option xraised :=
  if p c then Some e else None.

Definition xinvalid_state : xraised :=
  {| xexc_class := Nova InstanceInvalidState;
     xexc_msg := "Instance vm-1 in vm_state building. Cannot pause." |}.

Definition image_missing : xraised :=
  {| xexc_class := ImageNotFound; xexc_msg := "Image image-2 could not be found." |}.

(** What the two [except] clauses of [attach_volume] make of an
    exception of the volume lookup or of the attach request. *)
Definition attach_error (x : xraised) : xexn :=
  if xissubclass (xexc_class x) (Nova NotFound)
  then Escaped (HTTPError 404 "Volume not found!")
  else if xissubclass (xexc_class x) InvalidDevicePath
  then Escaped (AttributeError "Invalid device path!")
  else XProviderError x.

Definition is_xsuspend (ev : xevent) : bool :=
  match ev with XCall (XSuspend _ _) _ => true | _ => false end.

(** A provider that shows the instance 'suspended' once a suspend has
    been requested, and 'active' before. *)
Definition suspending (tr : xtrace) : list instance :=
  if existsb is_xsuspend tr
  then [vm1 "suspended" None]
  else [vm1 "active" (Some "suspending")].

Definition instance_gone : xraised :=
  {| xexc_class := Nova InstanceNotFound;
     xexc_msg := "Instance vm-1 could not be found." |}.

(** ** [get_vm] *)

Lemma get_vm_found E tr uid ctx i :
  compute_get (nova E) tr ctx uid = Returns i ->
  get_vm uid ctx E tr = (Done i, tr ++ [Call (CGet ctx uid) (RInstance i)]).
Proof.
  intros Hget. unfold get_vm, try_except, COMPUTE_API_get, api.
  by rewrite Hget.
Qed.

Lemma get_vm_not_found E tr uid ctx e :
  compute_get (nova E) tr ctx uid = Raises e ->
  issubclass (exc_class e) NotFound = true ->
  get_vm uid ctx E tr
  = (Raise (HTTPError 404 "VM not found!"),
     tr ++ [Call (CGet ctx uid) (RRaised e)]).
Proof.
  intros Hget Hcls. unfold get_vm, try_except, COMPUTE_API_get, api, except.
  by rewrite Hget, Hcls.
Qed.

Lemma get_vm_raises E tr uid ctx e :
  compute_get (nova E) tr ctx uid = Raises e ->
  issubclass (exc_class e) NotFound = false ->
  get_vm uid ctx E tr
  = (Raise (ProviderError e), tr ++ [Call (CGet ctx uid) (RRaised e)]).
Proof.
  intros Hget Hcls. unfold get_vm, try_except, COMPUTE_API_get, api, except.
  by rewrite Hget, Hcls.
Qed.

(** ** [get_occi_state] *)

Import infrastructure.

(** With the instance at hand, [get_occi_state] is a function of its
    [vm_state] alone and leaves one call in the trace. *)
Lemma get_occi_state_trace E tr uid ctx i :
  compute_get (nova E) tr ctx uid = Returns i ->
  exists sa, get_occi_state uid ctx E tr
             = (Done sa, tr ++ [Call (CGet ctx uid) (RInstance i)]).
Proof.
  intros Hget. unfold get_occi_state, bind.
  rewrite (get_vm_found _ _ _ _ _ Hget).
  repeat (destruct (py_in _ _)); eexists; reflexivity.
Qed.

(** C2: the table of provider states. *)
Theorem get_occi_state_table E tr uid ctx i :
  compute_get (nova E) tr ctx uid = Returns i ->
  (vm_state i = vm_states.ACTIVE ->
   (get_occi_state uid ctx E tr).1 = Done ("active", [STOP; SUSPEND; RESTART]))
  /\ (vm_state i ∈ [vm_states.PAUSED; vm_states.SUSPENDED; vm_states.STOPPED] ->
      (get_occi_state uid ctx E tr).1 = Done ("inactive", [START]))
  /\ (vm_state i ∈ [vm_states.BUILDING; vm_states.RESCUED; vm_states.ERROR;
                    vm_states.DELETED] ->
      (get_occi_state uid ctx E tr).1 = Done ("inactive", [])).
Proof.
  intros Hget. unfold get_occi_state, bind.
  rewrite (get_vm_found _ _ _ _ _ Hget).
  split; [|split]; intros Hst.
  - rewrite Hst. reflexivity.
  - set_unfold in Hst. destruct Hst as [-> | [-> | [-> | []]]]; reflexivity.
  - set_unfold in Hst.
    destruct Hst as [-> | [-> | [-> | [-> | []]]]]; reflexivity.
Qed.

Lemma get_occi_state_table_witness :
  (get_occi_state "vm-1" "ctx" (demo_env [vm1 "active" None]) []).1
  = Done ("active", [STOP; SUSPEND; RESTART])
  /\ (get_occi_state "vm-1" "ctx" (demo_env [vm1 "suspended" None]) []).1
     = Done ("inactive", [START])
  /\ (get_occi_state "vm-1" "ctx" (demo_env [vm1 "error" None]) []).1
     = Done ("inactive", []).
Proof.
  split; [|split].
  - apply (get_occi_state_table (demo_env [vm1 "active" None]) [] "vm-1" "ctx"
             (vm1 "active" None) eq_refl).
    reflexivity.
  - apply (get_occi_state_table (demo_env [vm1 "suspended" None]) [] "vm-1" "ctx"
             (vm1 "suspended" None) eq_refl).
    apply (bool_decide_unpack _). exact I.
  - apply (get_occi_state_table (demo_env [vm1 "error" None]) [] "vm-1" "ctx"
             (vm1 "error" None) eq_refl).
    apply (bool_decide_unpack _). exact I.
Defined.

(** C10: whatever the provider's [vm_state], the derived state is 'active'
    or 'inactive', never 'suspended', and a [vm_state] outside the listed
    branches gives the default, 'inactive' with no action. *)
Theorem get_occi_state_range E tr uid ctx i :
  compute_get (nova E) tr ctx uid = Returns i ->
  exists state actions,
    (get_occi_state uid ctx E tr).1 = Done (state, actions)
    /\ (state = "active" \/ state = "inactive")
    /\ state <> "suspended"
    /\ (vm_state i ∉ [vm_states.ACTIVE; vm_states.BUILDING; vm_states.PAUSED;
                      vm_states.SUSPENDED; vm_states.STOPPED;
                      vm_states.RESCUED; vm_states.ERROR; vm_states.DELETED] ->
        (state, actions) = ("inactive", [])).
Proof.
  intros Hget. unfold get_occi_state, bind.
  rewrite (get_vm_found _ _ _ _ _ Hget). unfold py_in.
  repeat match goal with
         | |- context [bool_decide ?P] =>
             destruct (bool_decide_reflect P) as [?Hin | _]
         end;
    do 2 eexists; cbn;
    (split; [reflexivity|]); (split; [auto|]); (split; [discriminate|]);
    try reflexivity; intros Hout; exfalso; apply Hout;
    rewrite !elem_of_cons in *; tauto.
Qed.

Lemma get_occi_state_range_witness :
  exists state actions,
    (get_occi_state "vm-1" "ctx" (demo_env [vm1 "shelved" None]) []).1
    = Done (state, actions)
    /\ (state = "active" \/ state = "inactive")
    /\ state <> "suspended"
    /\ (state, actions) = ("inactive", []).
Proof.
  destruct (get_occi_state_range (demo_env [vm1 "shelved" None]) [] "vm-1" "ctx"
              (vm1 "shelved" None) eq_refl)
    as (state & actions & Hrun & Hrange & Hnot & Hdefault).
  exists state, actions. repeat split; try assumption.
  apply Hdefault. apply (bool_decide_unpack _). exact I.
Defined.

(** C1 (the code departs from it): an instance that is 'active' while an
    image snapshot is running is reported 'active' with all three actions;
    the test after the table reads [vm_state], not the task-state. *)
Theorem get_occi_state_snapshot_task_not_consulted :
  get_occi_state "vm-1" "ctx"
    (demo_env [vm1 vm_states.ACTIVE (Some task_states.IMAGE_SNAPSHOT)]) []
  = (Done ("active", [STOP; SUSPEND; RESTART]),
     [Call (CGet "ctx" "vm-1")
        (RInstance (vm1 vm_states.ACTIVE (Some task_states.IMAGE_SNAPSHOT)))]).
Proof. reflexivity. Qed.

(** The task-state never enters the result. *)
Lemma get_occi_state_task_blind E tr uid ctx i E' tr' uid' ctx' i' :
  compute_get (nova E) tr ctx uid = Returns i ->
  compute_get (nova E') tr' ctx' uid' = Returns i' ->
  vm_state i = vm_state i' ->
  (get_occi_state uid ctx E tr).1 = (get_occi_state uid' ctx' E' tr').1.
Proof.
  intros Hget Hget' Hst. unfold get_occi_state, bind.
  rewrite (get_vm_found _ _ _ _ _ Hget), (get_vm_found _ _ _ _ _ Hget'), Hst.
  repeat (destruct (py_in _ _)); reflexivity.
Qed.

(** ** [restart_vm] *)

(** The method is looked at only once the instance has been fetched. *)
Lemma restart_vm_fetched E tr uid method ctx i :
  compute_get (nova E) tr ctx uid = Returns i ->
  restart_vm uid method ctx E tr
  = (reboot_type <-
       (if py_in (chars method) ["graceful"; "warm"] then ret "SOFT"
        else if py_is_const method "cold" then ret "HARD"
        else raise (AttributeError "Unknown method.")) ;;
     try_except (COMPUTE_API_reboot ctx i reboot_type)
       (except InstanceInvalidState
          (fun _ => raise (HTTPError 406 "VM is in an invalid state."))))
      E (tr ++ [Call (CGet ctx uid) (RInstance i)]).
Proof.
  intros Hget. unfold restart_vm at 1, bind at 1.
  by rewrite (get_vm_found _ _ _ _ _ Hget).
Qed.

(** A reboot request leaves exactly its call behind, whatever the reply. *)
Lemma reboot_trace E tr ctx i kind :
  exists r,
    (try_except (COMPUTE_API_reboot ctx i kind)
       (except InstanceInvalidState
          (fun _ => raise (HTTPError 406 "VM is in an invalid state."))) E tr).2
    = tr ++ [Call (CReboot ctx i kind) r].
Proof.
  unfold try_except, COMPUTE_API_reboot, api, except.
  destruct (compute_reboot _ _ _ _ _) as [[] | e]; cbn.
  - by eexists.
  - destruct (issubclass _ _); by eexists.
Qed.

(** C5, as the code has it: the instance is fetched first (not found is a
    404); on a fetched instance, 'graceful' and 'warm' request a SOFT
    reboot, and a method that is none of 'graceful', 'warm', 'cold' fails
    with AttributeError, the fetch being the only call made. *)
Theorem restart_vm_methods E tr uid method ctx :
  (forall e,
     compute_get (nova E) tr ctx uid = Raises e ->
     issubclass (exc_class e) NotFound = true ->
     restart_vm uid method ctx E tr
     = (Raise (HTTPError 404 "VM not found!"),
        tr ++ [Call (CGet ctx uid) (RRaised e)]))
  /\ (forall i,
        compute_get (nova E) tr ctx uid = Returns i ->
        (chars method ∈ ["graceful"; "warm"] ->
         exists r,
           (restart_vm uid method ctx E tr).2
           = tr ++ [Call (CGet ctx uid) (RInstance i);
                    Call (CReboot ctx i "SOFT") r])
        /\ (chars method ∉ ["graceful"; "warm"; "cold"] ->
            restart_vm uid method ctx E tr
            = (Raise (AttributeError "Unknown method."),
               tr ++ [Call (CGet ctx uid) (RInstance i)]))).
Proof.
  split.
  - intros e Hget Hcls. unfold restart_vm, bind.
    by rewrite (get_vm_not_found _ _ _ _ _ Hget Hcls).
  - intros i Hget. rewrite (restart_vm_fetched _ _ _ _ _ _ Hget).
    unfold bind at 1, py_in, py_is_const. split; intros Hm.
    + rewrite (bool_decide_eq_true_2 _ Hm). cbn.
      destruct (reboot_trace E (tr ++ [Call (CGet ctx uid) (RInstance i)])
                  ctx i "SOFT") as [r Hr].
      exists r. by rewrite Hr, <- app_assoc.
    + rewrite !bool_decide_eq_false_2, andb_false_r; [done | |];
        intros Hin; apply Hm; rewrite !elem_of_cons in *; tauto.
Qed.

Lemma restart_vm_methods_witness :
  restart_vm "vm-9" (runtime_str "warm") "ctx" (demo_env [vm1 "active" None]) []
  = (Raise (HTTPError 404 "VM not found!"),
     [Call (CGet "ctx" "vm-9") (RRaised (not_found "vm-9"))])
  /\ (exists r,
        (restart_vm "vm-1" (runtime_str "warm") "ctx"
           (demo_env [vm1 "active" None]) []).2
        = [Call (CGet "ctx" "vm-1") (RInstance (vm1 "active" None));
           Call (CReboot "ctx" (vm1 "active" None) "SOFT") r])
  /\ restart_vm "vm-1" (runtime_str "reset") "ctx"
       (demo_env [vm1 "active" None]) []
     = (Raise (AttributeError "Unknown method."),
        [Call (CGet "ctx" "vm-1") (RInstance (vm1 "active" None))]).
Proof.
  split; [|split].
  - apply (proj1 (restart_vm_methods (demo_env [vm1 "active" None]) []
                    "vm-9" (runtime_str "warm") "ctx")
             (not_found "vm-9") eq_refl eq_refl).
  - apply (proj1 (proj2 (restart_vm_methods (demo_env [vm1 "active" None]) []
                           "vm-1" (runtime_str "warm") "ctx")
                    (vm1 "active" None) eq_refl)).
    apply (bool_decide_unpack _). exact I.
  - apply (proj2 (proj2 (restart_vm_methods (demo_env [vm1 "active" None]) []
                           "vm-1" (runtime_str "reset") "ctx")
                    (vm1 "active" None) eq_refl)).
    apply (bool_decide_unpack _). exact I.
Defined.

(** C5 as written fails: for a method that is none of the three, the
    provider has been called (the fetch) by the time the method is
    refused; and when the fetch finds nothing the failure is the 404, not
    an AttributeError. *)
Lemma restart_vm_unknown_method_calls_provider :
  let known := restart_vm "vm-1" (runtime_str "reset") "ctx"
                 (demo_env [vm1 "active" None]) [] in
  let unknown := restart_vm "vm-9" (runtime_str "reset") "ctx"
                   (demo_env [vm1 "active" None]) [] in
  ("reset" ∉ ["graceful"; "warm"; "cold"])
  /\ provider_calls known.2 = [CGet "ctx" "vm-1"]
  /\ ~ (exists msg, known.1 = Raise (AttributeError msg)
                    /\ provider_calls known.2 = [])
  /\ ~ (exists msg, unknown.1 = Raise (AttributeError msg)).
Proof.
  cbn zeta. split; [apply (bool_decide_unpack _); exact I |].
  split; [reflexivity |]. split.
  - intros (msg & _ & Hcalls). discriminate Hcalls.
  - intros (msg & Hfail). discriminate Hfail.
Qed.

(** 'cold' reaches the HARD reboot only as the interned constant itself; a
    string with the same characters made at run time is refused. *)
Example restart_vm_cold_const :
  restart_vm "vm-1" (const_str "cold") "ctx" (demo_env [vm1 "active" None]) []
  = (Done tt,
     [Call (CGet "ctx" "vm-1") (RInstance (vm1 "active" None));
      Call (CReboot "ctx" (vm1 "active" None) "HARD") RNone]).
Proof. reflexivity. Qed.

Example restart_vm_cold_runtime :
  restart_vm "vm-1" (runtime_str "cold") "ctx" (demo_env [vm1 "active" None]) []
  = (Raise (AttributeError "Unknown method."),
     [Call (CGet "ctx" "vm-1") (RInstance (vm1 "active" None))]).
Proof. reflexivity. Qed.

(** ** [set_password_for_vm] *)

(** C8, as the code has it: on a fetched instance the caller sees success
    when the password call succeeds and when it raises
    InstancePasswordSetFailed (a warning is logged); an exception of any
    other class leaves the function. *)
Theorem set_password_for_vm_swallows_password_set_failed E tr uid pw ctx i :
  compute_get (nova E) tr ctx uid = Returns i ->
  let tr1 := tr ++ [Call (CGet ctx uid) (RInstance i)] in
  (compute_set_admin_password (nova E) tr1 ctx i pw = Returns tt ->
   set_password_for_vm uid pw ctx E tr
   = (Done tt, tr1 ++ [Call (CSetAdminPassword ctx i pw) RNone]))
  /\ (forall e,
        compute_set_admin_password (nova E) tr1 ctx i pw = Raises e ->
        issubclass (exc_class e) InstancePasswordSetFailed = true ->
        set_password_for_vm uid pw ctx E tr
        = (Done tt,
           tr1 ++ [Call (CSetAdminPassword ctx i pw) (RRaised e)]
               ++ [Warn ("Unable to set password - driver might not support it! "
                         +:+ exc_msg e)]))
  /\ (forall e,
        compute_set_admin_password (nova E) tr1 ctx i pw = Raises e ->
        issubclass (exc_class e) InstancePasswordSetFailed = false ->
        set_password_for_vm uid pw ctx E tr
        = (Raise (ProviderError e),
           tr1 ++ [Call (CSetAdminPassword ctx i pw) (RRaised e)])).
Proof.
  intros Hget tr1. unfold set_password_for_vm, bind.
  rewrite (get_vm_found _ _ _ _ _ Hget). fold tr1.
  unfold try_except, COMPUTE_API_set_admin_password, api, except.
  split; [|split].
  - by intros ->.
  - intros e -> Hcls. cbn. rewrite Hcls. unfold LOG_warn, emit.
    by rewrite <- app_assoc.
  - intros e -> Hcls. cbn. by rewrite Hcls.
Qed.

Lemma set_password_for_vm_swallows_password_set_failed_witness :
  set_password_for_vm "vm-1" "hunter2" "ctx" (demo_env [vm1 "active" None]) []
  = (Done tt,
     [Call (CGet "ctx" "vm-1") (RInstance (vm1 "active" None));
      Call (CSetAdminPassword "ctx" (vm1 "active" None) "hunter2") RNone])
  /\ set_password_for_vm "vm-1" "hunter2" "ctx"
       (faulty_env [vm1 "active" None]
          (set_admin_password_raises password_set_failed)) []
     = (Done tt,
        [Call (CGet "ctx" "vm-1") (RInstance (vm1 "active" None));
         Call (CSetAdminPassword "ctx" (vm1 "active" None) "hunter2")
           (RRaised password_set_failed);
         Warn ("Unable to set password - driver might not support it! "
               +:+ exc_msg password_set_failed)])
  /\ set_password_for_vm "vm-1" "hunter2" "ctx"
       (faulty_env [vm1 "stopped" None]
          (set_admin_password_raises invalid_state)) []
     = (Raise (ProviderError invalid_state),
        [Call (CGet "ctx" "vm-1") (RInstance (vm1 "stopped" None));
         Call (CSetAdminPassword "ctx" (vm1 "stopped" None) "hunter2")
           (RRaised invalid_state)]).
Proof.
  split; [|split].
  - apply (proj1 (set_password_for_vm_swallows_password_set_failed
                    (demo_env [vm1 "active" None]) [] "vm-1" "hunter2" "ctx"
                    (vm1 "active" None) eq_refl) eq_refl).
  - apply (proj1 (proj2 (set_password_for_vm_swallows_password_set_failed
                           (faulty_env [vm1 "active" None]
                              (set_admin_password_raises password_set_failed))
                           [] "vm-1" "hunter2" "ctx"
                           (vm1 "active" None) eq_refl))
             password_set_failed eq_refl eq_refl).
  - apply (proj2 (proj2 (set_password_for_vm_swallows_password_set_failed
                           (faulty_env [vm1 "stopped" None]
                              (set_admin_password_raises invalid_state))
                           [] "vm-1" "hunter2" "ctx"
                           (vm1 "stopped" None) eq_refl))
             invalid_state eq_refl eq_refl).
Defined.

(** C8 as written fails: the instance exists, the provider refuses the
    password operation because of the instance's state, and the refusal
    reaches the caller. *)
Lemma set_password_for_vm_propagates_invalid_state :
  let E := faulty_env [vm1 "stopped" None]
             (set_admin_password_raises invalid_state) in
  compute_get (nova E) [] "ctx" "vm-1" = Returns (vm1 "stopped" None)
  /\ (set_password_for_vm "vm-1" "hunter2" "ctx" E []).1
     = Raise (ProviderError invalid_state)
  /\ (set_password_for_vm "vm-1" "hunter2" "ctx" E []).1 <> Done tt.
Proof. cbn zeta. split; [reflexivity |]. split; [reflexivity | discriminate]. Qed.

(** ** [get_vnc] *)

(** C9, as the code has it: with consoles disabled nothing is asked and
    None is returned; with consoles enabled the instance is fetched first,
    a fetch that finds nothing is a 404 for the caller, and on a fetched
    instance InstanceNotFound from the console request gives None and a
    logged warning. *)
Theorem get_vnc_soft_fail E tr uid ctx :
  (vnc_enabled (FLAGS E) = false -> get_vnc uid ctx E tr = (Done None, tr))
  /\ (vnc_enabled (FLAGS E) = true ->
      (forall e,
         compute_get (nova E) tr ctx uid = Raises e ->
         issubclass (exc_class e) NotFound = true ->
         get_vnc uid ctx E tr
         = (Raise (HTTPError 404 "VM not found!"),
            tr ++ [Call (CGet ctx uid) (RRaised e)]))
      /\ (forall i e,
            let tr1 := tr ++ [Call (CGet ctx uid) (RInstance i)] in
            compute_get (nova E) tr ctx uid = Returns i ->
            compute_get_vnc_console (nova E) tr1 ctx i "novnc" = Raises e ->
            issubclass (exc_class e) InstanceNotFound = true ->
            get_vnc uid ctx E tr
            = (Done None,
               tr1 ++ [Call (CGetVncConsole ctx i "novnc") (RRaised e)]
                   ++ [Warn "Console info is not available atm!"]))).
Proof.
  split; [| intros Hon; split].
  - intros Hoff. unfold get_vnc, bind, ask. by rewrite Hoff.
  - intros e Hget Hcls. unfold get_vnc, bind, ask.
    by rewrite Hon, (get_vm_not_found _ _ _ _ _ Hget Hcls).
  - intros i e tr1 Hget Hvnc Hcls. unfold get_vnc, bind, ask.
    rewrite Hon, (get_vm_found _ _ _ _ _ Hget). fold tr1.
    unfold try_except, COMPUTE_API_get_vnc_console, api, except.
    rewrite Hvnc. cbn. rewrite Hcls. unfold LOG_warn, emit, ret.
    by rewrite <- app_assoc.
Qed.

Lemma get_vnc_soft_fail_witness :
  get_vnc "vm-1" "ctx" (vnc_off_env [vm1 "active" None]) [] = (Done None, [])
  /\ get_vnc "vm-9" "ctx" (demo_env [vm1 "active" None]) []
     = (Raise (HTTPError 404 "VM not found!"),
        [Call (CGet "ctx" "vm-9") (RRaised (not_found "vm-9"))])
  /\ get_vnc "vm-1" "ctx"
       (faulty_env [vm1 "active" None]
          (get_vnc_console_raises (not_found "vm-1"))) []
     = (Done None,
        [Call (CGet "ctx" "vm-1") (RInstance (vm1 "active" None));
         Call (CGetVncConsole "ctx" (vm1 "active" None) "novnc")
           (RRaised (not_found "vm-1"));
         Warn "Console info is not available atm!"]).
Proof.
  split; [|split].
  - apply (proj1 (get_vnc_soft_fail (vnc_off_env [vm1 "active" None]) []
                    "vm-1" "ctx") eq_refl).
  - apply (proj1 (proj2 (get_vnc_soft_fail (demo_env [vm1 "active" None]) []
                           "vm-9" "ctx") eq_refl)
             (not_found "vm-9") eq_refl eq_refl).
  - apply (proj2 (proj2 (get_vnc_soft_fail
                           (faulty_env [vm1 "active" None]
                              (get_vnc_console_raises (not_found "vm-1")))
                           [] "vm-1" "ctx") eq_refl)
             (vm1 "active" None) (not_found "vm-1") eq_refl eq_refl eq_refl).
Defined.

(** C9 as written fails: consoles are enabled, the provider reports the
    instance as not found when it is fetched, and the caller gets the 404
    of [get_vm] instead of None. *)
Lemma get_vnc_unknown_instance_raises :
  let E := demo_env [vm1 "active" None] in
  vnc_enabled (FLAGS E) = true
  /\ compute_get (nova E) [] "ctx" "vm-9" = Raises (not_found "vm-9")
  /\ exc_class (not_found "vm-9") = InstanceNotFound
  /\ (get_vnc "vm-9" "ctx" E []).1 = Raise (HTTPError 404 "VM not found!")
  /\ (get_vnc "vm-9" "ctx" E []).1 <> Done None.
Proof. cbn zeta. repeat split; try reflexivity. discriminate. Qed.

(** ** [create_vm] *)

(** One turn of the loop over the mixins: no event; the two templates move
    as the branches say; the only failure is a missing public-key
    attribute. *)
Lemma scan_mixin_run ent m st E tr :
  (scan_mixin ent m st E tr).2 = tr
  /\ match (scan_mixin ent m st E tr).1 with
     | Done st' =>
         resource_template st'
         = (if is_ResourceTemplate m then Some m else resource_template st)
         /\ os_template st'
            = (if is_OsTemplate m then Some m else os_template st)
     | Raise e =>
         reads_key E m = true
         /\ exists key, e = KeyError key /\ attributes ent !! key = None
     | Diverge => False
     end.
Proof.
  unfold scan_mixin, reads_key, bind, ask, getitem.
  destruct m as [c rel | c rel | c os rel]; cbn;
    repeat match goal with
           | |- context [bool_decide ?P] => destruct (bool_decide P)
           | |- context [attributes ent !! ?k] =>
               destruct (attributes ent !! k) eqn:?
           end; cbn; eauto.
Qed.

(** A turn completes when the attributes it reads are there. *)
Lemma scan_mixin_completes ent m st E tr :
  (reads_key E m = true ->
   is_Some (attributes ent !! "org.openstack.credentials.publickey.name")
   /\ is_Some (attributes ent !! "org.openstack.credentials.publickey.data")) ->
  exists st', (scan_mixin ent m st E tr).1 = Done st'.
Proof.
  unfold scan_mixin, reads_key, bind, ask, getitem.
  destruct m as [c rel | c rel | c os rel]; cbn;
    repeat match goal with
           | |- context [bool_decide ?P] => destruct (bool_decide P)
           end; cbn; intros Hkeys; eauto;
    destruct (Hkeys eq_refl) as [[name ->] [data ->]]; cbn; eauto.
Qed.

Lemma last_where_cons p m ms :
  last_where p (m :: ms)
  = match last_where p ms with
    | Some x => Some x
    | None => if p m then Some m else None
    end.
Proof.
  unfold last_where. cbn. destruct (p m); [|by destruct (last _)].
  by rewrite last_cons.
Qed.

(** The whole loop: no event, the last template of each kind is kept. *)
Lemma scan_mixins_run ent ms : forall st E tr,
  (scan_mixins ent ms st E tr).2 = tr
  /\ match (scan_mixins ent ms st E tr).1 with
     | Done st' =>
         resource_template st'
         = match last_where is_ResourceTemplate ms with
           | Some m => Some m
           | None => resource_template st
           end
         /\ os_template st'
            = match last_where is_OsTemplate ms with
              | Some m => Some m
              | None => os_template st
              end
     | Raise e =>
         exists m key, m ∈ ms /\ reads_key E m = true
                       /\ e = KeyError key /\ attributes ent !! key = None
     | Diverge => False
     end.
Proof.
  induction ms as [| m ms IH]; intros st E tr; cbn.
  - done.
  - unfold bind. destruct (scan_mixin_run ent m st E tr) as [Htr Hturn].
    destruct (scan_mixin ent m st E tr) as [[st1 | e |] tr1];
      cbn in Htr, Hturn; subst tr1.
    + destruct (IH st1 E tr) as [Htr Hrest]. split; [done |].
      destruct (scan_mixins ent ms st1 E tr) as [[st2 | e |] tr2];
        cbn in Hrest |- *.
      * destruct Hturn as [Hrt Hos], Hrest as [Hrt' Hos'].
        rewrite !last_where_cons, Hrt', Hos', Hrt, Hos.
        split; by repeat case_match.
      * destruct Hrest as (m' & key & Hin & Hrest).
        exists m', key. split; [by apply elem_of_cons; right | done].
      * done.
    + split; [done |]. cbn. destruct Hturn as (Hkey & key & -> & Hnone).
      exists m, key. split; [by apply elem_of_cons; left | done].
    + done.
Qed.

Lemma scan_mixins_completes E ent ms : forall st tr,
  (forall m, m ∈ ms -> reads_key E m = true ->
     is_Some (attributes ent !! "org.openstack.credentials.publickey.name")
     /\ is_Some (attributes ent !! "org.openstack.credentials.publickey.data")) ->
  exists st', scan_mixins ent ms st E tr = (Done st', tr).
Proof.
  induction ms as [| m ms IH]; intros st tr Hkeys; cbn.
  - by eexists.
  - unfold bind. destruct (scan_mixin_run ent m st E tr) as [Htr _].
    destruct (scan_mixin_completes ent m st E tr) as [st1 Hst1].
    { intros Hm. apply (Hkeys m); [by apply elem_of_cons; left | done]. }
    destruct (scan_mixin ent m st E tr) as [o tr1]; cbn in Htr, Hst1.
    subst o tr1. apply IH. intros m' Hin. apply Hkeys.
    by apply elem_of_cons; right.
Qed.

Lemma last_where_none p ms :
  (forall m, m ∈ ms -> p m = false) -> last_where p ms = None.
Proof.
  induction ms as [| m ms IH]; intros Hp; [done |].
  rewrite last_where_cons, IH, (Hp m); [done | by left |].
  intros m' Hin. apply Hp. by right.
Qed.

(** The loop on a description whose key-pair mixins find their
    attributes: it completes with the last template of each kind. *)
Lemma scan_entity E ent tr :
  key_attributes_supplied E ent ->
  exists st,
    scan_mixins ent (mixins ent) locals0 E tr = (Done st, tr)
    /\ resource_template st = last_where is_ResourceTemplate (mixins ent)
    /\ os_template st = last_where is_OsTemplate (mixins ent).
Proof.
  intros Hkeys.
  destruct (scan_mixins_completes E ent (mixins ent) locals0 tr) as [st Hst].
  { intros m Hin Hm. apply Hkeys. by exists m. }
  exists st. split; [done |].
  destruct (scan_mixins_run ent (mixins ent) locals0 E tr) as [_ Hrun].
  rewrite Hst in Hrun. cbn in Hrun. destruct Hrun as [-> ->].
  split; by case_match.
Qed.

Section create_vm_runs.
Context (ent : entity) (ctx : context) (E : env) (tr : trace).

(** A failed loop ends [create_vm] after the password has been drawn. *)
Lemma create_vm_scan_raises e :
  let n := password_length (FLAGS E) in
  let tr1 := tr ++ [Password n (generate_password (nova E) tr n)] in
  scan_mixins ent (mixins ent) locals0 E tr1 = (Raise e, tr1) ->
  create_vm ent ctx E tr = (Raise e, tr1).
Proof.
  intros n tr1 Hscan. unfold create_vm, bind, ask, utils_generate_password.
  fold n tr1. by rewrite Hscan.
Qed.

Lemma create_vm_no_os_template st :
  let n := password_length (FLAGS E) in
  let tr1 := tr ++ [Password n (generate_password (nova E) tr n)] in
  scan_mixins ent (mixins ent) locals0 E tr1 = (Done st, tr1) ->
  os_template st = None ->
  create_vm ent ctx E tr
  = (Raise (AttributeError "Please provide a valid OS Template."), tr1).
Proof.
  intros n tr1 Hscan Hos.
  unfold create_vm, bind, ask, utils_generate_password.
  fold n tr1. by rewrite Hscan, Hos.
Qed.

Lemma create_vm_default_flavor st os_tpl f :
  let n := password_length (FLAGS E) in
  let pw := generate_password (nova E) tr n in
  let tr1 := tr ++ [Password n pw] in
  scan_mixins ent (mixins ent) locals0 E tr1 = (Done st, tr1) ->
  os_template st = Some os_tpl ->
  resource_template st = None ->
  get_default_instance_type (nova E) tr1 = Returns f ->
  create_vm ent ctx E tr
  = make_the_call ctx f os_tpl (attributes ent !! "occi.compute.hostname")
      st pw E
      (tr1 ++ [Call CDefaultInstanceType (RFlavor f);
               Warn ("No resource template was found in the request. "
                     +:+ "Using the default: " +:+ flavor_name f)]).
Proof.
  intros n pw tr1 Hscan Hos Hres Hdefault.
  unfold create_vm, bind at 1, ask, bind at 1, utils_generate_password.
  fold n pw tr1. unfold bind at 1. rewrite Hscan, Hos, Hres.
  unfold bind at 1, bind at 1, instance_types_get_default_instance_type, api.
  rewrite Hdefault. unfold bind, LOG_warn, emit, ret.
  by rewrite <- app_assoc.
Qed.

Lemma create_vm_named_flavor st os_tpl res_tpl f :
  let n := password_length (FLAGS E) in
  let pw := generate_password (nova E) tr n in
  let tr1 := tr ++ [Password n pw] in
  scan_mixins ent (mixins ent) locals0 E tr1 = (Done st, tr1) ->
  os_template st = Some os_tpl ->
  resource_template st = Some res_tpl ->
  get_instance_type_by_name (nova E) tr1 (mixin_term res_tpl) = Returns f ->
  create_vm ent ctx E tr
  = make_the_call ctx f os_tpl (attributes ent !! "occi.compute.hostname")
      st pw E
      (tr1 ++ [Call (CInstanceTypeByName (mixin_term res_tpl)) (RFlavor f)]).
Proof.
  intros n pw tr1 Hscan Hos Hres Hnamed.
  unfold create_vm, bind at 1, ask, bind at 1, utils_generate_password.
  fold n pw tr1. unfold bind at 1. rewrite Hscan, Hos, Hres.
  unfold bind at 1, instance_types_get_instance_type_by_name, api.
  by rewrite Hnamed.
Qed.

(** A flavor lookup that fails ends [create_vm]: the exception leaves as
    it came, the lookup being outside the [try]. *)
Lemma create_vm_named_flavor_raises st os_tpl res_tpl x :
  let n := password_length (FLAGS E) in
  let pw := generate_password (nova E) tr n in
  let tr1 := tr ++ [Password n pw] in
  scan_mixins ent (mixins ent) locals0 E tr1 = (Done st, tr1) ->
  os_template st = Some os_tpl ->
  resource_template st = Some res_tpl ->
  get_instance_type_by_name (nova E) tr1 (mixin_term res_tpl) = Raises x ->
  create_vm ent ctx E tr
  = (Raise (ProviderError x),
     tr1 ++ [Call (CInstanceTypeByName (mixin_term res_tpl)) (RRaised x)]).
Proof.
  intros n pw tr1 Hscan Hos Hres Hnamed.
  unfold create_vm, bind at 1, ask, bind at 1, utils_generate_password.
  fold n pw tr1. unfold bind at 1. rewrite Hscan, Hos, Hres.
  unfold bind at 1, instance_types_get_instance_type_by_name, api.
  by rewrite Hnamed.
Qed.
End create_vm_runs.

(** The call itself: one [CCreate] event; a refusal becomes an
    AttributeError with the provider's message, a reply gives its first
    instance. *)
Lemma make_the_call_run ctx f c os_id rel name st pw E tr :
  let args := create_kwargs ctx f os_id name st pw in
  make_the_call ctx f (OsTemplate c os_id rel) name st pw E tr
  = match compute_create (nova E) tr args with
    | Returns (instances, rid) =>
        (match instances with
         | first :: _ => Done first
         | [] => Raise IndexError
         end,
         tr ++ [Call (CCreate args) (RCreated instances rid)])
    | Raises e =>
        (Raise (AttributeError (exc_msg e)),
         tr ++ [Call (CCreate args) (RRaised e)])
    end.
Proof.
  unfold make_the_call, bind, try_except, getattr_os_id, ret,
    COMPUTE_API_create, api. cbn.
  destruct (compute_create _ _ _) as [[instances rid] | e]; cbn; [| done].
  by destruct instances.
Qed.

(** What [make_the_call] leaves and returns, by the provider's reply. *)
Lemma make_the_call_facts ctx f c os_id rel name st pw E tr :
  let args := create_kwargs ctx f os_id name st pw in
  let r := created_reply (compute_create (nova E) tr args) in
  let run := make_the_call ctx f (OsTemplate c os_id rel) name st pw E tr in
  run.2 = tr ++ [Call (CCreate args) r]
  /\ (forall instances rid,
        r = RCreated instances rid ->
        run.1 = match instances with
                | first :: _ => Done first
                | [] => Raise IndexError
                end)
  /\ (forall e, r = RRaised e -> run.1 = Raise (AttributeError (exc_msg e))).
Proof.
  intros args r run. subst run r. rewrite make_the_call_run. fold args.
  destruct (compute_create _ _ _) as [[instances rid] | e]; cbn;
    (split; [done |]); split.
  - by intros ? ? [= <- <-].
  - by intros ? [=].
  - by intros ? ? [=].
  - by intros ? [= <-].
Qed.

(** A turn for a mixin that is not the key-pair extension reads no
    attribute and completes. *)
Lemma scan_mixin_skips ent m st E tr :
  reads_key E m = false ->
  exists st', scan_mixin ent m st E tr = (Done st', tr).
Proof.
  intros Hm. destruct (scan_mixin_run ent m st E tr) as [Htr _].
  destruct (scan_mixin_completes ent m st E tr) as [st' Hst'];
    [by rewrite Hm |].
  exists st'. by rewrite (surjective_pairing (scan_mixin _ _ _ _ _)), Htr, Hst'.
Qed.

(** A turn for the key-pair extension ends in the KeyError of the first
    attribute it does not find, the name before the data. *)
Lemma scan_mixin_missing_key ent m st E tr :
  reads_key E m = true ->
  (attributes ent !! "org.openstack.credentials.publickey.name" = None ->
   scan_mixin ent m st E tr
   = (Raise (KeyError "org.openstack.credentials.publickey.name"), tr))
  /\ (is_Some (attributes ent !! "org.openstack.credentials.publickey.name") ->
      attributes ent !! "org.openstack.credentials.publickey.data" = None ->
      scan_mixin ent m st E tr
      = (Raise (KeyError "org.openstack.credentials.publickey.data"), tr)).
Proof.
  unfold scan_mixin, reads_key, bind, ask, getitem.
  destruct m as [c rel | c rel | c os rel]; cbn; [| done ..].
  destruct (bool_decide (c = _)); [intros _ | done].
  split; [by intros -> | intros [name ->] ->; by cbn].
Qed.

(** The loop stops at the first key-pair extension whose turn fails,
    wherever it stands in the list. *)
Lemma scan_mixins_missing_key ent E key ms : forall st tr,
  (forall m st tr, reads_key E m = true ->
     scan_mixin ent m st E tr = (Raise (KeyError key), tr)) ->
  (exists m, m ∈ ms /\ reads_key E m = true) ->
  scan_mixins ent ms st E tr = (Raise (KeyError key), tr).
Proof.
  induction ms as [| m0 ms IH]; intros st tr Hturn (m & Hin & Hm).
  - by apply elem_of_nil in Hin.
  - cbn. unfold bind. destruct (reads_key E m0) eqn:Hm0.
    + by rewrite (Hturn m0 st tr Hm0).
    + destruct (scan_mixin_skips ent m0 st E tr Hm0) as [st' ->].
      apply IH; [done |]. exists m. split; [| done].
      apply elem_of_cons in Hin as [-> | Hin]; [congruence | done].
Qed.

(** C3, as the code has it: without an OsTemplate mixin nothing is asked of
    the provider (the trace holds the drawn password only); when the loop
    over the mixins completes the failure is the AttributeError raised
    after it; and the test comes after the whole loop: when the description
    has a key-pair extension mixin, anywhere in the list, and lacks one of
    its two attributes, the run ends in the KeyError of the first missing
    attribute, not in the AttributeError. *)
Theorem create_vm_without_os_template ent ctx E tr :
  (forall m, m ∈ mixins ent -> is_OsTemplate m = false) ->
  let n := password_length (FLAGS E) in
  let pw := generate_password (nova E) tr n in
  let name_attr := "org.openstack.credentials.publickey.name" in
  let data_attr := "org.openstack.credentials.publickey.data" in
  (create_vm ent ctx E tr).2 = tr ++ [Password n pw]
  /\ provider_calls (create_vm ent ctx E tr).2 = provider_calls tr
  /\ (key_attributes_supplied E ent ->
      (create_vm ent ctx E tr).1
      = Raise (AttributeError "Please provide a valid OS Template."))
  /\ ((exists m, m ∈ mixins ent /\ reads_key E m = true) ->
      (attributes ent !! name_attr = None ->
       (create_vm ent ctx E tr).1 = Raise (KeyError name_attr))
      /\ (is_Some (attributes ent !! name_attr) ->
          attributes ent !! data_attr = None ->
          (create_vm ent ctx E tr).1 = Raise (KeyError data_attr))).
Proof.
  intros Hnone n pw name_attr data_attr. set (tr1 := tr ++ [Password n pw]).
  assert (Hrun : (create_vm ent ctx E tr).2 = tr1).
  { destruct (scan_mixins_run ent (mixins ent) locals0 E tr1) as [Htr Hscan].
    destruct (scan_mixins ent (mixins ent) locals0 E tr1)
      as [[st | e |] tr2] eqn:Hrun; cbn in Htr, Hscan; subst tr2.
    - destruct Hscan as [_ Hos].
      rewrite (last_where_none _ _ Hnone) in Hos.
      by rewrite (create_vm_no_os_template _ _ _ _ _ Hrun Hos).
    - by rewrite (create_vm_scan_raises _ _ _ _ _ Hrun).
    - done. }
  split; [done |]. split; [| split].
  - rewrite Hrun. unfold tr1, provider_calls. rewrite omap_app. cbn.
    by rewrite app_nil_r.
  - intros Hkeys. destruct (scan_entity E ent tr1 Hkeys) as (st & Hscan & _ & Hos).
    rewrite (last_where_none _ _ Hnone) in Hos.
    by rewrite (create_vm_no_os_template _ _ _ _ _ Hscan Hos).
  - intros Hpair. split.
    + intros Hname.
      rewrite (create_vm_scan_raises ent ctx E tr (KeyError name_attr)); [done |].
      apply scan_mixins_missing_key; [| done].
      intros m st tr' Hm. by apply scan_mixin_missing_key.
    + intros Hname Hdata.
      rewrite (create_vm_scan_raises ent ctx E tr (KeyError data_attr)); [done |].
      apply scan_mixins_missing_key; [| done].
      intros m st tr' Hm. by apply scan_mixin_missing_key.
Qed.

Lemma create_vm_without_os_template_witness :
  create_vm (web1 [m1_small]) "ctx" (demo_env []) []
  = (Raise (AttributeError "Please provide a valid OS Template."),
     [Password 12 "aB3dE6gH9jK2"])
  /\ create_vm (web1 [m1_small; key_pair_mixin]) "ctx" (demo_env []) []
     = (Raise (KeyError "org.openstack.credentials.publickey.name"),
        [Password 12 "aB3dE6gH9jK2"]).
Proof.
  split.
  - assert (Hnone : forall m, m ∈ mixins (web1 [m1_small]) -> is_OsTemplate m = false).
    { intros m Hin. apply list_elem_of_singleton in Hin. by subst m. }
    destruct (create_vm_without_os_template (web1 [m1_small]) "ctx" (demo_env [])
                [] Hnone) as (Htr & _ & Hfail & _).
    rewrite (surjective_pairing (create_vm _ _ _ _)), Htr, Hfail; [done |].
    intros (m & Hin & Hkey). apply list_elem_of_singleton in Hin. by subst m.
  - assert (Hnone : forall m, m ∈ mixins (web1 [m1_small; key_pair_mixin]) ->
                              is_OsTemplate m = false).
    { intros m Hin. cbn in Hin. rewrite !elem_of_cons in Hin.
      destruct Hin as [-> | [-> | Hin]]; [done | done |].
      by apply elem_of_nil in Hin. }
    destruct (create_vm_without_os_template (web1 [m1_small; key_pair_mixin])
                "ctx" (demo_env []) [] Hnone) as (Htr & _ & _ & Hkey).
    destruct Hkey as [Hname _].
    { exists key_pair_mixin. split; [| reflexivity].
      cbn. rewrite !elem_of_cons. auto. }
    rewrite (surjective_pairing (create_vm _ _ _ _)), Htr, Hname; done.
Defined.

(** C3 as written fails: a description with the key-pair mixin, no
    public-key attribute and no OsTemplate ends in the KeyError of the
    loop, before the OsTemplate test is reached. *)
Lemma create_vm_key_pair_without_attributes :
  let ent := web1 [key_pair_mixin] in
  (forall m, m ∈ mixins ent -> is_OsTemplate m = false)
  /\ create_vm ent "ctx" (demo_env []) []
     = (Raise (KeyError "org.openstack.credentials.publickey.name"),
        [Password 12 "aB3dE6gH9jK2"])
  /\ ~ (exists msg,
          (create_vm ent "ctx" (demo_env []) []).1 = Raise (AttributeError msg)).
Proof.
  cbn zeta. split; [| split].
  - intros m Hin. apply list_elem_of_singleton in Hin. by subst m.
  - by vm_compute.
  - intros [msg Hfail]. vm_compute in Hfail. discriminate Hfail.
Qed.

(** C4, as the code has it: the end-to-end creation.  The flavor is looked
    up under the name 'm1.small' first.  When the lookup fails, its
    exception leaves [create_vm] and no creation is requested.  When it
    answers, instance creation is requested of the provider exactly once,
    with the image 'image-1', the flavor found, 'web1' as display name and
    description and both counts 1; the provider's list is answered with
    its first instance (an IndexError when it is empty), and a refusal
    with an AttributeError that carries the provider's message. *)
Theorem create_vm_end_to_end ent ctx E tr c1 rel1 c2 rel2 :
  mixins ent = [OsTemplate c1 "image-1" rel1; ResourceTemplate c2 rel2] ->
  term c2 = "m1.small" ->
  attributes ent !! "occi.compute.hostname" = Some "web1" ->
  let n := password_length (FLAGS E) in
  let pw := generate_password (nova E) tr n in
  let tr1 := tr ++ [Password n pw] in
  let run := create_vm ent ctx E tr in
  match get_instance_type_by_name (nova E) tr1 "m1.small" with
  | Raises x =>
      run = (Raise (ProviderError x),
             tr1 ++ [Call (CInstanceTypeByName "m1.small") (RRaised x)])
  | Returns f =>
      let tr2 := tr1 ++ [Call (CInstanceTypeByName "m1.small") (RFlavor f)] in
      exists args,
        arg_context args = ctx
        /\ image_href args = "image-1"
        /\ instance_type args = f
        /\ display_name args = Some "web1"
        /\ display_description args = Some "web1"
        /\ min_count args = 1
        /\ max_count args = 1
        /\ create_requests (added tr run.2) = [args]
        /\ run = match compute_create (nova E) tr2 args with
                 | Returns (instances, rid) =>
                     (match instances with
                      | first :: _ => Done first
                      | [] => Raise IndexError
                      end,
                      tr2 ++ [Call (CCreate args) (RCreated instances rid)])
                 | Raises e =>
                     (Raise (AttributeError (exc_msg e)),
                      tr2 ++ [Call (CCreate args) (RRaised e)])
                 end
  end.
Proof.
  intros Hmixins Hterm Hname n pw tr1 run. subst run.
  destruct (scan_entity E ent tr1) as (st & Hscan & Hres & Hos).
  { intros (m & Hin & Hkey). rewrite Hmixins in Hin.
    rewrite !elem_of_cons in Hin.
    destruct Hin as [-> | [-> | Hin]]; [done | done |].
    by apply elem_of_nil in Hin. }
  rewrite Hmixins in Hres, Hos. unfold last_where in Hres, Hos. cbn in Hres, Hos.
  assert (Hterm' : mixin_term (ResourceTemplate c2 rel2) = "m1.small")
    by (unfold mixin_term; cbn; by rewrite Hterm).
  destruct (get_instance_type_by_name (nova E) tr1 "m1.small") as [f | x]
    eqn:Hlookup; rewrite <- Hterm' in Hlookup.
  - rewrite (create_vm_named_flavor ent ctx E tr st _ _ f Hscan Hos Hres Hlookup).
    fold n pw tr1. rewrite Hterm', Hname, make_the_call_run. cbn zeta.
    exists (create_kwargs ctx f "image-1" (Some "web1") st pw).
    repeat (split; [reflexivity |]).
    split; [| reflexivity].
    unfold added, tr1.
    destruct (compute_create _ _ _) as [[instances rid] | e]; cbn [snd];
      rewrite <- !app_assoc, drop_app_length; reflexivity.
  - rewrite (create_vm_named_flavor_raises ent ctx E tr st _ _ x
               Hscan Hos Hres Hlookup).
    fold n pw tr1. by rewrite Hterm'.
Qed.

Lemma create_vm_end_to_end_witness :
  (exists args,
     create_vm (web1 [ubuntu; m1_small]) "ctx" (demo_env []) []
     = (Done {| uuid := "vm-new"; vm_state := "building";
                task_state := Some "scheduling" |},
        [Password 12 "aB3dE6gH9jK2";
         Call (CInstanceTypeByName "m1.small")
           (RFlavor {| flavor_name := "m1.small"; flavorid := "2" |});
         Call (CCreate args)
           (RCreated [ {| uuid := "vm-new"; vm_state := "building";
                          task_state := Some "scheduling" |} ] "r-1")])
     /\ image_href args = "image-1"
     /\ instance_type args = {| flavor_name := "m1.small"; flavorid := "2" |}
     /\ display_name args = Some "web1"
     /\ display_description args = Some "web1"
     /\ min_count args = 1 /\ max_count args = 1)
  /\ (create_vm (web1 [ubuntu; m1_small]) "ctx"
        (faulty_env [] (create_raises quota_exceeded)) []).1
     = Raise (AttributeError (exc_msg quota_exceeded))
  /\ (create_vm (web1 [ubuntu; m1_small]) "ctx" empty_handed_env []).1
     = Raise IndexError.
Proof.
  split; [| split].
  - destruct (create_vm_end_to_end (web1 [ubuntu; m1_small]) "ctx" (demo_env []) []
                (tpl "ubuntu-12.04") [] (tpl "m1.small") []
                eq_refl eq_refl eq_refl)
      as (args & _ & Himage & Hflavor & Hname & Hdescr & Hmin & Hmax & _ & Hrun).
    exists args. by rewrite Hrun.
  - destruct (create_vm_end_to_end (web1 [ubuntu; m1_small]) "ctx"
                (faulty_env [] (create_raises quota_exceeded)) []
                (tpl "ubuntu-12.04") [] (tpl "m1.small") []
                eq_refl eq_refl eq_refl)
      as (args & _ & _ & _ & _ & _ & _ & _ & _ & Hrun).
    by rewrite Hrun.
  - destruct (create_vm_end_to_end (web1 [ubuntu; m1_small]) "ctx"
                empty_handed_env []
                (tpl "ubuntu-12.04") [] (tpl "m1.small") []
                eq_refl eq_refl eq_refl)
      as (args & _ & _ & _ & _ & _ & _ & _ & _ & Hrun).
    by rewrite Hrun.
Defined.

(** C4 as written fails: with the mixins and the hostname of the claim and
    a provider that does not know 'm1.small', the lookup's exception leaves
    [create_vm] and instance creation is not requested at all. *)
Lemma create_vm_end_to_end_unknown_flavor :
  let ent := web1 [ubuntu; m1_small] in
  let E := faulty_env [] (flavor_lookup_raises m1_small_unknown) in
  mixins ent = [OsTemplate (tpl "ubuntu-12.04") "image-1" [];
                ResourceTemplate (tpl "m1.small") []]
  /\ attributes ent !! "occi.compute.hostname" = Some "web1"
  /\ create_vm ent "ctx" E []
     = (Raise (ProviderError m1_small_unknown),
        [Password 12 "aB3dE6gH9jK2";
         Call (CInstanceTypeByName "m1.small") (RRaised m1_small_unknown)])
  /\ create_requests (create_vm ent "ctx" E []).2 = [].
Proof. cbn zeta. repeat split; by vm_compute. Qed.

(** C6, as the code has it: on a description whose key-pair mixins find
    their attributes and whose last OsTemplate carries [os_id], (a) without
    a ResourceTemplate the provider's default flavor is asked for and, once
    it has answered, a warning is logged and creation is requested with
    that flavor and that image, a non-empty reply being answered with its
    first instance; (b) with ResourceTemplates, the flavor is looked up
    under the term of the last one and creation is requested with it. *)
Theorem create_vm_flavor_selection ent ctx E tr c os_id rel :
  key_attributes_supplied E ent ->
  last_where is_OsTemplate (mixins ent) = Some (OsTemplate c os_id rel) ->
  let n := password_length (FLAGS E) in
  let pw := generate_password (nova E) tr n in
  let tr1 := tr ++ [Password n pw] in
  ((forall m, m ∈ mixins ent -> is_ResourceTemplate m = false) ->
   forall f,
     get_default_instance_type (nova E) tr1 = Returns f ->
     let tr2 := tr1 ++ [Call CDefaultInstanceType (RFlavor f);
                        Warn ("No resource template was found in the request. "
                              +:+ "Using the default: " +:+ flavor_name f)] in
     exists args,
       let r := created_reply (compute_create (nova E) tr2 args) in
       (create_vm ent ctx E tr).2 = tr2 ++ [Call (CCreate args) r]
       /\ instance_type args = f
       /\ image_href args = os_id
       /\ (forall first rest rid,
             r = RCreated (first :: rest) rid ->
             (create_vm ent ctx E tr).1 = Done first))
  /\ (forall res_tpl f,
        last_where is_ResourceTemplate (mixins ent) = Some res_tpl ->
        get_instance_type_by_name (nova E) tr1 (mixin_term res_tpl) = Returns f ->
        let tr2 := tr1 ++ [Call (CInstanceTypeByName (mixin_term res_tpl))
                             (RFlavor f)] in
        exists args,
          let r := created_reply (compute_create (nova E) tr2 args) in
          (create_vm ent ctx E tr).2 = tr2 ++ [Call (CCreate args) r]
          /\ instance_type args = f
          /\ image_href args = os_id
          /\ (forall first rest rid,
                r = RCreated (first :: rest) rid ->
                (create_vm ent ctx E tr).1 = Done first)).
Proof.
  intros Hkeys Hlast n pw tr1.
  destruct (scan_entity E ent tr1 Hkeys) as (st & Hscan & Hres & Hos).
  rewrite Hlast in Hos. split.
  - intros Hnone f Hdefault tr2.
    rewrite (last_where_none _ _ Hnone) in Hres.
    rewrite (create_vm_default_flavor ent ctx E tr st _ f Hscan Hos Hres Hdefault).
    fold n pw tr1 tr2.
    destruct (make_the_call_facts ctx f c os_id rel
                (attributes ent !! "occi.compute.hostname") st pw E tr2)
      as (Htr & Hfirst & _).
    eexists. cbn zeta. split; [exact Htr |]. repeat (split; [reflexivity |]).
    intros first rest rid Hr. by rewrite (Hfirst _ _ Hr).
  - intros res_tpl f Hsome Hnamed tr2. rewrite Hsome in Hres.
    rewrite (create_vm_named_flavor ent ctx E tr st _ _ f Hscan Hos Hres Hnamed).
    fold n pw tr1 tr2.
    destruct (make_the_call_facts ctx f c os_id rel
                (attributes ent !! "occi.compute.hostname") st pw E tr2)
      as (Htr & Hfirst & _).
    eexists. cbn zeta. split; [exact Htr |]. repeat (split; [reflexivity |]).
    intros first rest rid Hr. by rewrite (Hfirst _ _ Hr).
Qed.

Lemma create_vm_flavor_selection_witness :
  (exists args,
     instance_type args = {| flavor_name := "m1.tiny"; flavorid := "1" |}
     /\ provider_calls (create_vm (web1 [ubuntu]) "ctx" (demo_env []) []).2
        = [CDefaultInstanceType; CCreate args]
     /\ (create_vm (web1 [ubuntu]) "ctx" (demo_env []) []).1
        = Done {| uuid := "vm-new"; vm_state := "building";
                  task_state := Some "scheduling" |})
  /\ (exists args,
        instance_type args = {| flavor_name := "m1.large"; flavorid := "2" |}
        /\ provider_calls
             (create_vm (web1 [m1_small; ubuntu; m1_large]) "ctx"
                (demo_env []) []).2
           = [CInstanceTypeByName "m1.large"; CCreate args]).
Proof.
  split.
  - assert (Hkeys : key_attributes_supplied (demo_env []) (web1 [ubuntu])).
    { intros (m & Hin & Hkey). apply list_elem_of_singleton in Hin. by subst m. }
    destruct (proj1 (create_vm_flavor_selection (web1 [ubuntu]) "ctx"
                       (demo_env []) [] (tpl "ubuntu-12.04") "image-1" []
                       Hkeys eq_refl))
      with (f := {| flavor_name := "m1.tiny"; flavorid := "1" |})
      as (args & Htr & Hflavor & _ & Hfirst).
    { intros m Hin. apply list_elem_of_singleton in Hin. by subst m. }
    { reflexivity. }
    exists args. split; [exact Hflavor |]. split.
    + rewrite Htr. reflexivity.
    + eapply Hfirst. reflexivity.
  - assert (Hkeys : key_attributes_supplied (demo_env [])
                      (web1 [m1_small; ubuntu; m1_large])).
    { intros (m & Hin & Hkey). cbn in Hin. rewrite !elem_of_cons in Hin.
      destruct Hin as [-> | [-> | [-> | Hin]]]; try done.
      by apply elem_of_nil in Hin. }
    destruct (proj2 (create_vm_flavor_selection
                       (web1 [m1_small; ubuntu; m1_large]) "ctx"
                       (demo_env []) [] (tpl "ubuntu-12.04") "image-1" []
                       Hkeys eq_refl)
                m1_large {| flavor_name := "m1.large"; flavorid := "2" |}
                eq_refl eq_refl)
      as (args & Htr & Hflavor & _).
    exists args. split; [exact Hflavor |]. rewrite Htr. reflexivity.
Defined.

(** C6 as written fails: with an OsTemplate and no ResourceTemplate the
    creation still ends in an error when a key-pair mixin comes without its
    attributes, and when the provider refuses the request. *)
Lemma create_vm_with_os_template_fails :
  let no_key := web1 [ubuntu; key_pair_mixin] in
  let plain := web1 [ubuntu] in
  (forall ent, ent = no_key \/ ent = plain ->
     (exists m, m ∈ mixins ent /\ is_OsTemplate m = true)
     /\ (forall m, m ∈ mixins ent -> is_ResourceTemplate m = false))
  /\ (create_vm no_key "ctx" (demo_env []) []).1
     = Raise (KeyError "org.openstack.credentials.publickey.name")
  /\ (create_vm plain "ctx" (faulty_env [] (create_raises quota_exceeded)) []).1
     = Raise (AttributeError (exc_msg quota_exceeded)).
Proof.
  cbn zeta. split; [| split].
  - intros ent [-> | ->]; (split; [exists ubuntu; split; [by left | done] |]);
      intros m Hin; cbn in Hin; rewrite !elem_of_cons in Hin.
    + destruct Hin as [-> | [-> | Hin]]; try done. by apply elem_of_nil in Hin.
    + destruct Hin as [-> | Hin]; try done. by apply elem_of_nil in Hin.
  - by vm_compute.
  - by vm_compute.
Qed.

(** ** [resize_vm] *)




(** One turn of the loop. *)
Lemma resize_poll_exit fuel uid ctx ready i E tr :
  negb ready || bool_decide (i < 15) = false ->
  resize_poll fuel uid ctx ready i E tr = (Done tt, tr) /\ ready = true.
Proof.
  intros Hcond. destruct fuel; cbn; rewrite Hcond;
    apply orb_false_elim in Hcond as [Hready _]; by destruct ready.
Qed.

Lemma resize_poll_turn fuel uid ctx ready i E tr inst tr1 :
  negb ready || bool_decide (i < 15) = true ->
  get_vm uid ctx E tr = (Done inst, tr1) ->
  resize_poll (S fuel) uid ctx ready i E tr
  = resize_poll fuel uid ctx
      (if bool_decide (vm_state inst = "resized") then true else ready)
      (i + 1) E (tr1 ++ [Sleep 1]).
Proof.
  intros Hcond Hget. cbn [resize_poll]. rewrite Hcond.
  unfold bind at 1. rewrite Hget. by unfold bind, time_sleep, emit.
Qed.

Lemma resize_poll_turn_raises fuel uid ctx ready i E tr e tr1 :
  negb ready || bool_decide (i < 15) = true ->
  get_vm uid ctx E tr = (Raise e, tr1) ->
  resize_poll (S fuel) uid ctx ready i E tr = (Raise e, tr1).
Proof.
  intros Hcond Hget. cbn [resize_poll]. rewrite Hcond.
  unfold bind at 1. by rewrite Hget.
Qed.



Lemma slept_app evs1 evs2 : slept (evs1 ++ evs2) = slept evs1 + slept evs2.
Proof. unfold slept. by rewrite omap_app, sum_list_with_app. Qed.

Lemma slept_turn c r n evs : slept (Call c r :: Sleep n :: evs) = n + slept evs.
Proof. reflexivity. Qed.

Lemma fetch_failed E tr uid ctx x :
  compute_get (nova E) tr ctx uid = Raises x ->
  get_vm uid ctx E tr
  = (Raise (fetch_error x), tr ++ [Call (CGet ctx uid) (RRaised x)]).
Proof.
  intros Hget. unfold fetch_error.
  destruct (issubclass (exc_class x) NotFound) eqn:Hcls.
  - by apply get_vm_not_found.
  - by apply get_vm_raises.
Qed.

(** The loop in full: turns that went well, then a normal exit (with
    'resized' seen, and the counter at fifteen or more), or the fuel spent,
    or a fetch that failed, as the last event. *)
Lemma resize_poll_shape uid ctx E fuel : forall ready i tr,
  exists good,
    Forall (quiet_poll uid ctx) good
    /\ ((resize_poll fuel uid ctx ready i E tr = (Done tt, tr ++ good)
         /\ 15 <= i + slept good
         /\ (ready = true \/ observed_resized uid good))
        \/ resize_poll fuel uid ctx ready i E tr = (Diverge, tr ++ good)
        \/ exists x,
             resize_poll fuel uid ctx ready i E tr
             = (Raise (fetch_error x),
                tr ++ good ++ [Call (CGet ctx uid) (RRaised x)])).
Proof.
  induction fuel as [| fuel' IH]; intros ready i tr;
    destruct (negb ready || bool_decide (i < 15)) eqn:Hcond.
  - exists []. split; [done |]. right; left. cbn. by rewrite Hcond, app_nil_r.
  - exists []. split; [done |]. left.
    destruct (resize_poll_exit 0 uid ctx ready i E tr Hcond) as [-> ->].
    rewrite app_nil_r. repeat split; [| by left].
    apply orb_false_elim in Hcond as [_ Hi].
    apply bool_decide_eq_false in Hi. cbn. lia.
  - destruct (compute_get (nova E) tr ctx uid) as [inst | x] eqn:Hget.
    + rewrite (resize_poll_turn _ _ _ _ _ _ _ _ _ Hcond
                 (get_vm_found _ _ _ _ _ Hget)).
      set (ready' := if bool_decide (vm_state inst = "resized")
                     then true else ready).
      destruct (IH ready' (i + 1)
                  ((tr ++ [Call (CGet ctx uid) (RInstance inst)]) ++ [Sleep 1]))
        as (good & Hgood & Hrun).
      exists (Call (CGet ctx uid) (RInstance inst) :: Sleep 1 :: good).
      split.
      { apply Forall_cons; split; [right; by eexists |].
        apply Forall_cons; split; [by left | done]. }
      destruct Hrun as [(-> & Hcount & Hseen) | [-> | [x ->]]].
      * left. rewrite <- !app_assoc. split; [done |].
        split; [rewrite slept_turn; lia |].
        destruct Hseen as [Hready | (ctx' & j & Hin & Hst)].
        -- unfold ready' in Hready. case_bool_decide as Hst; [| by left].
           right. exists ctx, inst. split; [by left | done].
        -- right. exists ctx', j. split; [by do 2 right | done].
      * right; left. by rewrite <- !app_assoc.
      * right; right. exists x. by rewrite <- !app_assoc.
    + exists []. split; [done |]. right; right. exists x.
      by rewrite (resize_poll_turn_raises _ _ _ _ _ _ _ _ _ Hcond
                    (fetch_failed _ _ _ _ _ Hget)).
  - exists []. split; [done |]. left.
    destruct (resize_poll_exit (S fuel') uid ctx ready i E tr Hcond) as [-> ->].
    rewrite app_nil_r. repeat split; [| by left].
    apply orb_false_elim in Hcond as [_ Hi].
    apply bool_decide_eq_false in Hi. cbn. lia.
Qed.

(** The two [except] clauses of [resize_vm] on an exception of a call
    inside the [try], and on the errors of [get_vm]. *)
Lemma resize_vm_handles_call x E tr :
  match orelse
          (except FlavorNotFound
             (fun _ => raise (A := unit)
                         (AttributeError "Unable to locate requested flavor.")))
          (except InstanceInvalidState
             (fun error =>
                raise (AttributeError
                         ("VM is in an invalid state: " +:+ exc_msg error))))
          (ProviderError x) with
  | Some recover => recover E tr
  | None => (Raise (ProviderError x), tr)
  end = (Raise (resize_error x), tr).
Proof.
  unfold orelse, except, resize_error.
  by destruct (issubclass (exc_class x) FlavorNotFound),
    (issubclass (exc_class x) InstanceInvalidState).
Qed.

Lemma resize_vm_handles_fetch x E tr :
  match orelse
          (except FlavorNotFound
             (fun _ => raise (A := unit)
                         (AttributeError "Unable to locate requested flavor.")))
          (except InstanceInvalidState
             (fun error =>
                raise (AttributeError
                         ("VM is in an invalid state: " +:+ exc_msg error))))
          (fetch_error x) with
  | Some recover => recover E tr
  | None => (Raise (fetch_error x), tr)
  end = (Raise (later_fetch_error x), tr).
Proof.
  unfold fetch_error, later_fetch_error.
  destruct (issubclass (exc_class x) NotFound); [done |].
  apply resize_vm_handles_call.
Qed.

(** Every run of [resize_vm] ends in one of the ways of [resize_ending]. *)
Lemma resize_vm_shape fuel uid flavor_name ctx E tr :
  exists o evs,
    resize_vm fuel uid flavor_name ctx E tr = (o, tr ++ evs)
    /\ resize_ending uid flavor_name ctx o evs.
Proof.
  unfold resize_vm, bind at 1.
  destruct (compute_get (nova E) tr ctx uid) as [inst | x] eqn:Hget.
  2: { rewrite (fetch_failed _ _ _ _ _ Hget). eexists _, _.
       split; [done | constructor]. }
  rewrite (get_vm_found _ _ _ _ _ Hget). unfold try_except.
  set (g := Call (CGet ctx uid) (RInstance inst)).
  (* the flavor lookup *)
  unfold bind at 1, instance_types_get_instance_type_by_name, api.
  destruct (get_instance_type_by_name _ _ _) as [flv | x].
  2: { rewrite resize_vm_handles_call. eexists _, [g; _].
       rewrite <- app_assoc. split; [done | constructor]. }
  set (b := Call (CInstanceTypeByName flavor_name) (RFlavor flv)).
  (* the resize request *)
  unfold bind at 1, COMPUTE_API_resize, api.
  destruct (compute_resize _ _ _ _ _) as [[] | x].
  2: { rewrite resize_vm_handles_call. eexists _, [g; b; _].
       rewrite <- !app_assoc. split; [done | constructor]. }
  set (r := Call (CResize ctx inst (flavorid flv)) RNone).
  (* the loop *)
  unfold bind at 1.
  destruct (resize_poll_shape uid ctx E fuel false 0 (((tr ++ [g]) ++ [b]) ++ [r]))
    as (good & Hgood & [(Hrun & Hcount & Hseen) | [Hrun | [x Hrun]]]);
    rewrite Hrun.
  2: { eexists _, ([g; b; r] ++ good). rewrite <- !app_assoc.
       split; [done | by constructor]. }
  2: { rewrite resize_vm_handles_fetch.
       eexists _, ([g; b; r] ++ good ++ [_]). rewrite <- !app_assoc.
       split; [done | by constructor]. }
  destruct Hseen as [? | Hseen]; [done |].
  (* the last fetch *)
  unfold bind at 1.
  destruct (compute_get (nova E) ((((tr ++ [g]) ++ [b]) ++ [r]) ++ good) ctx uid)
    as [inst' | x] eqn:Hget'.
  2: { rewrite (fetch_failed _ _ _ _ _ Hget'), resize_vm_handles_fetch.
       eexists _, ([g; b; r] ++ good ++ [_]). rewrite <- !app_assoc.
       split; [done | by constructor]. }
  rewrite (get_vm_found _ _ _ _ _ Hget').
  (* the confirmation *)
  unfold COMPUTE_API_confirm_resize, api.
  destruct (compute_confirm_resize _ _ _ _) as [[] | x].
  - eexists _, ([g; b; r] ++ good ++ [_; _]). rewrite <- !app_assoc.
    split; [done | by constructor].
  - rewrite resize_vm_handles_call.
    eexists _, ([g; b; r] ++ good ++ [_; _]). rewrite <- !app_assoc.
    split; [done | by constructor].
Qed.

Lemma quiet_polls uid ctx good :
  Forall (quiet_poll uid ctx) good ->
  existsb is_confirm good = false
  /\ existsb is_resize good = false
  /\ omap failed good = [].
Proof.
  induction 1 as [| ev good [-> | [i ->]] _ (IH1 & IH2 & IH3)]; by cbn.
Qed.




(** The counter only delays the exit: with 'resized' shown at the first
    fetch the loop still takes fifteen turns. *)
Example resize_poll_fifteen_turns :
  (resize_poll 14 "vm-1" "ctx" false 0 (demo_env [vm1 "resized" None]) []).1
  = Diverge
  /\ (resize_poll 15 "vm-1" "ctx" false 0 (demo_env [vm1 "resized" None]) []).1
     = Done tt
  /\ length (resize_poll 15 "vm-1" "ctx" false 0
               (demo_env [vm1 "resized" None]) []).2 = 30.
Proof. by vm_compute. Qed.

(** * Further properties of the module *)

(** ** [get_vm], the fetch every operation starts with *)

(** X1: [get_vm] asks the provider once; an instance is handed on as it
    came, a failure of a NotFound class becomes the 404 'VM not found!',
    and a failure of any other class leaves the function as it is. *)
Theorem get_vm_contract E tr uid ctx :
  (forall i,
     compute_get (nova E) tr ctx uid = Returns i ->
     get_vm uid ctx E tr = (Done i, tr ++ [Call (CGet ctx uid) (RInstance i)]))
  /\ (forall e,
        compute_get (nova E) tr ctx uid = Raises e ->
        get_vm uid ctx E tr
        = (Raise (if issubclass (exc_class e) NotFound
                  then HTTPError 404 "VM not found!"
                  else ProviderError e),
           tr ++ [Call (CGet ctx uid) (RRaised e)])).
Proof.
  split.
  - apply get_vm_found.
  - intros e Hget. destruct (issubclass (exc_class e) NotFound) eqn:Hcls.
    + by apply get_vm_not_found.
    + by apply get_vm_raises.
Qed.

Lemma get_vm_contract_witness :
  get_vm "vm-1" "ctx" (demo_env [vm1 "active" (Some "rebooting")]) []
  = (Done (vm1 "active" (Some "rebooting")),
     [Call (CGet "ctx" "vm-1") (RInstance (vm1 "active" (Some "rebooting")))])
  /\ get_vm "vm-9" "ctx" (demo_env [vm1 "active" None]) []
     = (Raise (HTTPError 404 "VM not found!"),
        [Call (CGet "ctx" "vm-9") (RRaised (not_found "vm-9"))])
  /\ get_vm "vm-1" "ctx"
       (faulty_env [vm1 "active" None] (fun _ => Some quota_exceeded)) []
     = (Raise (ProviderError quota_exceeded),
        [Call (CGet "ctx" "vm-1") (RRaised quota_exceeded)]).
Proof.
  split; [| split].
  - apply (proj1 (get_vm_contract
                    (demo_env [vm1 "active" (Some "rebooting")]) [] "vm-1" "ctx")
             _ eq_refl).
  - apply (proj2 (get_vm_contract (demo_env [vm1 "active" None]) [] "vm-9" "ctx")
             (not_found "vm-9") eq_refl).
  - apply (proj2 (get_vm_contract
                    (faulty_env [vm1 "active" None] (fun _ => Some quota_exceeded))
                    [] "vm-1" "ctx")
             quota_exceeded eq_refl).
Defined.

(** ** [get_occi_state], read backwards *)

(** The three answers [get_occi_state] has, by [vm_state]. *)
Lemma get_occi_state_cases E tr uid ctx i :
  compute_get (nova E) tr ctx uid = Returns i ->
  (vm_state i = "active"
   /\ (get_occi_state uid ctx E tr).1 = Done ("active", [STOP; SUSPEND; RESTART]))
  \/ ((vm_state i = "paused" \/ vm_state i = "suspended"
       \/ vm_state i = "stopped")
      /\ (get_occi_state uid ctx E tr).1 = Done ("inactive", [START]))
  \/ (vm_state i <> "active" /\ vm_state i <> "paused"
      /\ vm_state i <> "suspended" /\ vm_state i <> "stopped"
      /\ (get_occi_state uid ctx E tr).1 = Done ("inactive", [])).
Proof.
  intros Hget. unfold get_occi_state, bind.
  rewrite (get_vm_found _ _ _ _ _ Hget). unfold py_in.
  unfold vm_states.ACTIVE, vm_states.PAUSED, vm_states.SUSPENDED,
    vm_states.STOPPED, vm_states.BUILDING, vm_states.RESCUED,
    vm_states.ERROR, vm_states.DELETED, task_states.IMAGE_SNAPSHOT.
  repeat match goal with
         | |- context [bool_decide ?P] =>
             destruct (bool_decide_reflect P) as [?Hin | ?Hout]
         end;
    cbn; rewrite ?elem_of_cons, ?elem_of_nil in *;
    first [ left; split; [intuition congruence | reflexivity]
          | right; left; split; [intuition congruence | reflexivity]
          | right; right; repeat split; solve [intuition congruence] ].
Qed.

(** X2: from the answer of [get_occi_state] the provider state can be read
    back: the state is 'active' exactly for [vm_state] 'active', START is
    offered exactly for 'paused', 'suspended' and 'stopped', each of STOP,
    SUSPEND and RESTART exactly for 'active'; so START never comes with
    one of the other three. *)
Theorem get_occi_state_offers E tr uid ctx i state actions :
  compute_get (nova E) tr ctx uid = Returns i ->
  (get_occi_state uid ctx E tr).1 = Done (state, actions) ->
  (state = "active" <-> vm_state i = vm_states.ACTIVE)
  /\ (START ∈ actions
      <-> vm_state i ∈ [vm_states.PAUSED; vm_states.SUSPENDED;
                        vm_states.STOPPED])
  /\ (forall a, a ∈ [STOP; SUSPEND; RESTART] ->
        (a ∈ actions <-> vm_state i = vm_states.ACTIVE))
  /\ (START ∈ actions -> forall a, a ∈ actions -> a = START).
Proof.
  intros Hget Hrun.
  unfold vm_states.ACTIVE, vm_states.PAUSED, vm_states.SUSPENDED,
    vm_states.STOPPED.
  destruct (get_occi_state_cases E tr uid ctx i Hget)
    as [[Hst Hres] | [[Hst Hres] | (Hna & Hnp & Hns & Hnt & Hres)]];
    rewrite Hres in Hrun; injection Hrun as <- <-;
    rewrite ?elem_of_cons, ?elem_of_nil;
    (split; [intuition congruence |]);
    (split; [intuition congruence |]);
    (split; [intros a; rewrite ?elem_of_cons, ?elem_of_nil;
             intuition congruence |]);
    intros Hstart a; rewrite ?elem_of_cons, ?elem_of_nil in *;
    intuition congruence.
Qed.

Lemma get_occi_state_offers_witness :
  let i := vm1 "paused" None in
  ("inactive" = "active" <-> vm_state i = vm_states.ACTIVE)
  /\ (START ∈ [START]
      <-> vm_state i ∈ [vm_states.PAUSED; vm_states.SUSPENDED;
                        vm_states.STOPPED])
  /\ (forall a, a ∈ [STOP; SUSPEND; RESTART] ->
        (a ∈ [START] <-> vm_state i = vm_states.ACTIVE))
  /\ (START ∈ [START] -> forall a, a ∈ [START] -> a = START).
Proof.
  exact (get_occi_state_offers (demo_env [vm1 "paused" None]) [] "vm-1" "ctx"
           (vm1 "paused" None) "inactive" [START] eq_refl eq_refl).
Defined.

(** ** [create_vm]: what the creation request carries *)

(** A turn of the loop, for the three locals the templates do not touch. *)
Lemma scan_mixin_collects ent m st E tr st' :
  (scan_mixin ent m st E tr).1 = Done st' ->
  sg_names st'
  = sg_names st ++ (if in_sec_group E m then [mixin_term m] else [])
  /\ l_key_name st'
     = (if reads_key E m
        then attributes ent !! "org.openstack.credentials.publickey.name"
        else l_key_name st)
  /\ l_key_data st'
     = (if reads_key E m
        then attributes ent !! "org.openstack.credentials.publickey.data"
        else l_key_data st).
Proof.
  unfold scan_mixin, reads_key, in_sec_group, bind, ask, getitem.
  destruct m as [c rel | c rel | c os rel]; cbn;
    repeat match goal with
           | |- context [bool_decide ?P] => destruct (bool_decide P)
           | |- context [attributes ent !! ?k] =>
               destruct (attributes ent !! k) eqn:?
           end; cbn; intros [= <-]; cbn; by rewrite ?app_nil_r.
Qed.

Lemma scan_mixins_collects ent E ms : forall st tr st',
  (scan_mixins ent ms st E tr).1 = Done st' ->
  sg_names st'
  = sg_names st ++ (mixin_term <$> List.filter (in_sec_group E) ms)
  /\ l_key_name st'
     = (if existsb (reads_key E) ms
        then attributes ent !! "org.openstack.credentials.publickey.name"
        else l_key_name st)
  /\ l_key_data st'
     = (if existsb (reads_key E) ms
        then attributes ent !! "org.openstack.credentials.publickey.data"
        else l_key_data st).
Proof.
  induction ms as [| m ms IH]; intros st tr st'; cbn.
  - intros [= <-]. by rewrite app_nil_r.
  - unfold bind.
    destruct (scan_mixin ent m st E tr) as [[st1 | e |] tr1] eqn:Hturn;
      [| done ..].
    intros Hrest. apply IH in Hrest as (Hsg & Hname & Hdata).
    destruct (scan_mixin_collects ent m st E tr st1) as (Hsg1 & Hname1 & Hdata1);
      [by rewrite Hturn |].
    rewrite Hsg, Hname, Hdata, Hsg1, Hname1, Hdata1.
    destruct (in_sec_group E m), (reads_key E m), (existsb (reads_key E) ms);
      cbn; by rewrite <- ?app_assoc, ?app_nil_r.
Qed.

Lemma last_where_sat p ms m : last_where p ms = Some m -> p m = true.
Proof.
  induction ms as [| m' ms IH]; [done |].
  rewrite last_where_cons. destruct (last_where p ms) as [x |].
  - intros [= ->]. by apply IH.
  - destruct (p m') eqn:Hp; [by intros [= <-] | done].
Qed.

(** The runs of [create_vm], by how far they get: the loop or the
    OsTemplate test fails; the flavor lookup fails; the creation is
    requested. *)
Lemma create_vm_shape ent ctx E tr :
  let n := password_length (FLAGS E) in
  let pw := generate_password (nova E) tr n in
  let tr1 := tr ++ [Password n pw] in
  let name := attributes ent !! "occi.compute.hostname" in
  ((create_vm ent ctx E tr).2 = tr1
   /\ exists e, (create_vm ent ctx E tr).1 = Raise e)
  \/ (exists c x,
        (c = CDefaultInstanceType \/ exists nm, c = CInstanceTypeByName nm)
        /\ create_vm ent ctx E tr
           = (Raise (ProviderError x), tr1 ++ [Call c (RRaised x)]))
  \/ (exists st c os_id rel f pre,
        scan_mixins ent (mixins ent) locals0 E tr1 = (Done st, tr1)
        /\ last_where is_OsTemplate (mixins ent) = Some (OsTemplate c os_id rel)
        /\ flavor_events ent f pre
        /\ create_vm ent ctx E tr
           = make_the_call ctx f (OsTemplate c os_id rel) name st pw E
               (tr1 ++ pre)).
Proof.
  intros n pw tr1 name.
  destruct (scan_mixins_run ent (mixins ent) locals0 E tr1) as [Htr Hscan].
  destruct (scan_mixins ent (mixins ent) locals0 E tr1)
    as [[st | e |] tr2] eqn:Hrun; cbn in Htr, Hscan; subst tr2; [| | done].
  2: { left. rewrite (create_vm_scan_raises _ _ _ _ _ Hrun). eauto. }
  destruct Hscan as [Hres Hos].
  destruct (last_where is_OsTemplate (mixins ent)) as [os_tpl |] eqn:Hlast.
  2: { left. rewrite (create_vm_no_os_template _ _ _ _ _ Hrun Hos). eauto. }
  pose proof (last_where_sat _ _ _ Hlast) as Hsat.
  destruct os_tpl as [| | c os_id rel]; try done.
  destruct (resource_template st) as [res_tpl |] eqn:Hrt.
  - destruct (get_instance_type_by_name (nova E) tr1 (mixin_term res_tpl))
      as [f | x] eqn:Hlookup.
    + right; right.
      exists st, c, os_id, rel, f,
        [Call (CInstanceTypeByName (mixin_term res_tpl)) (RFlavor f)].
      rewrite (create_vm_named_flavor _ _ _ _ _ _ _ _ Hrun Hos Hrt Hlookup).
      repeat split. left. exists res_tpl. split; [| done].
      by destruct (last_where is_ResourceTemplate (mixins ent)).
    + right; left. exists (CInstanceTypeByName (mixin_term res_tpl)), x.
      split; [eauto |].
      unfold create_vm, bind at 1, ask, bind at 1, utils_generate_password.
      fold n pw tr1. unfold bind at 1. rewrite Hrun, Hos, Hrt.
      unfold bind at 1, instance_types_get_instance_type_by_name, api.
      by rewrite Hlookup.
  - destruct (get_default_instance_type (nova E) tr1) as [f | x] eqn:Hlookup.
    + right; right.
      exists st, c, os_id, rel, f,
        [Call CDefaultInstanceType (RFlavor f);
         Warn ("No resource template was found in the request. "
               +:+ "Using the default: " +:+ flavor_name f)].
      rewrite (create_vm_default_flavor _ _ _ _ _ _ _ Hrun Hos Hrt Hlookup).
      repeat split. right. split; [| done].
      by destruct (last_where is_ResourceTemplate (mixins ent)).
    + right; left. exists CDefaultInstanceType, x. split; [eauto |].
      unfold create_vm, bind at 1, ask, bind at 1, utils_generate_password.
      fold n pw tr1. unfold bind at 1. rewrite Hrun, Hos, Hrt.
      unfold bind at 1, bind at 1, instance_types_get_default_instance_type, api.
      by rewrite Hlookup.
Qed.

(** What a run of [create_vm] added, by how far it got. *)
Lemma create_vm_requests ent ctx E tr :
  let n := password_length (FLAGS E) in
  let pw := generate_password (nova E) tr n in
  let tr1 := tr ++ [Password n pw] in
  let name := attributes ent !! "occi.compute.hostname" in
  let run := create_vm ent ctx E tr in
  let new := added tr run.2 in
  (create_requests new = [] /\ create_replies new = []
   /\ flavor_failures new = [] /\ exists e, run.1 = Raise e)
  \/ (exists x,
        create_requests new = [] /\ create_replies new = []
        /\ flavor_failures new = [x] /\ run.1 = Raise (ProviderError x))
  \/ (exists st c os_id rel f pre,
        let args := create_kwargs ctx f os_id name st pw in
        let r := created_reply (compute_create (nova E) (tr1 ++ pre) args) in
        scan_mixins ent (mixins ent) locals0 E tr1 = (Done st, tr1)
        /\ last_where is_OsTemplate (mixins ent) = Some (OsTemplate c os_id rel)
        /\ flavor_events ent f pre
        /\ new = Password n pw :: pre ++ [Call (CCreate args) r]
        /\ create_requests new = [args] /\ create_replies new = [r]
        /\ flavor_failures new = []
        /\ (forall instances rid,
              r = RCreated instances rid ->
              run.1 = match instances with
                      | first :: _ => Done first
                      | [] => Raise IndexError
                      end)
        /\ (forall e, r = RRaised e -> run.1 = Raise (AttributeError (exc_msg e)))).
Proof.
  intros n pw tr1 name run new. subst run new.
  destruct (create_vm_shape ent ctx E tr)
    as [[Htr He] | [(c & x & Hc & Hrun)
                   | (st & c & os_id & rel & f & pre & Hscan & Hos & Hpre & Hrun)]].
  - left. rewrite Htr. unfold added. by rewrite drop_app_length.
  - right; left. exists x. rewrite Hrun. cbn [fst snd]. unfold added.
    rewrite <- app_assoc, drop_app_length.
    by destruct Hc as [-> | [nm ->]].
  - right; right. exists st, c, os_id, rel, f, pre. cbn zeta.
    subst n pw tr1 name.
    destruct (make_the_call_facts ctx f c os_id rel
                (attributes ent !! "occi.compute.hostname") st
                (generate_password (nova E) tr (password_length (FLAGS E))) E
                ((tr ++ [Password (password_length (FLAGS E))
                           (generate_password (nova E) tr
                              (password_length (FLAGS E)))]) ++ pre))
      as (Htr & Hfirst & Hfail).
    rewrite Hrun, Htr.
    match goal with
    | |- context [added tr (?l ++ [?ev])] =>
        replace (added tr (l ++ [ev])) with ([Password (password_length (FLAGS E))
          (generate_password (nova E) tr (password_length (FLAGS E)))]
          ++ pre ++ [ev])
          by (unfold added; by rewrite <- !app_assoc, drop_app_length)
    end.
    repeat (split; [done |]).
    destruct Hpre as [(res_tpl & _ & ->) | [_ ->]]; by repeat split.
Qed.

(** X3: the security groups of a creation request are the terms of the
    mixins related to the security-group mixin, in the order of the
    description, a term as often as it occurs. *)
Theorem create_vm_security_groups ent ctx E tr args :
  args ∈ create_requests (added tr (create_vm ent ctx E tr).2) ->
  security_group args
  = mixin_term <$> List.filter (in_sec_group E) (mixins ent).
Proof.
  intros Hin.
  destruct (create_vm_requests ent ctx E tr)
    as [(Hnone & _) | [(x & Hnone & _)
                      | (st & c & os_id & rel & f & pre & Hscan & _ & _ & _
                         & Hone & _)]];
    rewrite ?Hnone, ?Hone in Hin; try by apply elem_of_nil in Hin.
  apply list_elem_of_singleton in Hin as ->. cbn.
  destruct (scan_mixins_collects ent E (mixins ent) locals0 _ st
              (f_equal fst Hscan)) as [Hsg _].
  by rewrite Hsg.
Qed.

Lemma create_vm_security_groups_witness :
  exists args,
    args ∈ create_requests (create_vm guarded_web "ctx" (demo_env []) []).2
    /\ security_group args = ["web"; "db"; "web"].
Proof.
  eassert (Hin : _ ∈ create_requests
                   (added [] (create_vm guarded_web "ctx" (demo_env []) []).2)).
  { vm_compute. constructor. }
  eexists. split; [exact Hin |].
  by rewrite (create_vm_security_groups guarded_web "ctx" (demo_env []) [] _ Hin).
Defined.

(** A turn that reads the key pair completes only if both attributes are
    there. *)
Lemma scan_mixin_done_keys ent m st E tr st' :
  (scan_mixin ent m st E tr).1 = Done st' ->
  reads_key E m = true ->
  is_Some (attributes ent !! "org.openstack.credentials.publickey.name")
  /\ is_Some (attributes ent !! "org.openstack.credentials.publickey.data").
Proof.
  unfold scan_mixin, reads_key, bind, ask, getitem.
  destruct m as [c rel | c rel | c os rel]; cbn; [| done ..].
  destruct (bool_decide (c = _)); [| done].
  destruct (attributes ent !! "org.openstack.credentials.publickey.name");
    [| done].
  destruct (attributes ent !! "org.openstack.credentials.publickey.data");
    [| done].
  by split.
Qed.

Lemma scan_mixins_done_keys ent E ms : forall st tr st',
  (scan_mixins ent ms st E tr).1 = Done st' ->
  existsb (reads_key E) ms = true ->
  is_Some (attributes ent !! "org.openstack.credentials.publickey.name")
  /\ is_Some (attributes ent !! "org.openstack.credentials.publickey.data").
Proof.
  induction ms as [| m ms IH]; intros st tr st'; cbn; [done |].
  unfold bind.
  destruct (scan_mixin ent m st E tr) as [[st1 | e |] tr1] eqn:Hturn;
    [| done ..].
  intros Hrest Hkey. apply orb_true_iff in Hkey as [Hm | Hms].
  - by apply (scan_mixin_done_keys ent m st E tr st1); [rewrite Hturn |].
  - by apply (IH st1 tr1 st').
Qed.

(** X4: a creation request carries the two public-key attributes of the
    description as key name and key data when the description has the
    key-pair mixin, and then both are set; without that mixin both are
    left unset, whatever the attributes say. *)
Theorem create_vm_key_pair ent ctx E tr args :
  args ∈ create_requests (added tr (create_vm ent ctx E tr).2) ->
  if existsb (reads_key E) (mixins ent)
  then key_name args
       = attributes ent !! "org.openstack.credentials.publickey.name"
       /\ key_data args
          = attributes ent !! "org.openstack.credentials.publickey.data"
       /\ is_Some (key_name args) /\ is_Some (key_data args)
  else key_name args = None /\ key_data args = None.
Proof.
  intros Hin.
  destruct (create_vm_requests ent ctx E tr)
    as [(Hnone & _) | [(x & Hnone & _)
                      | (st & c & os_id & rel & f & pre & Hscan & _ & _ & _
                         & Hone & _)]];
    rewrite ?Hnone, ?Hone in Hin; try by apply elem_of_nil in Hin.
  apply list_elem_of_singleton in Hin as ->. cbn.
  destruct (scan_mixins_collects ent E (mixins ent) locals0 _ st
              (f_equal fst Hscan)) as (_ & Hname & Hdata).
  rewrite Hname, Hdata.
  destruct (existsb (reads_key E) (mixins ent)) eqn:Hkey; [| done].
  destruct (scan_mixins_done_keys ent E (mixins ent) locals0 _ st
              (f_equal fst Hscan) Hkey) as [Hn Hd].
  done.
Qed.

Lemma create_vm_key_pair_witness :
  (exists args,
     args ∈ create_requests (create_vm guarded_web "ctx" (demo_env []) []).2
     /\ key_name args = Some "ops"
     /\ key_data args = Some "ssh-rsa AAAAB3Nza")
  /\ (exists args,
        args ∈ create_requests
                 (create_vm
                    {| attributes := attributes guarded_web; mixins := [ubuntu] |}
                    "ctx" (demo_env []) []).2
        /\ key_name args = None /\ key_data args = None).
Proof.
  split.
  - eassert (Hin : _ ∈ create_requests
                     (added [] (create_vm guarded_web "ctx" (demo_env []) []).2)).
    { vm_compute. constructor. }
    eexists. split; [exact Hin |].
    by destruct (create_vm_key_pair guarded_web "ctx" (demo_env []) [] _ Hin)
      as (-> & -> & _).
  - eassert (Hin : _ ∈ create_requests
                     (added []
                        (create_vm
                           {| attributes := attributes guarded_web;
                              mixins := [ubuntu] |}
                           "ctx" (demo_env []) []).2)).
    { vm_compute. constructor. }
    eexists. split; [exact Hin |].
    exact (create_vm_key_pair _ "ctx" (demo_env []) [] _ Hin).
Defined.

(** X5: a run of [create_vm] requests a creation at most once, and then as
    its last event; the request carries the password drawn at the start of
    the run with the configured length, the hostname attribute (or nothing)
    as display name and as description, both counts 1, the caller's
    context, and none of the optional fields. *)
Theorem create_vm_single_request ent ctx E tr :
  let n := password_length (FLAGS E) in
  let pw := generate_password (nova E) tr n in
  let new := added tr (create_vm ent ctx E tr).2 in
  length (create_requests new) <= 1
  /\ (forall args,
        args ∈ create_requests new ->
        (exists pre r,
           new = Password n pw :: pre ++ [Call (CCreate args) r]
           /\ create_requests pre = [])
        /\ admin_password args = pw
        /\ display_name args = attributes ent !! "occi.compute.hostname"
        /\ display_description args = display_name args
        /\ min_count args = 1 /\ max_count args = 1
        /\ arg_context args = ctx
        /\ (kernel_id args, ramdisk_id args, availability_zone args,
            user_data args, block_device_mapping args, access_ip_v4 args,
            access_ip_v6 args, requested_networks args, config_drive args,
            auto_disk_config args, scheduler_hints args)
           = (None, None, None, None, None, None, None, None, None, None, None)
        /\ metadata args = [] /\ injected_files args = []).
Proof.
  intros n pw new. subst new.
  destruct (create_vm_requests ent ctx E tr)
    as [(Hnone & _) | [(x & Hnone & _)
                      | (st & c & os_id & rel & f & pre & Hscan & _ & Hpre & Hnew
                         & Hone & _)]];
    rewrite ?Hnone, ?Hone; cbn [length].
  1, 2: split; [lia | by intros args Hin%elem_of_nil].
  split; [lia |]. intros args Hin%list_elem_of_singleton. subst args.
  split; [| done].
  eexists pre, _. split; [exact Hnew |].
  by destruct Hpre as [(res_tpl & _ & ->) | [_ ->]].
Qed.

Lemma create_vm_single_request_witness :
  exists args pre r,
    (create_vm guarded_web "ctx" (demo_env []) []).2
    = Password 12 "aB3dE6gH9jK2" :: pre ++ [Call (CCreate args) r]
    /\ admin_password args = "aB3dE6gH9jK2"
    /\ display_name args = Some "web1"
    /\ display_description args = Some "web1".
Proof.
  eassert (Hin : _ ∈ create_requests
                   (added [] (create_vm guarded_web "ctx" (demo_env []) []).2)).
  { vm_compute. constructor. }
  destruct (proj2 (create_vm_single_request guarded_web "ctx" (demo_env []) [])
              _ Hin)
    as ((pre & r & Hnew & _) & Hpw & Hname & Hdescr & _).
  eexists _, pre, r. split; [exact Hnew |]. split; [exact Hpw |].
  split; [exact Hname |]. by rewrite Hdescr, Hname.
Defined.

(** X6: the answer of [create_vm] follows the reply to its creation
    request: a refusal, of whatever class, becomes an AttributeError with
    the provider's message; an empty list of instances ends in IndexError;
    and an instance is returned exactly when the reply is a list that
    starts with it, so never without a creation request. *)
Theorem create_vm_answer ent ctx E tr :
  let run := create_vm ent ctx E tr in
  let replies := create_replies (added tr run.2) in
  (forall e, RRaised e ∈ replies -> run.1 = Raise (AttributeError (exc_msg e)))
  /\ (forall rid, RCreated [] rid ∈ replies -> run.1 = Raise IndexError)
  /\ (forall i,
        run.1 = Done i <-> exists rest rid, RCreated (i :: rest) rid ∈ replies).
Proof.
  intros run replies. subst run replies.
  destruct (create_vm_requests ent ctx E tr)
    as [(_ & Hnone & _ & e & He)
       | [(x & _ & Hnone & _ & He)
         | (st & c & os_id & rel & f & pre & _ & _ & _ & _ & _ & Hone & _
            & Hfirst & Hfail)]];
    rewrite ?Hnone, ?Hone.
  1, 2: split; [by intros ? Hin%elem_of_nil |];
        (split; [by intros ? Hin%elem_of_nil |]);
        intros i; rewrite He; split;
        [done | by intros (rest & rid & Hin%elem_of_nil)].
  split; [intros e Hin%list_elem_of_singleton; by apply Hfail |].
  split; [intros rid Hin%list_elem_of_singleton; by apply (Hfirst [] rid) |].
  intros i. split.
  - intros Hdone.
    destruct (compute_create _ _ _) as [[[| first rest] rid] | e]; cbn in *.
    + by rewrite (Hfirst [] rid eq_refl) in Hdone.
    + rewrite (Hfirst (first :: rest) rid eq_refl) in Hdone.
      injection Hdone as ->. exists rest, rid. by apply list_elem_of_singleton.
    + by rewrite (Hfail e eq_refl) in Hdone.
  - intros (rest & rid & Hin%list_elem_of_singleton).
    by apply (Hfirst (i :: rest) rid).
Qed.

Lemma create_vm_answer_witness :
  (create_vm (web1 [ubuntu]) "ctx"
     (faulty_env [] (create_raises quota_exceeded)) []).1
  = Raise (AttributeError (exc_msg quota_exceeded))
  /\ (create_vm (web1 [ubuntu]) "ctx" empty_handed_env []).1 = Raise IndexError
  /\ (create_vm (web1 [ubuntu]) "ctx" (demo_env []) []).1
     = Done {| uuid := "vm-new"; vm_state := "building";
               task_state := Some "scheduling" |}.
Proof.
  split; [| split].
  - apply (proj1 (create_vm_answer (web1 [ubuntu]) "ctx"
                    (faulty_env [] (create_raises quota_exceeded)) [])).
    vm_compute. constructor.
  - apply (proj1 (proj2 (create_vm_answer (web1 [ubuntu]) "ctx"
                           empty_handed_env [])) "r-0").
    vm_compute. constructor.
  - apply (proj2 (proj2 (create_vm_answer (web1 [ubuntu]) "ctx" (demo_env []) []))).
    exists [], "r-1". vm_compute. constructor.
Defined.

(** X7: a failed flavor lookup is not remapped: the provider's exception
    leaves [create_vm] as it is, and no creation is requested. *)
Theorem create_vm_flavor_lookup_escapes ent ctx E tr x :
  x ∈ flavor_failures (added tr (create_vm ent ctx E tr).2) ->
  (create_vm ent ctx E tr).1 = Raise (ProviderError x)
  /\ create_requests (added tr (create_vm ent ctx E tr).2) = [].
Proof.
  intros Hin.
  destruct (create_vm_requests ent ctx E tr)
    as [(_ & _ & Hnone & _)
       | [(x' & Hreq & _ & Hone & He)
         | (st & c & os_id & rel & f & pre & _ & _ & _ & _ & _ & _ & Hnone & _)]];
    rewrite ?Hnone, ?Hone in Hin; try by apply elem_of_nil in Hin.
  apply list_elem_of_singleton in Hin as ->. by split.
Qed.

Lemma create_vm_flavor_lookup_escapes_witness :
  (create_vm (web1 [ubuntu; m1_large]) "ctx"
     (faulty_env [] (flavor_lookup_raises flavor_not_found)) []).1
  = Raise (ProviderError flavor_not_found)
  /\ (create_vm (web1 [ubuntu]) "ctx"
        (faulty_env [] (flavor_lookup_raises flavor_not_found)) []).1
     = Raise (ProviderError flavor_not_found).
Proof.
  split.
  - apply (create_vm_flavor_lookup_escapes (web1 [ubuntu; m1_large]) "ctx"
             (faulty_env [] (flavor_lookup_raises flavor_not_found)) []).
    vm_compute. constructor.
  - apply (create_vm_flavor_lookup_escapes (web1 [ubuntu]) "ctx"
             (faulty_env [] (flavor_lookup_raises flavor_not_found)) []).
    vm_compute. constructor.
Defined.

(** ** [resize_vm]: how long it waits, how it ends *)

Lemma last_after_two {A} (pre l : list A) a b :
  last (pre ++ l ++ [a; b]) = Some b.
Proof.
  rewrite app_assoc. change [a; b] with ([a] ++ [b]).
  by rewrite app_assoc, last_snoc.
Qed.

Lemma last_after_one {A} (pre l : list A) a : last (pre ++ l ++ [a]) = Some a.
Proof. by rewrite app_assoc, last_snoc. Qed.

(** X8: [resize_vm] requests the confirmation only as its last call, for
    the instance of a fetch made right before it, and after the loop has
    slept fifteen seconds or more; it returns normally exactly when that
    request was accepted. *)
Theorem resize_vm_confirms_after_fifteen_seconds fuel uid flavor_name ctx E tr :
  let run := resize_vm fuel uid flavor_name ctx E tr in
  let new := added tr run.2 in
  (existsb is_confirm new = true ->
   exists pre inst r,
     new = pre ++ [Call (CGet ctx uid) (RInstance inst);
                   Call (CConfirmResize ctx inst) r]
     /\ existsb is_confirm pre = false
     /\ 15 <= slept pre)
  /\ (run.1 = Done tt
      <-> exists inst, last new = Some (Call (CConfirmResize ctx inst) RNone)).
Proof.
  intros run new. subst run new.
  destruct (resize_vm_shape fuel uid flavor_name ctx E tr)
    as (o & evs & -> & Hend).
  unfold added. cbn [fst snd]. rewrite drop_app_length.
  destruct Hend as [x | inst x | inst flv x | inst flv good Hgood
                   | inst flv good x Hgood
                   | inst flv good inst' Hgood Hcount Hseen
                   | inst flv good inst' x Hgood Hcount Hseen];
    try destruct (quiet_polls uid ctx good Hgood) as (Hnc & _ & _).
  1-3: split; [done | split; [done | by intros [? [=]]]].
  - split; [by rewrite existsb_app, Hnc |].
    split; [done |]. intros [i Hlast]. apply last_Some in Hlast as [l Hl].
    assert (Hc : existsb is_confirm
                   ([Call (CGet ctx uid) (RInstance inst);
                     Call (CInstanceTypeByName flavor_name) (RFlavor flv);
                     Call (CResize ctx inst (flavorid flv)) RNone] ++ good)
                 = true).
    { rewrite Hl, existsb_app. cbn. by rewrite orb_true_r. }
    by rewrite existsb_app, Hnc in Hc.
  - split; [by rewrite !existsb_app, Hnc |].
    split; [done |]. rewrite last_after_one. by intros [? [=]].
  - split.
    + intros _.
      match goal with
      | |- context [?s ++ good ++ _] => exists (s ++ good), inst', RNone
      end.
      rewrite <- !app_assoc. split; [done |].
      split; [by rewrite existsb_app, Hnc |].
      exact Hcount.
    + split; [intros _; exists inst' | done].
      by rewrite last_after_two.
  - split.
    + intros _.
      match goal with
      | |- context [?s ++ good ++ _] => exists (s ++ good), inst', (RRaised x)
      end.
      rewrite <- !app_assoc. split; [done |].
      split; [by rewrite existsb_app, Hnc |].
      exact Hcount.
    + split; [done |]. rewrite last_after_two. by intros [? [=]].
Qed.

Lemma resize_vm_confirms_after_fifteen_seconds_witness :
  let run := resize_vm 20 "vm-1" "m1.large" "ctx" (settling_env 3) [] in
  (exists pre inst r,
     run.2 = pre ++ [Call (CGet "ctx" "vm-1") (RInstance inst);
                     Call (CConfirmResize "ctx" inst) r]
     /\ existsb is_confirm pre = false
     /\ 15 <= slept pre)
  /\ run.1 = Done tt.
Proof.
  cbn zeta. split.
  - apply (proj1 (resize_vm_confirms_after_fifteen_seconds 20 "vm-1" "m1.large"
                    "ctx" (settling_env 3) [])).
    by vm_compute.
  - apply (proj2 (resize_vm_confirms_after_fifteen_seconds 20 "vm-1" "m1.large"
                    "ctx" (settling_env 3) [])).
    eexists. by vm_compute.
Defined.

(** With a provider that answers every fetch and shows 'resized' once [k]
    seconds have been slept, the loop ends normally as soon as the fuel
    covers both the fifteen turns of the counter and the [k] seconds. *)
Lemma resize_poll_completes uid ctx E k :
  (forall h, exists i, compute_get (nova E) h ctx uid = Returns i
                       /\ (k <= slept h -> vm_state i = "resized")) ->
  forall fuel ready i tr,
    15 - i <= fuel ->
    ready = true \/ (1 <= fuel /\ k + 1 - slept tr <= fuel) ->
    exists tr', resize_poll fuel uid ctx ready i E tr = (Done tt, tr').
Proof.
  intros Hget. induction fuel as [| fuel IH]; intros ready i tr Hturns Hready;
    destruct (negb ready || bool_decide (i < 15)) eqn:Hcond;
    try (eexists; by apply resize_poll_exit).
  - apply orb_true_iff in Hcond as [Hnot | Hlt].
    + destruct ready; [done |]. destruct Hready as [? | [? _]]; [done | lia].
    + apply bool_decide_eq_true in Hlt. lia.
  - destruct (Hget tr) as (inst & Hinst & Hst).
    rewrite (resize_poll_turn _ _ _ _ _ _ _ _ _ Hcond
               (get_vm_found _ _ _ _ _ Hinst)).
    apply IH; [lia |]. rewrite !slept_app.
    change (slept [Sleep 1]) with 1.
    change (slept [Call (CGet ctx uid) (RInstance inst)]) with 0.
    destruct Hready as [-> | Hfuel];
      [left; by destruct (bool_decide (vm_state inst = "resized")) |].
    destruct (decide (k <= slept tr)) as [Hk | Hk].
    + left. by rewrite (bool_decide_eq_true_2 _ (Hst Hk)).
    + right. lia.
Qed.

(** X9: [resize_vm] does return when the resize settles: with a provider
    that answers every call and shows 'resized' once [k] seconds have been
    slept, fuel for fifteen turns and for more than [k] turns is enough for
    the run to end normally, with the confirmation accepted. *)
Theorem resize_vm_completes fuel uid flavor_name ctx E tr k :
  (forall h, exists i, compute_get (nova E) h ctx uid = Returns i
                       /\ (k <= slept h -> vm_state i = "resized")) ->
  (forall h, exists f,
     get_instance_type_by_name (nova E) h flavor_name = Returns f) ->
  (forall h i fid, compute_resize (nova E) h ctx i fid = Returns tt) ->
  (forall h i, compute_confirm_resize (nova E) h ctx i = Returns tt) ->
  15 <= fuel -> k < fuel ->
  (resize_vm fuel uid flavor_name ctx E tr).1 = Done tt
  /\ exists inst,
       last (resize_vm fuel uid flavor_name ctx E tr).2
       = Some (Call (CConfirmResize ctx inst) RNone).
Proof.
  intros Hget Hflavor Hresize Hconfirm Hfifteen Hk.
  assert (Hrun : exists inst tr',
             resize_vm fuel uid flavor_name ctx E tr
             = (Done tt, tr' ++ [Call (CConfirmResize ctx inst) RNone])).
  { unfold resize_vm, bind at 1.
    destruct (Hget tr) as (inst & Hinst & _).
    rewrite (get_vm_found _ _ _ _ _ Hinst). unfold try_except.
    unfold bind at 1, instance_types_get_instance_type_by_name, api.
    destruct (Hflavor (tr ++ [Call (CGet ctx uid) (RInstance inst)]))
      as [flv ->].
    unfold bind at 1, COMPUTE_API_resize, api. rewrite Hresize.
    unfold bind at 1.
    edestruct (resize_poll_completes uid ctx E k Hget fuel false 0)
      as [tr' ->]; [lia | right; lia |].
    unfold bind at 1. destruct (Hget tr') as (inst' & Hinst' & _).
    rewrite (get_vm_found _ _ _ _ _ Hinst').
    unfold COMPUTE_API_confirm_resize, api. rewrite Hconfirm.
    by eexists _, _. }
  destruct Hrun as (inst & tr' & ->). split; [done |].
  exists inst. apply last_snoc.
Qed.

Lemma resize_vm_completes_witness :
  (resize_vm 40 "vm-1" "m1.large" "ctx" (settling_env 30) []).1 = Done tt.
Proof.
  apply (resize_vm_completes 40 "vm-1" "m1.large" "ctx" (settling_env 30) [] 30).
  - intros h. eexists. split; [reflexivity |]. cbn. intros Hk.
    by rewrite (bool_decide_eq_true_2 _ Hk).
  - intros h. by eexists.
  - by intros h i fid.
  - by intros h i.
  - lia.
  - lia.
Defined.

(** X10: a call of [resize_vm] that the provider refuses is the last event
    of the run.  For a fetch the caller gets the 404 when the class is a
    NotFound one; for the flavor lookup, the resize request and the
    confirmation the caller gets 'Unable to locate requested flavor.' for
    FlavorNotFound, 'VM is in an invalid state: ' with the provider's
    message for InstanceInvalidState, and the provider's own exception
    otherwise. *)
Theorem resize_vm_failure fuel uid flavor_name ctx E tr c x :
  let run := resize_vm fuel uid flavor_name ctx E tr in
  let new := added tr run.2 in
  Call c (RRaised x) ∈ new ->
  last new = Some (Call c (RRaised x))
  /\ (is_fetch c = true -> issubclass (exc_class x) NotFound = true ->
      run.1 = Raise (HTTPError 404 "VM not found!"))
  /\ (is_fetch c = false -> run.1 = Raise (resize_error x)).
Proof.
  intros run new. subst run new.
  destruct (resize_vm_shape fuel uid flavor_name ctx E tr)
    as (o & evs & -> & Hend).
  unfold added. cbn [fst snd]. rewrite drop_app_length.
  assert (Hquiet : forall good,
            Forall (quiet_poll uid ctx) good -> Call c (RRaised x) ∉ good).
  { intros good Hgood Hin. apply Forall_forall with (x := Call c (RRaised x))
      in Hgood; [| done]. by destruct Hgood as [? | [? ?]]. }
  destruct Hend as [x' | inst x' | inst flv x' | inst flv good Hgood
                   | inst flv good x' Hgood
                   | inst flv good inst' Hgood Hcount Hseen
                   | inst flv good inst' x' Hgood Hcount Hseen];
    try specialize (Hquiet good Hgood);
    rewrite ?last_after_one, ?last_after_two;
    rewrite ?elem_of_app, ?elem_of_cons, ?elem_of_nil;
    intros Hin; destruct_or!; try done; try (exfalso; by apply Hquiet);
    simplify_eq; cbn;
    (split; [done |]);
    (split; [| by intros Hf]);
    intros Hf Hcls; try done;
    unfold fetch_error, later_fetch_error; by rewrite Hcls.
Qed.

Lemma resize_vm_failure_witness :
  (resize_vm 20 "vm-1" "m1.huge" "ctx"
     (faulty_env [vm1 "active" None] (flavor_lookup_raises flavor_missing)) []).1
  = Raise (AttributeError "Unable to locate requested flavor.")
  /\ (resize_vm 20 "vm-1" "m1.large" "ctx"
        (faulty_env [vm1 "stopped" None] (resize_raises invalid_state)) []).1
     = Raise (AttributeError
                ("VM is in an invalid state: " +:+ exc_msg invalid_state))
  /\ (resize_vm 20 "vm-9" "m1.large" "ctx" (demo_env []) []).1
     = Raise (HTTPError 404 "VM not found!").
Proof.
  split; [| split].
  - eapply (resize_vm_failure 20 "vm-1" "m1.huge" "ctx"
              (faulty_env [vm1 "active" None]
                 (flavor_lookup_raises flavor_missing)) []
              (CInstanceTypeByName "m1.huge") flavor_missing).
    + vm_compute. apply list_elem_of_lookup_2 with 1. reflexivity.
    + reflexivity.
  - eapply (resize_vm_failure 20 "vm-1" "m1.large" "ctx"
              (faulty_env [vm1 "stopped" None] (resize_raises invalid_state)) []
              (CResize "ctx" (vm1 "stopped" None) "2") invalid_state).
    + vm_compute. apply list_elem_of_lookup_2 with 2. reflexivity.
    + reflexivity.
  - eapply (resize_vm_failure 20 "vm-9" "m1.large" "ctx" (demo_env []) []
              (CGet "ctx" "vm-9") (not_found "vm-9")).
    + vm_compute. apply list_elem_of_lookup_2 with 0. reflexivity.
    + reflexivity.
    + reflexivity.
Defined.

(** X11: the resize request of [resize_vm] is its third event, after the
    first fetch and the flavor lookup: it is made once, in the caller's
    context, for the instance fetched first and with the [flavorid] of the
    flavor found under [flavor_name]. *)
Theorem resize_vm_resize_request fuel uid flavor_name ctx E tr ctx' i fid r :
  let new := added tr (resize_vm fuel uid flavor_name ctx E tr).2 in
  Call (CResize ctx' i fid) r ∈ new ->
  exists flv rest,
    new = Call (CGet ctx uid) (RInstance i)
          :: Call (CInstanceTypeByName flavor_name) (RFlavor flv)
          :: Call (CResize ctx i (flavorid flv)) r :: rest
    /\ ctx' = ctx /\ fid = flavorid flv
    /\ existsb is_resize rest = false.
Proof.
  intros new. subst new.
  destruct (resize_vm_shape fuel uid flavor_name ctx E tr)
    as (o & evs & -> & Hend).
  unfold added. cbn [fst snd]. rewrite drop_app_length.
  assert (Hquiet : forall good,
            Forall (quiet_poll uid ctx) good ->
            Call (CResize ctx' i fid) r ∉ good).
  { intros good Hgood Hin.
    apply Forall_forall with (x := Call (CResize ctx' i fid) r) in Hgood;
      [| done]. by destruct Hgood as [? | [? ?]]. }
  destruct Hend as [x' | inst x' | inst flv x' | inst flv good Hgood
                   | inst flv good x' Hgood
                   | inst flv good inst' Hgood Hcount Hseen
                   | inst flv good inst' x' Hgood Hcount Hseen];
    try (destruct (quiet_polls uid ctx good Hgood) as (_ & Hnr & _));
    try specialize (Hquiet good Hgood);
    rewrite ?elem_of_app, ?elem_of_cons, ?elem_of_nil;
    intros Hin; destruct_or!; try done; try (exfalso; by apply Hquiet);
    simplify_eq; eexists flv, _; (split; [reflexivity |]);
    repeat (split; [done |]); by rewrite ?existsb_app, ?Hnr.
Qed.

Lemma resize_vm_resize_request_witness :
  exists rest,
    (resize_vm 20 "vm-1" "m1.large" "ctx" (settling_env 3) []).2
    = Call (CGet "ctx" "vm-1")
        (RInstance {| uuid := "vm-1"; vm_state := "resize_finish";
                      task_state := None |})
      :: Call (CInstanceTypeByName "m1.large")
           (RFlavor {| flavor_name := "m1.large"; flavorid := "2" |})
      :: Call (CResize "ctx" {| uuid := "vm-1"; vm_state := "resize_finish";
                                task_state := None |} "2") RNone
      :: rest
    /\ existsb is_resize rest = false.
Proof.
  destruct (resize_vm_resize_request 20 "vm-1" "m1.large" "ctx" (settling_env 3)
              [] "ctx"
              {| uuid := "vm-1"; vm_state := "resize_finish"; task_state := None |}
              "2" RNone)
    as (flv & rest & Hnew & _ & Hfid & Hrest).
  { vm_compute. apply list_elem_of_lookup_2 with 2. reflexivity. }
  exists rest. split; [| exact Hrest].
  assert (Hflv : flv = {| flavor_name := "m1.large"; flavorid := "2" |}).
  { vm_compute in Hnew. by injection Hnew as <- _. }
  rewrite Hflv in Hnew. exact Hnew.
Defined.

(** ** [restart_vm], [get_vnc] and the fetch they start with *)

(** X12: a reboot requested by [restart_vm] is the second and last event
    of the run, after the fetch, for the instance fetched and in the
    caller's context; its type is SOFT, for the methods 'graceful' and
    'warm', or HARD, for 'cold', and nothing else; an accepted request
    ends the run normally, InstanceInvalidState becomes the 406, any other
    refusal leaves the function as it is. *)
Theorem restart_vm_reboot uid method ctx E tr ctx' i kind r :
  let run := restart_vm uid method ctx E tr in
  Call (CReboot ctx' i kind) r ∈ added tr run.2 ->
  added tr run.2
  = [Call (CGet ctx uid) (RInstance i); Call (CReboot ctx i kind) r]
  /\ ctx' = ctx
  /\ (kind = "SOFT" /\ chars method ∈ ["graceful"; "warm"]
      \/ kind = "HARD" /\ chars method = "cold")
  /\ run.1 = reboot_answer r.
Proof.
  intros run. subst run. unfold added.
  destruct (compute_get (nova E) tr ctx uid) as [inst | x] eqn:Hget.
  2: { unfold restart_vm, bind. rewrite (fetch_failed _ _ _ _ _ Hget).
       cbn [fst snd]. rewrite drop_app_length.
       by intros [=]%list_elem_of_singleton. }
  rewrite (restart_vm_fetched _ _ _ _ _ _ Hget). unfold bind at 1.
  assert (Hreboot : forall k,
            Call (CReboot ctx' i kind) r
            ∈ drop (length tr)
                (try_except (COMPUTE_API_reboot ctx inst k)
                   (except InstanceInvalidState
                      (fun _ => raise (HTTPError 406 "VM is in an invalid state.")))
                   E (tr ++ [Call (CGet ctx uid) (RInstance inst)])).2 ->
            drop (length tr)
              (try_except (COMPUTE_API_reboot ctx inst k)
                 (except InstanceInvalidState
                    (fun _ => raise (HTTPError 406 "VM is in an invalid state.")))
                 E (tr ++ [Call (CGet ctx uid) (RInstance inst)])).2
            = [Call (CGet ctx uid) (RInstance i); Call (CReboot ctx i kind) r]
            /\ ctx' = ctx /\ k = kind
            /\ (try_except (COMPUTE_API_reboot ctx inst k)
                  (except InstanceInvalidState
                     (fun _ => raise (HTTPError 406 "VM is in an invalid state.")))
                  E (tr ++ [Call (CGet ctx uid) (RInstance inst)])).1
               = reboot_answer r).
  { intros k. unfold try_except, COMPUTE_API_reboot, api, except.
    destruct (compute_reboot _ _ _ _ _) as [[] | x]; cbn [fst snd].
    - rewrite <- app_assoc, drop_app_length. cbn [app].
      rewrite !elem_of_cons, elem_of_nil. intros [[=] | [[= -> -> -> ->] | []]].
      done.
    - destruct (issubclass (exc_class x) InstanceInvalidState) eqn:Hcls;
        unfold raise; cbn [fst snd];
        rewrite <- app_assoc, drop_app_length; cbn [app];
        rewrite !elem_of_cons, elem_of_nil;
        intros [[=] | [[= -> -> -> ->] | []]]; cbn; by rewrite Hcls. }
  unfold py_in, py_is_const.
  destruct (bool_decide_reflect (chars method ∈ ["graceful"; "warm"]))
    as [Hsoft | _].
  - intros Hin. destruct (Hreboot "SOFT" Hin) as (Hnew & -> & <- & Hrun).
    repeat split; try done. by left.
  - destruct (interned method && bool_decide (chars method = "cold")) eqn:Hcold.
    + intros Hin. destruct (Hreboot "HARD" Hin) as (Hnew & -> & <- & Hrun).
      repeat split; try done. right. split; [done |].
      apply andb_true_iff in Hcold as [_ Hcold].
      by apply bool_decide_eq_true in Hcold.
    + unfold raise. cbn [fst snd]. rewrite drop_app_length.
      by intros [=]%list_elem_of_singleton.
Qed.

Lemma restart_vm_reboot_witness :
  let E := faulty_env [vm1 "stopped" None] (reboot_raises invalid_state) in
  (restart_vm "vm-1" (runtime_str "graceful") "ctx" E []).2
  = [Call (CGet "ctx" "vm-1") (RInstance (vm1 "stopped" None));
     Call (CReboot "ctx" (vm1 "stopped" None) "SOFT") (RRaised invalid_state)]
  /\ (restart_vm "vm-1" (runtime_str "graceful") "ctx" E []).1
     = Raise (HTTPError 406 "VM is in an invalid state.").
Proof.
  cbn zeta.
  destruct (restart_vm_reboot "vm-1" (runtime_str "graceful") "ctx"
              (faulty_env [vm1 "stopped" None] (reboot_raises invalid_state)) []
              "ctx" (vm1 "stopped" None) "SOFT" (RRaised invalid_state))
    as (Hnew & _ & _ & Hrun).
  { vm_compute. apply list_elem_of_lookup_2 with 1. reflexivity. }
  split; [exact Hnew | exact Hrun].
Defined.

(** The runs of [get_vnc] with consoles enabled and the instance fetched,
    by the reply to the console request. *)
Lemma get_vnc_fetched uid ctx E tr inst :
  vnc_enabled (FLAGS E) = true ->
  compute_get (nova E) tr ctx uid = Returns inst ->
  let tr1 := tr ++ [Call (CGet ctx uid) (RInstance inst)] in
  get_vnc uid ctx E tr
  = match compute_get_vnc_console (nova E) tr1 ctx inst "novnc" with
    | Returns c =>
        (Done (Some c),
         tr ++ [Call (CGet ctx uid) (RInstance inst);
                Call (CGetVncConsole ctx inst "novnc") (RConsole c)])
    | Raises x =>
        if issubclass (exc_class x) InstanceNotFound
        then (Done None,
              tr ++ [Call (CGet ctx uid) (RInstance inst);
                     Call (CGetVncConsole ctx inst "novnc") (RRaised x);
                     Warn "Console info is not available atm!"])
        else (Raise (ProviderError x),
              tr ++ [Call (CGet ctx uid) (RInstance inst);
                     Call (CGetVncConsole ctx inst "novnc") (RRaised x)])
    end.
Proof.
  intros Hon Hget tr1. unfold get_vnc, bind, ask.
  rewrite Hon, (get_vm_found _ _ _ _ _ Hget). fold tr1.
  unfold try_except, COMPUTE_API_get_vnc_console, api, except, ret.
  destruct (compute_get_vnc_console _ _ _ _ _) as [c | x].
  - unfold tr1. by rewrite <- app_assoc.
  - cbn. destruct (issubclass (exc_class x) InstanceNotFound);
      unfold LOG_warn, emit, tr1; by rewrite <- !app_assoc.
Qed.

Lemma get_vnc_off E tr uid ctx :
  vnc_enabled (FLAGS E) = false -> get_vnc uid ctx E tr = (Done None, tr).
Proof. intros Hoff. unfold get_vnc, bind, ask. by rewrite Hoff. Qed.

(** X13: a console request of [get_vnc] is made only with consoles
    enabled, after the fetch, for the instance fetched, in the caller's
    context and for the kind 'novnc'; the answer follows the reply (the
    console, None for InstanceNotFound, the provider's exception
    otherwise), and a console is returned exactly when the provider gave
    it in such a reply. *)
Theorem get_vnc_console uid ctx E tr :
  let run := get_vnc uid ctx E tr in
  let new := added tr run.2 in
  (forall ctx' i kind r,
     Call (CGetVncConsole ctx' i kind) r ∈ new ->
     vnc_enabled (FLAGS E) = true
     /\ ctx' = ctx /\ kind = "novnc"
     /\ new !! 0 = Some (Call (CGet ctx uid) (RInstance i))
     /\ new !! 1 = Some (Call (CGetVncConsole ctx i "novnc") r)
     /\ run.1 = console_answer r)
  /\ (forall c,
        run.1 = Done (Some c)
        <-> exists i, Call (CGetVncConsole ctx i "novnc") (RConsole c) ∈ new).
Proof.
  intros run new. subst run new. unfold added.
  destruct (vnc_enabled (FLAGS E)) eqn:Hon.
  2: { rewrite (get_vnc_off E tr uid ctx Hon).
       cbn [fst snd]. rewrite drop_all. split.
       - by intros ? ? ? ? Hin%elem_of_nil.
       - intros c. split; [done | by intros [? Hin%elem_of_nil]]. }
  destruct (compute_get (nova E) tr ctx uid) as [inst | x] eqn:Hget.
  2: { unfold get_vnc, bind, ask. rewrite Hon, (fetch_failed _ _ _ _ _ Hget).
       cbn [fst snd]. rewrite drop_app_length. split.
       - by intros ? ? ? ? [=]%list_elem_of_singleton.
       - intros c. split; [done | by intros [? [=]%list_elem_of_singleton]]. }
  rewrite (get_vnc_fetched _ _ _ _ _ Hon Hget).
  destruct (compute_get_vnc_console _ _ _ _ _) as [c | x];
    [| destruct (issubclass (exc_class x) InstanceNotFound) eqn:Hcls];
    cbn [fst snd]; rewrite drop_app_length; (split; [intros ctx' i kind r | intros c']);
    rewrite ?elem_of_cons, ?elem_of_nil.
  - intros [[=] | [[= -> -> -> ->] | []]]. by repeat split.
  - split.
    + intros [= ->]. exists inst. rewrite !elem_of_cons. auto.
    + intros [i Hin]. rewrite !elem_of_cons, elem_of_nil in Hin.
      by destruct Hin as [[=] | [[= _ ->] | []]].
  - intros [[=] | [[= -> -> -> ->] | [[=] | []]]]. cbn. rewrite Hcls.
    by repeat split.
  - split; [done |]. intros [i Hin]. rewrite !elem_of_cons, elem_of_nil in Hin.
    by destruct Hin as [[=] | [[=] | [[=] | []]]].
  - intros [[=] | [[= -> -> -> ->] | []]]. cbn. rewrite Hcls. by repeat split.
  - split; [done |]. intros [i Hin]. rewrite !elem_of_cons, elem_of_nil in Hin.
    by destruct Hin as [[=] | [[=] | []]].
Qed.

Lemma get_vnc_console_witness :
  (get_vnc "vm-1" "ctx" (demo_env [vm1 "active" None]) []).1
  = Done (Some "http://console/vm")
  /\ (get_vnc "vm-1" "ctx"
        (faulty_env [vm1 "active" None] (get_vnc_console_raises quota_exceeded))
        []).1
     = Raise (ProviderError quota_exceeded).
Proof.
  split.
  - apply (proj2 (get_vnc_console "vm-1" "ctx" (demo_env [vm1 "active" None]) [])).
    exists (vm1 "active" None). vm_compute.
    apply list_elem_of_lookup_2 with 1. reflexivity.
  - apply (proj1 (get_vnc_console "vm-1" "ctx"
                    (faulty_env [vm1 "active" None]
                       (get_vnc_console_raises quota_exceeded)) [])
             "ctx" (vm1 "active" None) "novnc" (RRaised quota_exceeded)).
    vm_compute. apply list_elem_of_lookup_2 with 1. reflexivity.
Defined.

(** X14: an operation on an instance the provider does not return stops
    at the fetch: [get_occi_state], [restart_vm], [set_password_for_vm],
    [resize_vm] and, with consoles enabled, [get_vnc] all end with what
    [get_vm] raises (the 404 for a NotFound class) and leave the failed
    fetch as their only event, whatever their other arguments. *)
Theorem fetch_failure_stops_every_operation E tr uid ctx x :
  compute_get (nova E) tr ctx uid = Raises x ->
  let stopped {A} (run : outcome A * trace) :=
    run = (Raise (fetch_error x), tr ++ [Call (CGet ctx uid) (RRaised x)]) in
  stopped (get_occi_state uid ctx E tr)
  /\ (forall method, stopped (restart_vm uid method ctx E tr))
  /\ (forall password, stopped (set_password_for_vm uid password ctx E tr))
  /\ (forall fuel flavor_name, stopped (resize_vm fuel uid flavor_name ctx E tr))
  /\ (vnc_enabled (FLAGS E) = true -> stopped (get_vnc uid ctx E tr)).
Proof.
  intros Hget stopped. subst stopped. cbn beta.
  pose proof (fetch_failed _ _ _ _ _ Hget) as Hfetch.
  repeat split; intros.
  - unfold get_occi_state, bind. by rewrite Hfetch.
  - unfold restart_vm, bind. by rewrite Hfetch.
  - unfold set_password_for_vm, bind. by rewrite Hfetch.
  - unfold resize_vm, bind. by rewrite Hfetch.
  - unfold get_vnc, bind, ask. by rewrite H, Hfetch.
Qed.

Lemma fetch_failure_stops_every_operation_witness :
  let E := demo_env [vm1 "active" None] in
  let gone {A} (run : outcome A * trace) :=
    run = (Raise (HTTPError 404 "VM not found!"),
           [Call (CGet "ctx" "vm-9") (RRaised (not_found "vm-9"))]) in
  gone (get_occi_state "vm-9" "ctx" E [])
  /\ gone (restart_vm "vm-9" (const_str "cold") "ctx" E [])
  /\ gone (set_password_for_vm "vm-9" "hunter2" "ctx" E [])
  /\ gone (resize_vm 20 "vm-9" "m1.large" "ctx" E [])
  /\ gone (get_vnc "vm-9" "ctx" E []).
Proof.
  destruct (fetch_failure_stops_every_operation (demo_env [vm1 "active" None]) []
              "vm-9" "ctx" (not_found "vm-9") eq_refl)
    as (Hstate & Hrestart & Hpassword & Hresize & Hvnc).
  cbn zeta. split; [exact Hstate |]. split; [exact (Hrestart _) |].
  split; [exact (Hpassword _) |]. split; [exact (Hresize _ _) |].
  exact (Hvnc eq_refl).
Defined.

(** * The rest of the module *)

(** ** Running [get_vm] and the password generator in the second monad *)

Lemma lift_get_vm_found E tr uid ctx i :
  compute_get (base_nova (xnova E) tr) (old_events tr) ctx uid = Returns i ->
  lift (get_vm uid ctx) E tr
  = (XDone i, tr ++ [Old (Call (CGet ctx uid) (RInstance i))]).
Proof.
  intros Hget. unfold lift.
  rewrite (get_vm_found (base_env E tr) _ _ _ _ Hget). cbn [fst snd].
  by rewrite drop_app_length.
Qed.

Lemma lift_get_vm_failed E tr uid ctx x :
  compute_get (base_nova (xnova E) tr) (old_events tr) ctx uid = Raises x ->
  lift (get_vm uid ctx) E tr
  = (XRaise (Escaped (fetch_error x)),
     tr ++ [Old (Call (CGet ctx uid) (RRaised x))]).
Proof.
  intros Hget. unfold lift.
  rewrite (fetch_failed (base_env E tr) _ _ _ _ Hget). cbn [fst snd].
  by rewrite drop_app_length.
Qed.

Lemma lift_generate_password E tr n :
  lift (utils_generate_password n) E tr
  = (XDone (generate_password (base_nova (xnova E) tr) (old_events tr) n),
     tr ++ [Old (Password n
                   (generate_password (base_nova (xnova E) tr)
                      (old_events tr) n))]).
Proof.
  unfold lift, utils_generate_password. cbn [fst snd].
  by rewrite drop_app_length.
Qed.

(** X15: the other operations on an instance stop at the fetch as well:
    [rebuild_vm], [delete_vm], [suspend_vm], [snapshot_vm], [start_vm],
    [stop_vm] and [attach_volume] end with what [get_vm] raises and leave
    the failed fetch as their only event; no password is drawn, no volume
    looked up. *)
Theorem fetch_failure_stops_the_other_operations E tr uid ctx x :
  compute_get (base_nova (xnova E) tr) (old_events tr) ctx uid = Raises x ->
  let stopped (run : xoutcome unit * xtrace) :=
    run = (XRaise (Escaped (fetch_error x)),
           tr ++ [Old (Call (CGet ctx uid) (RRaised x))]) in
  (forall image_href, stopped (rebuild_vm uid image_href ctx E tr))
  /\ stopped (delete_vm uid ctx E tr)
  /\ stopped (suspend_vm uid ctx E tr)
  /\ (forall image_name, stopped (snapshot_vm uid image_name ctx E tr))
  /\ stopped (start_vm uid ctx E tr)
  /\ stopped (stop_vm uid ctx E tr)
  /\ (forall volume_id mount_point,
        stopped (attach_volume uid volume_id mount_point ctx E tr)).
Proof.
  intros Hget stopped. subst stopped. cbn beta.
  pose proof (lift_get_vm_failed _ _ _ _ _ Hget) as Hfetch.
  repeat split; intros;
    unfold rebuild_vm, delete_vm, suspend_vm, snapshot_vm, start_vm, stop_vm,
      attach_volume, xbind; by rewrite Hfetch.
Qed.

Lemma fetch_failure_stops_the_other_operations_witness :
  let E := demo_xenv 0 (fun _ => [vm1 "active" None]) no_xfault in
  let gone (run : xoutcome unit * xtrace) :=
    run = (XRaise (Escaped (HTTPError 404 "VM not found!")),
           [Old (Call (CGet "ctx" "vm-9") (RRaised (not_found "vm-9")))]) in
  gone (rebuild_vm "vm-9" "image-2" "ctx" E [])
  /\ gone (delete_vm "vm-9" "ctx" E [])
  /\ gone (suspend_vm "vm-9" "ctx" E [])
  /\ gone (snapshot_vm "vm-9" "backup" "ctx" E [])
  /\ gone (start_vm "vm-9" "ctx" E [])
  /\ gone (stop_vm "vm-9" "ctx" E [])
  /\ gone (attach_volume "vm-9" "vol-1" "/dev/vdc" "ctx" E []).
Proof.
  destruct (fetch_failure_stops_the_other_operations
              (demo_xenv 0 (fun _ => [vm1 "active" None]) no_xfault) []
              "vm-9" "ctx" (not_found "vm-9") eq_refl)
    as (H1 & H2 & H3 & H4 & H5 & H6 & H7).
  cbn zeta. split; [exact (H1 _) |]. split; [exact H2 |]. split; [exact H3 |].
  split; [exact (H4 _) |]. split; [exact H5 |]. split; [exact H6 |].
  exact (H7 _ _).
Defined.

(** ** One call after the fetch *)

(** A call that returns nothing, inside a [try]. *)
Lemma one_call_run c f (h : xhandler unit) E tr :
  xtry_except (xapi c f (fun _ => XNone)) h E tr
  = match f (xnova E) tr with
    | XReturns _ => (XDone tt, tr ++ [XCall c XNone])
    | XRaises x =>
        match h (XProviderError x) with
        | Some recover => recover E (tr ++ [XCall c (XRaised x)])
        | None => (XRaise (XProviderError x), tr ++ [XCall c (XRaised x)])
        end
    end.
Proof.
  unfold xtry_except, xapi. by destruct (f (xnova E) tr) as [[] | x].
Qed.

(** X16: the lifecycle actions map to the provider's primitives, one call
    each on the instance just fetched: [suspend_vm] pauses, [start_vm]
    resumes, [stop_vm] suspends.  Whatever the class of a refusal, the
    caller gets the 500 with the provider's message, after 'Error while
    starting VM: ' or 'Error while stopping VM: ' for the last two. *)
Theorem lifecycle_primitives E tr uid ctx i :
  compute_get (base_nova (xnova E) tr) (old_events tr) ctx uid = Returns i ->
  let tr1 := tr ++ [Old (Call (CGet ctx uid) (RInstance i))] in
  let paused := unit_reply (compute_pause (xnova E) tr1 ctx i) in
  let resumed := unit_reply (compute_resume (xnova E) tr1 ctx i) in
  let suspended := unit_reply (compute_suspend (xnova E) tr1 ctx i) in
  suspend_vm uid ctx E tr
  = (answer_500 "" paused, tr1 ++ [XCall (XPause ctx i) paused])
  /\ start_vm uid ctx E tr
     = (answer_500 "Error while starting VM: " resumed,
        tr1 ++ [XCall (XResume ctx i) resumed])
  /\ stop_vm uid ctx E tr
     = (answer_500 "Error while stopping VM: " suspended,
        tr1 ++ [XCall (XSuspend ctx i) suspended]).
Proof.
  intros Hget tr1 paused resumed suspended.
  subst paused resumed suspended.
  pose proof (lift_get_vm_found _ _ _ _ _ Hget) as Hfetch. fold tr1 in Hfetch.
  repeat split.
  - unfold suspend_vm, xbind. rewrite Hfetch.
    unfold COMPUTE_API_pause. rewrite one_call_run.
    by destruct (compute_pause _ _ _ _) as [[] | x].
  - unfold start_vm, xbind. rewrite Hfetch.
    unfold COMPUTE_API_resume. rewrite one_call_run.
    by destruct (compute_resume _ _ _ _) as [[] | x].
  - unfold stop_vm, xbind. rewrite Hfetch.
    unfold COMPUTE_API_suspend. rewrite one_call_run.
    by destruct (compute_suspend _ _ _ _) as [[] | x].
Qed.

Lemma lifecycle_primitives_witness :
  let E := demo_xenv 0 (fun _ => [vm1 "building" None])
             (xfault_on (fun c => match c with XPause _ _ => true | _ => false end)
                xinvalid_state) in
  suspend_vm "vm-1" "ctx" E []
  = (XRaise (Escaped (HTTPError 500 (xexc_msg xinvalid_state))),
     [Old (Call (CGet "ctx" "vm-1") (RInstance (vm1 "building" None)));
      XCall (XPause "ctx" (vm1 "building" None)) (XRaised xinvalid_state)])
  /\ start_vm "vm-1" "ctx" E []
     = (XDone tt,
        [Old (Call (CGet "ctx" "vm-1") (RInstance (vm1 "building" None)));
         XCall (XResume "ctx" (vm1 "building" None)) XNone])
  /\ stop_vm "vm-1" "ctx" E []
     = (XDone tt,
        [Old (Call (CGet "ctx" "vm-1") (RInstance (vm1 "building" None)));
         XCall (XSuspend "ctx" (vm1 "building" None)) XNone]).
Proof.
  exact (lifecycle_primitives
           (demo_xenv 0 (fun _ => [vm1 "building" None])
              (xfault_on
                 (fun c => match c with XPause _ _ => true | _ => false end)
                 xinvalid_state))
           [] "vm-1" "ctx" (vm1 "building" None) eq_refl).
Defined.

(** X17: [delete_vm] makes exactly one deletion call on the instance just
    fetched: the soft delete when [FLAGS.reclaim_instance_interval] is not
    0 (a negative value included), the delete when it is 0, never both; a
    refusal is not remapped. *)
Theorem delete_vm_once E tr uid ctx i :
  compute_get (base_nova (xnova E) tr) (old_events tr) ctx uid = Returns i ->
  let tr1 := tr ++ [Old (Call (CGet ctx uid) (RInstance i))] in
  let run := delete_vm uid ctx E tr in
  (reclaim_instance_interval E <> 0%Z ->
   let r := unit_reply (compute_soft_delete (xnova E) tr1 ctx i) in
   run = (answer_remapped [] r, tr1 ++ [XCall (XSoftDelete ctx i) r]))
  /\ (reclaim_instance_interval E = 0%Z ->
      let r := unit_reply (compute_delete (xnova E) tr1 ctx i) in
      run = (answer_remapped [] r, tr1 ++ [XCall (XDelete ctx i) r])).
Proof.
  intros Hget tr1 run. subst run.
  pose proof (lift_get_vm_found _ _ _ _ _ Hget) as Hfetch. fold tr1 in Hfetch.
  split; intros Hflag; cbn zeta; unfold delete_vm, xbind at 1;
    rewrite Hfetch; unfold xbind, xask.
  - rewrite (bool_decide_eq_true_2 _ Hflag).
    unfold COMPUTE_API_soft_delete, xapi.
    by destruct (compute_soft_delete _ _ _ _) as [[] | x].
  - rewrite bool_decide_eq_false_2 by (by intros Hne).
    unfold COMPUTE_API_delete, xapi.
    by destruct (compute_delete _ _ _ _) as [[] | x].
Qed.

Lemma delete_vm_once_witness :
  xcalls (delete_vm "vm-1" "ctx"
            (demo_xenv (-1) (fun _ => [vm1 "active" None]) no_xfault) []).2
  = [XSoftDelete "ctx" (vm1 "active" None)]
  /\ xcalls (delete_vm "vm-1" "ctx"
               (demo_xenv 0 (fun _ => [vm1 "active" None]) no_xfault) []).2
     = [XDelete "ctx" (vm1 "active" None)].
Proof.
  split.
  - rewrite (proj1 (delete_vm_once
                      (demo_xenv (-1) (fun _ => [vm1 "active" None]) no_xfault)
                      [] "vm-1" "ctx" (vm1 "active" None) eq_refl));
      [reflexivity | discriminate].
  - rewrite (proj2 (delete_vm_once
                      (demo_xenv 0 (fun _ => [vm1 "active" None]) no_xfault)
                      [] "vm-1" "ctx" (vm1 "active" None) eq_refl));
      reflexivity.
Defined.

(** X18: [rebuild_vm] draws a fresh password of the configured length
    after the fetch and hands it, with the image reference, to one rebuild
    call on the instance fetched; InstanceInvalidState and ImageNotFound
    become an AttributeError each with its own message, any other refusal
    is left alone, and the password is not part of what is returned. *)
Theorem rebuild_vm_run E tr uid image_href ctx i :
  compute_get (base_nova (xnova E) tr) (old_events tr) ctx uid = Returns i ->
  let tr1 := tr ++ [Old (Call (CGet ctx uid) (RInstance i))] in
  let n := password_length (xFLAGS E) in
  let pw := generate_password (base_nova (xnova E) tr1) (old_events tr1) n in
  let tr2 := tr1 ++ [Old (Password n pw)] in
  let r := unit_reply (compute_rebuild (xnova E) tr2 ctx i image_href pw) in
  rebuild_vm uid image_href ctx E tr
  = (answer_remapped
       [(Nova InstanceInvalidState, "VM is in an invalid state.");
        (ImageNotFound, "Cannot find image for rebuild")] r,
     tr2 ++ [XCall (XRebuild ctx i image_href pw) r]).
Proof.
  intros Hget tr1 n pw tr2 r. subst r.
  pose proof (lift_get_vm_found _ _ _ _ _ Hget) as Hfetch. fold tr1 in Hfetch.
  unfold rebuild_vm, xbind at 1. rewrite Hfetch.
  unfold xbind at 1, xask, xbind at 1. rewrite lift_generate_password.
  fold n pw tr2. unfold COMPUTE_API_rebuild. rewrite one_call_run.
  destruct (compute_rebuild _ _ _ _ _ _) as [[] | x]; [done |].
  unfold xorelse, xexcept, xraise, provider_class.
  cbn [answer_remapped remapped unit_reply].
  destruct (xissubclass (xexc_class x) (Nova InstanceInvalidState)); [done |].
  by destruct (xissubclass (xexc_class x) ImageNotFound).
Qed.

Lemma rebuild_vm_run_witness :
  rebuild_vm "vm-1" "image-2" "ctx"
    (demo_xenv 0 (fun _ => [vm1 "active" None])
       (xfault_on (fun c => match c with XRebuild _ _ _ _ => true | _ => false end)
          image_missing)) []
  = (XRaise (Escaped (AttributeError "Cannot find image for rebuild")),
     [Old (Call (CGet "ctx" "vm-1") (RInstance (vm1 "active" None)));
      Old (Password 12 "aB3dE6gH9jK2");
      XCall (XRebuild "ctx" (vm1 "active" None) "image-2" "aB3dE6gH9jK2")
        (XRaised image_missing)]).
Proof.
  exact (rebuild_vm_run
           (demo_xenv 0 (fun _ => [vm1 "active" None])
              (xfault_on
                 (fun c => match c with XRebuild _ _ _ _ => true | _ => false end)
                 image_missing))
           [] "vm-1" "image-2" "ctx" (vm1 "active" None) eq_refl).
Defined.

(** X19: [snapshot_vm] makes one snapshot call, with the image name given,
    on the instance just fetched; InstanceInvalidState becomes the
    AttributeError 'VM is not in an valid state.', any other refusal is
    left alone. *)
Theorem snapshot_vm_run E tr uid image_name ctx i :
  compute_get (base_nova (xnova E) tr) (old_events tr) ctx uid = Returns i ->
  let tr1 := tr ++ [Old (Call (CGet ctx uid) (RInstance i))] in
  let r := unit_reply (compute_snapshot (xnova E) tr1 ctx i image_name) in
  snapshot_vm uid image_name ctx E tr
  = (answer_remapped
       [(Nova InstanceInvalidState, "VM is not in an valid state.")] r,
     tr1 ++ [XCall (XSnapshot ctx i image_name) r]).
Proof.
  intros Hget tr1 r. subst r.
  pose proof (lift_get_vm_found _ _ _ _ _ Hget) as Hfetch. fold tr1 in Hfetch.
  unfold snapshot_vm, xbind. rewrite Hfetch.
  unfold COMPUTE_API_snapshot. rewrite one_call_run.
  destruct (compute_snapshot _ _ _ _ _) as [[] | x]; [done |].
  unfold xexcept, xraise, provider_class.
  cbn [answer_remapped remapped unit_reply].
  by destruct (xissubclass (xexc_class x) (Nova InstanceInvalidState)).
Qed.

Lemma snapshot_vm_run_witness :
  snapshot_vm "vm-1" "nightly" "ctx"
    (demo_xenv 0 (fun _ => [vm1 "building" None])
       (xfault_on (fun c => match c with XSnapshot _ _ _ => true | _ => false end)
          xinvalid_state)) []
  = (XRaise (Escaped (AttributeError "VM is not in an valid state.")),
     [Old (Call (CGet "ctx" "vm-1") (RInstance (vm1 "building" None)));
      XCall (XSnapshot "ctx" (vm1 "building" None) "nightly")
        (XRaised xinvalid_state)]).
Proof.
  exact (snapshot_vm_run
           (demo_xenv 0 (fun _ => [vm1 "building" None])
              (xfault_on
                 (fun c => match c with XSnapshot _ _ _ => true | _ => false end)
                 xinvalid_state))
           [] "vm-1" "nightly" "ctx" (vm1 "building" None) eq_refl).
Defined.

(** X20: [detach_volume] fetches no instance: its one event is the detach
    call for the volume id given; InvalidVolume and VolumeUnattached
    become an AttributeError each with its own message, any other refusal
    is left alone. *)
Theorem detach_volume_run E tr volume_id ctx :
  let r := unit_reply (compute_detach_volume (xnova E) tr ctx volume_id) in
  detach_volume volume_id ctx E tr
  = (answer_remapped
       [(InvalidVolume, "Invalid volume!");
        (VolumeUnattached, "Volume is not attached!")] r,
     tr ++ [XCall (XDetachVolume ctx volume_id) r]).
Proof.
  intros r. subst r. unfold detach_volume, COMPUTE_API_detach_volume.
  rewrite one_call_run.
  destruct (compute_detach_volume _ _ _ _) as [[] | x]; [done |].
  unfold xorelse, xexcept, xraise, provider_class.
  cbn [answer_remapped remapped unit_reply].
  destruct (xissubclass (xexc_class x) InvalidVolume); [done |].
  by destruct (xissubclass (xexc_class x) VolumeUnattached).
Qed.

(** The runs of [attach_volume] once the instance is fetched. *)
Lemma attach_volume_fetched E tr instance_id volume_id mount_point ctx i :
  compute_get (base_nova (xnova E) tr) (old_events tr) ctx instance_id
  = Returns i ->
  let tr1 := tr ++ [Old (Call (CGet ctx instance_id) (RInstance i))] in
  attach_volume instance_id volume_id mount_point ctx E tr
  = match volume_get (xnova E) tr1 ctx volume_id with
    | XRaises x =>
        (XRaise (attach_error x),
         tr1 ++ [XCall (XVolumeGet ctx volume_id) (XRaised x)])
    | XReturns vol =>
        let tr2 := tr1 ++ [XCall (XVolumeGet ctx volume_id) (XVolume vol)] in
        let r := unit_reply
                   (compute_attach_volume (xnova E) tr2 ctx i (vol_id vol)
                      mount_point) in
        (match r with
         | XRaised x => XRaise (attach_error x)
         | _ => XDone tt
         end,
         tr2 ++ [XCall (XAttachVolume ctx i (vol_id vol) mount_point) r])
    end.
Proof.
  intros Hget tr1.
  pose proof (lift_get_vm_found _ _ _ _ _ Hget) as Hfetch. fold tr1 in Hfetch.
  unfold attach_volume, xbind at 1. rewrite Hfetch.
  unfold xtry_except, xbind, VOLUME_API_get, COMPUTE_API_attach_volume, xapi.
  assert (Hhandle : forall x tr',
            match xorelse
                    (xexcept (Nova NotFound)
                       (xraise (A := unit) (HTTPError 404 "Volume not found!")))
                    (xexcept InvalidDevicePath
                       (xraise (AttributeError "Invalid device path!")))
                    (XProviderError x) with
            | Some recover => recover E tr'
            | None => (XRaise (XProviderError x), tr')
            end = (XRaise (attach_error x), tr')).
  { intros x tr'. unfold xorelse, xexcept, xraise, provider_class, attach_error.
    destruct (xissubclass (xexc_class x) (Nova NotFound)); [done |].
    by destruct (xissubclass (xexc_class x) InvalidDevicePath). }
  destruct (volume_get _ _ _ _) as [vol | x]; [| apply Hhandle].
  destruct (compute_attach_volume _ _ _ _ _ _) as [[] | x]; [done |].
  apply Hhandle.
Qed.

(** X21: [attach_volume] looks the volume up first and requests the attach
    only once it is found, for the instance fetched, at the mount point
    given and with the id of the volume record the volume API returned,
    not the id the caller gave.  A refusal of either call of a NotFound
    class is reported as the 404 'Volume not found!', also when it is the
    instance that the attach call did not find; InvalidDevicePath becomes
    an AttributeError; the run ends normally exactly when the attach was
    accepted. *)
Theorem attach_volume_run E tr instance_id volume_id mount_point ctx i :
  compute_get (base_nova (xnova E) tr) (old_events tr) ctx instance_id
  = Returns i ->
  let run := attach_volume instance_id volume_id mount_point ctx E tr in
  let new := added tr run.2 in
  (forall ctx' i' vid mp r,
     XCall (XAttachVolume ctx' i' vid mp) r ∈ new ->
     exists vol,
       new = [Old (Call (CGet ctx instance_id) (RInstance i));
              XCall (XVolumeGet ctx volume_id) (XVolume vol);
              XCall (XAttachVolume ctx i (vol_id vol) mount_point) r]
       /\ ctx' = ctx /\ i' = i /\ vid = vol_id vol /\ mp = mount_point)
  /\ (forall c x, XCall c (XRaised x) ∈ new -> run.1 = XRaise (attach_error x))
  /\ (run.1 = XDone tt
      <-> exists vid, XCall (XAttachVolume ctx i vid mount_point) XNone ∈ new).
Proof.
  intros Hget run new. subst run new.
  rewrite (attach_volume_fetched _ _ _ _ _ _ _ Hget). unfold added.
  destruct (volume_get _ _ _ _) as [vol | x]; cbn zeta.
  - destruct (compute_attach_volume _ _ _ _ _ _) as [[] | x];
      cbn [fst snd unit_reply]; rewrite <- !app_assoc, drop_app_length;
      cbn [app]; (split; [intros ctx' i' vid mp r | split; [intros c x' |]]);
      rewrite ?elem_of_cons, ?elem_of_nil.
    + intros [[=] | [[=] | [[= -> -> -> -> ->] | []]]]. by exists vol.
    + by intros [[=] | [[=] | [[=] | []]]].
    + split; [intros _; exists (vol_id vol) | done].
      rewrite !elem_of_cons. auto.
    + intros [[=] | [[=] | [[= -> -> -> -> ->] | []]]]. by exists vol.
    + by intros [[=] | [[=] | [[= -> ->] | []]]].
    + split; [done |]. intros [vid Hin].
      rewrite !elem_of_cons, elem_of_nil in Hin.
      by destruct Hin as [[=] | [[=] | [[=] | []]]].
  - cbn [fst snd]. rewrite <- !app_assoc, drop_app_length. cbn [app].
    split; [| split].
    + intros ctx' i' vid mp r. rewrite !elem_of_cons, elem_of_nil.
      by intros [[=] | [[=] | []]].
    + intros c x'. rewrite !elem_of_cons, elem_of_nil.
      by intros [[=] | [[= -> ->] | []]].
    + split; [done |]. intros [vid Hin].
      rewrite !elem_of_cons, elem_of_nil in Hin.
      by destruct Hin as [[=] | [[=] | []]].
Qed.

Lemma attach_volume_run_witness :
  (attach_volume "vm-1" "vol-1" "/dev/vdc" "ctx"
     (demo_xenv 0 (fun _ => [vm1 "active" None]) no_xfault) []).2
  = [Old (Call (CGet "ctx" "vm-1") (RInstance (vm1 "active" None)));
     XCall (XVolumeGet "ctx" "vol-1") (XVolume {| vol_id := "uuid-of-vol-1" |});
     XCall (XAttachVolume "ctx" (vm1 "active" None) "uuid-of-vol-1" "/dev/vdc")
       XNone]
  /\ (attach_volume "vm-1" "vol-1" "/dev/vdc" "ctx"
        (demo_xenv 0 (fun _ => [vm1 "active" None])
           (xfault_on
              (fun c => match c with XAttachVolume _ _ _ _ => true | _ => false end)
              instance_gone)) []).1
     = XRaise (Escaped (HTTPError 404 "Volume not found!")).
Proof.
  split.
  - destruct (proj1 (attach_volume_run
                       (demo_xenv 0 (fun _ => [vm1 "active" None]) no_xfault) []
                       "vm-1" "vol-1" "/dev/vdc" "ctx" (vm1 "active" None)
                       eq_refl)
                "ctx" (vm1 "active" None) "uuid-of-vol-1" "/dev/vdc" XNone)
      as (vol & Hnew & _ & _ & Hvid & _).
    { vm_compute. apply list_elem_of_lookup_2 with 2. reflexivity. }
    assert (Hvol : vol = {| vol_id := "uuid-of-vol-1" |}).
    { destruct vol. cbn in Hvid. by rewrite Hvid. }
    rewrite Hvol in Hnew. exact Hnew.
  - apply (proj1 (proj2 (attach_volume_run
                           (demo_xenv 0 (fun _ => [vm1 "active" None])
                              (xfault_on
                                 (fun c => match c with
                                           | XAttachVolume _ _ _ _ => true
                                           | _ => false
                                           end)
                                 instance_gone)) []
                           "vm-1" "vol-1" "/dev/vdc" "ctx" (vm1 "active" None)
                           eq_refl))
             (XAttachVolume "ctx" (vm1 "active" None) "uuid-of-vol-1" "/dev/vdc")
             instance_gone).
    vm_compute. apply list_elem_of_lookup_2 with 2. reflexivity.
Defined.

(** X22: nothing is kept between operations.  In [stop_vm] followed by
    [start_vm] the second operation fetches the instance again, at the
    history the first one left, and resumes what that fetch returned, not
    the instance the first one suspended. *)
Theorem stop_then_start_fetches_afresh E tr uid ctx i1 i2 :
  compute_get (base_nova (xnova E) tr) (old_events tr) ctx uid = Returns i1 ->
  let tr1 := tr ++ [Old (Call (CGet ctx uid) (RInstance i1))] in
  compute_suspend (xnova E) tr1 ctx i1 = XReturns tt ->
  let tr2 := tr1 ++ [XCall (XSuspend ctx i1) XNone] in
  compute_get (base_nova (xnova E) tr2) (old_events tr2) ctx uid = Returns i2 ->
  let tr3 := tr2 ++ [Old (Call (CGet ctx uid) (RInstance i2))] in
  let r := unit_reply (compute_resume (xnova E) tr3 ctx i2) in
  xbind (stop_vm uid ctx) (fun _ => start_vm uid ctx) E tr
  = (answer_500 "Error while starting VM: " r,
     tr3 ++ [XCall (XResume ctx i2) r]).
Proof.
  intros Hget1 tr1 Hsuspend tr2 Hget2 tr3 r. subst r.
  pose proof (lift_get_vm_found _ _ _ _ _ Hget1) as Hfetch1.
  pose proof (lift_get_vm_found _ _ _ _ _ Hget2) as Hfetch2.
  fold tr1 in Hfetch1. fold tr3 in Hfetch2.
  unfold xbind at 1, stop_vm, xbind at 1. rewrite Hfetch1.
  unfold COMPUTE_API_suspend. rewrite one_call_run, Hsuspend. fold tr2.
  unfold start_vm, xbind. rewrite Hfetch2.
  unfold COMPUTE_API_resume. rewrite one_call_run.
  by destruct (compute_resume _ _ _ _) as [[] | x].
Qed.

Lemma stop_then_start_fetches_afresh_witness :
  xbind (stop_vm "vm-1" "ctx") (fun _ => start_vm "vm-1" "ctx")
    (demo_xenv 0 suspending no_xfault) []
  = (XDone tt,
     [Old (Call (CGet "ctx" "vm-1")
             (RInstance (vm1 "active" (Some "suspending"))));
      XCall (XSuspend "ctx" (vm1 "active" (Some "suspending"))) XNone;
      Old (Call (CGet "ctx" "vm-1") (RInstance (vm1 "suspended" None)));
      XCall (XResume "ctx" (vm1 "suspended" None)) XNone]).
Proof.
  exact (stop_then_start_fetches_afresh (demo_xenv 0 suspending no_xfault) []
           "vm-1" "ctx" (vm1 "active" (Some "suspending")) (vm1 "suspended" None)
           eq_refl eq_refl eq_refl).
Defined.
